(** * Corespeed Finance Agent: statement ingestion and analytics

    A shallow embedding of the parsing, categorising and reporting core of
    [src/main.ts] ([parseCSV], [parseExcel], [parsePDF],
    [categorizeTransaction], [generateReport]), of its chat and of its HTTP
    handlers, together with the properties its specification states about
    them.

    Conventions of the embedding.
    - A JavaScript [number] is an IEEE 754 binary64 value: Rocq's primitive
      [float], with the operations the kernel computes and the axioms of
      [FloatAxioms] relating them to [SpecFloat].
    - A JavaScript string is a [string]: a sequence of code units below 256
      (the Latin-1 part of UTF-16).
    - A plain object used as a dictionary is the list of its own properties
      in enumeration order (array-index keys first, ascending, then the other
      keys in insertion order).  What it inherits from [Object.prototype]
      ([valueOf], [constructor], [__proto__], ...) is read where it has no
      property of its own.
    - A function that can raise returns an [outcome]. *)

From Stdlib Require Import List String Ascii ZArith NArith Bool Arith Lia.
From Stdlib Require Import Floats Sorted Permutation.
Import ListNotations.

Local Open Scope string_scope.
Local Open Scope list_scope.
Local Open Scope nat_scope.

(* ================================================================== *)
(** * Part I: definitions                                               *)
(* ================================================================== *)

(** ** Results of calls that may raise *)

Inductive exn : Type :=
| TypeError.

Inductive outcome (A : Type) : Type :=
| Returns (a : A)
| Throws (e : exn).

Arguments Returns {A} a.
Arguments Throws {A} e.

(** ** JavaScript strings *)

Module JSString.

(** [String.prototype.toLowerCase] on code units below 256. *)
Definition lowerChar (c : ascii) : ascii :=
  let n := nat_of_ascii c in
  if ((65 <=? n) && (n <=? 90))
     || ((192 <=? n) && (n <=? 222) && negb (n =? 215))
  then ascii_of_nat (n + 32) else c.

Fixpoint toLowerCase (s : string) : string :=
  match s with
  | EmptyString => EmptyString
  | String c s' => String (lowerChar c) (toLowerCase s')
  end.

(** White space and line terminators, as [trim] and [parseFloat] see them:
    TAB, LF, VT, FF, CR, SP and NBSP. *)
Definition isWhiteSpace (c : ascii) : bool :=
  let n := nat_of_ascii c in
  ((9 <=? n) && (n <=? 13)) || (n =? 32) || (n =? 160).

Fixpoint trimStart (s : string) : string :=
  match s with
  | EmptyString => EmptyString
  | String c s' => if isWhiteSpace c then trimStart s' else s
  end.

(** [trimEnd s] drops the trailing white space: a character is kept when
    it is not white space or something survives after it. *)
Fixpoint trimEnd (s : string) : string :=
  match s with
  | EmptyString => EmptyString
  | String c s' =>
      match trimEnd s' with
      | EmptyString => if isWhiteSpace c then EmptyString
                       else String c EmptyString
      | t => String c t
      end
  end.

Definition trim (s : string) : string := trimEnd (trimStart s).

(** [s.split(sep)] for a one-character separator: never empty. *)
Fixpoint split (sep : ascii) (s : string) : list string :=
  match s with
  | EmptyString => [EmptyString]
  | String c s' =>
      if Ascii.eqb c sep then EmptyString :: split sep s'
      else match split sep s' with
           | [] => [String c EmptyString]
           | w :: ws => String c w :: ws
           end
  end.

(** [s.includes(k)]: [k] occurs in [s] as a substring. *)
Fixpoint includes (s k : string) : bool :=
  String.prefix k s
  || match s with
     | EmptyString => false
     | String _ s' => includes s' k
     end.

(** The Boolean value of a string: non-empty. *)
Definition truthy (s : string) : bool :=
  match s with EmptyString => false | _ => true end.

Fixpoint filterChars (keep : ascii -> bool) (s : string) : string :=
  match s with
  | EmptyString => EmptyString
  | String c s' =>
      if keep c then String c (filterChars keep s') else filterChars keep s'
  end.

Definition isDigit (c : ascii) : bool :=
  let n := nat_of_ascii c in (48 <=? n) && (n <=? 57).

(** Code-unit order, the order of the default [Array.prototype.sort]. *)
Fixpoint ltb (a b : string) : bool :=
  match a, b with
  | EmptyString, EmptyString => false
  | EmptyString, String _ _ => true
  | String _ _, EmptyString => false
  | String x a', String y b' =>
      if (nat_of_ascii x <? nat_of_ascii y) then true
      else if (nat_of_ascii y <? nat_of_ascii x) then false
      else ltb a' b'
  end.

Definition leb (a b : string) : bool := negb (ltb b a).

End JSString.

(** ** JavaScript numbers *)

Module JSNumber.

Definition number : Type := float.
Bind Scope float_scope with number.

(** The Boolean value of a number: neither a zero nor NaN. *)
Definition truthy (x : number) : bool := negb (is_zero x || is_nan x).

Definition isNaN (x : number) : bool := is_nan x.

(** An integer as a number; exact up to 2^53 in absolute value. *)
Definition ofZ (z : Z) : number :=
  let a := of_uint63 (Uint63.of_Z (Z.abs z)) in
  if (z <? 0)%Z then (- a)%float else a.

(** An array length as a number. *)
Definition ofNat (n : nat) : number := ofZ (Z.of_nat n).

(** *** [parseFloat] *)

Definition digitVal (c : ascii) : Z := Z.of_nat (nat_of_ascii c - 48).

(** The longest run of decimal digits at the head of [s], read on top of
    [acc]: the number read, how many digits, and what follows them. *)
Fixpoint readDigits (s : string) (acc : Z) (n : nat) : Z * nat * string :=
  match s with
  | String c s' =>
      if JSString.isDigit c
      then readDigits s' (10 * acc + digitVal c)%Z (S n)
      else (acc, n, s)
  | EmptyString => (acc, n, s)
  end.

Definition readSign (s : string) : bool * string :=
  match s with
  | String "-" r => (true, r)
  | String "+" r => (false, r)
  | _ => (false, s)
  end.

(** An exponent part [e], sign, digits; without a digit there is none. *)
Definition readExponent (s : string) : Z :=
  match s with
  | String c r =>
      if Ascii.eqb c "e" || Ascii.eqb c "E" then
        let (neg, r1) := readSign r in
        let '(e, n, _) := readDigits r1 0%Z 0 in
        if n =? 0 then 0%Z else if neg then (- e)%Z else e
      else 0%Z
  | EmptyString => 0%Z
  end.

(** The number nearest to [m * 10^e10] (ties to even), negated when
    [neg]: the quotient of two integers, rounded once. *)
Definition decimalToNumber (neg : bool) (m e10 : Z) : number :=
  match m with
  | Zpos p =>
      let '(n, d) :=
        if (0 <=? e10)%Z
        then ((p * Z.to_pos (10 ^ e10))%positive, 1%positive)
        else (p, Z.to_pos (10 ^ (- e10))) in
      SF2Prim (SFdiv prec emax (S754_finite neg n 0) (S754_finite false d 0))
  | _ => if neg then neg_zero else zero
  end.

(** [parseFloat(input)]: leading white space is skipped, the longest
    prefix that is a decimal literal is read, and NaN is the answer when
    there is none. *)
Definition parseFloat (input : string) : number :=
  let (neg, s1) := readSign (JSString.trimStart input) in
  if String.prefix "Infinity" s1
  then (if neg then neg_infinity else infinity)
  else
    let '(m1, n1, s2) := readDigits s1 0%Z 0 in
    let '(m, nfrac, s3, ok) :=
      match s2 with
      | String "." r =>
          let '(m2, n2, s3) := readDigits r m1 0 in
          if (n1 =? 0) && (n2 =? 0) then (0%Z, 0, s2, false)
          else (m2, n2, s3, true)
      | _ => (m1, 0, s2, negb (n1 =? 0))
      end in
    if ok then decimalToNumber neg m (readExponent s3 - Z.of_nat nfrac)
    else nan.

(** *** [Math] *)

Definition Math_abs (x : number) : number := abs x.

(** [Math.round]: the nearest integer, a tie going towards +infinity; a
    negative argument that rounds to zero gives -0. *)
Definition Math_round (x : number) : number :=
  match Prim2SF x with
  | S754_finite s m e =>
      if (0 <=? e)%Z then x
      else
        let d := (2 ^ (- e))%Z in
        let v := if s then Zneg m else Zpos m in
        let r := ((2 * v + d) / (2 * d))%Z in
        if (r =? 0)%Z then (if s then neg_zero else zero) else ofZ r
  | _ => x
  end.

(** [Math.ceil]: the least integer not below the argument. *)
Definition Math_ceil (x : number) : number :=
  match Prim2SF x with
  | S754_finite s m e =>
      if (0 <=? e)%Z then x
      else
        let d := (2 ^ (- e))%Z in
        let v := if s then Zneg m else Zpos m in
        let r := (- ((- v) / d))%Z in
        if (r =? 0)%Z then neg_zero else ofZ r
  | _ => x
  end.

(** [Math.max] and [Math.min] of two numbers: NaN when one is NaN, and +0
    counts as larger than -0. *)
Definition Math_max (x y : number) : number :=
  if is_nan x || is_nan y then nan
  else if (x <? y)%float then y
  else if (y <? x)%float then x
  else if get_sign x then y else x.

Definition Math_min (x y : number) : number :=
  if is_nan x || is_nan y then nan
  else if (x <? y)%float then x
  else if (y <? x)%float then y
  else if get_sign x then x else y.

End JSNumber.

(** ** JavaScript arrays *)

Module JSArray.

(** [a[i]] for an integer [i]: [None] is [undefined]. *)
Definition get {A : Type} (a : list A) (i : Z) : option A :=
  if (i <? 0)%Z then None else nth_error a (Z.to_nat i).

Fixpoint findIndexFrom {A : Type} (p : A -> bool) (a : list A) (i : Z) : Z :=
  match a with
  | [] => (-1)%Z
  | x :: a' => if p x then i else findIndexFrom p a' (i + 1)%Z
  end.

(** [a.findIndex(p)]: the first index whose element satisfies [p], or -1. *)
Definition findIndex {A : Type} (p : A -> bool) (a : list A) : Z :=
  findIndexFrom p a 0%Z.

(** Insertion of [x] in front of a list ordered by [le]: [x] goes before
    the first element it does not have to follow. *)
Fixpoint insert {A : Type} (le : A -> A -> bool) (x : A) (l : list A)
  : list A :=
  match l with
  | [] => [x]
  | y :: l' => if le x y then x :: l else y :: insert le x l'
  end.

(** [a.sort(cmp)], a stable sort: [le x y] says that the comparator does
    not put [y] before [x], and elements it does not separate keep their
    order. *)
Fixpoint sort {A : Type} (le : A -> A -> bool) (a : list A) : list A :=
  match a with
  | [] => []
  | x :: a' => insert le x (sort le a')
  end.

(** [a.sort(cmp)] for a comparator returning a number: [y] is put before
    [x] only when [cmp x y] is positive (NaN counts as zero). *)
Definition sortBy {A : Type} (cmp : A -> A -> JSNumber.number) (a : list A)
  : list A :=
  sort (fun x y => negb (0 <? cmp x y)%float) a.

(** [a.sort()] on strings: ascending code-unit order. *)
Definition sortStrings (a : list string) : list string :=
  sort JSString.leb a.

(** [a.slice(-n)]: the last [n] elements, all of them when there are
    fewer. *)
Definition sliceLast {A : Type} (n : nat) (a : list A) : list A :=
  skipn (List.length a - n) a.

(** [a.slice(0, n)]. *)
Definition sliceFirst {A : Type} (n : nat) (a : list A) : list A :=
  firstn n a.

End JSArray.

(** ** The runtime *)

(** What the code does depends on its runtime in one respect: whether
    [Object.prototype] has the accessor [__proto__].  Node and the browsers
    have it; Deno removes it, unless it is started with
    [--unstable-unsafe-proto]. *)
Class Runtime : Type := {
  protoAccessor : bool
}.

(** Deno as it is started by default, which is how the program is run, and
    a runtime that has the accessor. *)
Definition Deno : Runtime := {| protoAccessor := false |}.
Definition Node : Runtime := {| protoAccessor := true |}.

(** ** Plain objects used as dictionaries *)

Module JSObject.

(** The own properties, in the order [Object.keys] and [Object.entries]
    list them. *)
Definition t (V : Type) : Type := list (string * V).

Fixpoint digitsValue (s : string) (acc : N) : option N :=
  match s with
  | EmptyString => Some acc
  | String c s' =>
      if JSString.isDigit c
      then digitsValue s' (10 * acc + N.of_nat (nat_of_ascii c - 48))%N
      else None
  end.

(** A key is an array index when it is the canonical decimal form of an
    integer between 0 and 2^32 - 2: such keys are listed first, in
    ascending numeric order. *)
Definition arrayIndex (k : string) : option N :=
  match k with
  | EmptyString => None
  | String c r =>
      if Ascii.eqb c "0" && JSString.truthy r then None
      else match digitsValue k 0%N with
           | Some n => if (n <=? 4294967294)%N then Some n else None
           | None => None
           end
  end.

(** The property [k] the object has itself: [None] when it has none. *)
Fixpoint get {V : Type} (k : string) (o : t V) : option V :=
  match o with
  | [] => None
  | (k', v) :: o' => if String.eqb k k' then Some v else get k o'
  end.

(** Assignment to a property the object has: its place is kept. *)
Fixpoint overwrite {V : Type} (k : string) (v : V) (o : t V) : t V :=
  match o with
  | [] => []
  | (k', v') :: o' =>
      if String.eqb k k' then (k', v) :: o' else (k', v') :: overwrite k v o'
  end.

(** A new array-index key goes among the array-index keys, in numeric
    order. *)
Fixpoint insertIndex {V : Type} (n : N) (k : string) (v : V) (o : t V)
  : t V :=
  match o with
  | [] => [(k, v)]
  | (k', v') :: o' =>
      match arrayIndex k' with
      | Some n' =>
          if (n <? n')%N then (k, v) :: o
          else (k', v') :: insertIndex n k v o'
      | None => (k, v) :: o
      end
  end.

(** [o[k] = v] where the object has the property [k] or gets it. *)
Definition set {V : Type} (k : string) (v : V) (o : t V) : t V :=
  match get k o with
  | Some _ => overwrite k v o
  | None =>
      match arrayIndex k with
      | Some n => insertIndex n k v o
      | None => o ++ [(k, v)]
      end
  end.

Definition keys {V : Type} (o : t V) : list string := map fst o.
Definition values {V : Type} (o : t V) : list V := map snd o.
Definition entries {V : Type} (o : t V) : list (string * V) := o.

(** *** What a plain object inherits

    An object made by [{}] has [Object.prototype] as its prototype.  Where
    the object has no property [k] of its own, [o[k]] is the member of
    [Object.prototype] of that name, if there is one: one of its functions
    or, through the getter of [__proto__], [Object.prototype] itself. *)

(** The functions of [Object.prototype]. *)
Definition methods : list string :=
  ["constructor"; "hasOwnProperty"; "isPrototypeOf"; "propertyIsEnumerable";
   "toLocaleString"; "toString"; "valueOf"; "__defineGetter__";
   "__defineSetter__"; "__lookupGetter__"; "__lookupSetter__"].

(** An inherited object: the function [Object.prototype[name]], or
    [Object.prototype]. *)
Inductive Inherited : Type :=
| Method (name : string)
| Prototype.

Definition inherited {runtime : Runtime} (k : string) : option Inherited :=
  if existsb (String.eqb k) methods then Some (Method k)
  else if String.eqb k "__proto__" && protoAccessor then Some Prototype
  else None.

(** What [o[k]] evaluates to: the object's own property, an inherited
    object, or [undefined]. *)
Inductive Lookup (V : Type) : Type :=
| Own (v : V)
| Inherits (m : Inherited)
| Missing.

Arguments Own {V} v.
Arguments Inherits {V} m.
Arguments Missing {V}.

(** [o[k]] *)
Definition lookup {runtime : Runtime} {V : Type} (k : string) (o : t V)
  : Lookup V :=
  match get k o with
  | Some v => Own v
  | None =>
      match inherited k with
      | Some m => Inherits m
      | None => Missing
      end
  end.

(** [o[k] = v] for a [v] that is no object.  The functions of
    [Object.prototype] are writable properties, so the object gets a
    property of its own; the setter of [__proto__] ignores such a [v], and
    the object stays as it is. *)
Definition assign {runtime : Runtime} {V : Type} (k : string) (v : V)
    (o : t V) : t V :=
  match get k o, inherited k with
  | None, Some Prototype => o
  | _, _ => set k v o
  end.

End JSObject.

Import JSNumber.

(** ** Types (src/main.ts, lines 11-43) *)

Record Transaction : Type := {
  date : string;
  merchant : string;
  amount : number;
  category : string;
  description : option string
}.

(** ** Categorisation (lines 161-182) *)

Record Rule : Type := {
  rule_category : string;
  keywords : list string
}.

Definition CATEGORY_RULES : list Rule := [
  {| rule_category := "Dining";
     keywords := ["restaurant"; "cafe"; "coffee"; "starbucks"; "dinner";
                  "lunch"; "food"; "grill"; "bistro"; "sakura"] |};
  {| rule_category := "Groceries";
     keywords := ["grocery"; "supermarket"; "whole foods"; "market";
                  "trader"] |};
  {| rule_category := "Transport";
     keywords := ["uber"; "lyft"; "gas"; "fuel"; "shell"; "exxon"; "ride";
                  "taxi"] |};
  {| rule_category := "Subscriptions";
     keywords := ["netflix"; "spotify"; "prime"; "subscription";
                  "membership"; "gym"; "fitness"; "icloud"] |};
  {| rule_category := "Shopping";
     keywords := ["amazon"; "shop"; "purchase"; "store"; "mall"; "target";
                  "walmart"] |};
  {| rule_category := "Entertainment";
     keywords := ["movie"; "cinema"; "theater"; "ticket"; "game"; "ppac"] |};
  {| rule_category := "Utilities";
     keywords := ["electric"; "water"; "internet"; "phone"; "utility";
                  "bill"] |};
  {| rule_category := "Health";
     keywords := ["pharmacy"; "doctor"; "clinic"; "medical"; "hospital";
                  "cvs"] |}
].

(** The [for] loop over the rules: the first rule one of whose keywords
    occurs in [text] returns. *)
Fixpoint categorizeLoop (rules : list Rule) (text : string) : string :=
  match rules with
  | [] => "Other"
  | rule :: rest =>
      if existsb (fun keyword => JSString.includes text keyword)
                 (keywords rule)
      then rule_category rule
      else categorizeLoop rest text
  end.

Definition categorizeTransaction (description merchant : string) : string :=
  let text := JSString.toLowerCase (description ++ " " ++ merchant) in
  categorizeLoop CATEGORY_RULES text.

(** ** File parsing (lines 61-159) *)

(** [new Date().toISOString().split('T')[0]], where [clock i] is what
    [new Date().toISOString()] returns while row [i] is processed. *)
Definition currentDate (clock : nat -> string) (i : nat) : string :=
  nth 0 (JSString.split "T" (clock i)) "".

(** [s.replace(/[^0-9.-]/g, '')] *)
Definition isNumericChar (c : ascii) : bool :=
  JSString.isDigit c || Ascii.eqb c "." || Ascii.eqb c "-".

Definition stripNonNumeric (s : string) : string :=
  JSString.filterChars isNumericChar s.

(** [v || d] for a string or [undefined] on the left. *)
Definition orElse (v : option string) (d : string) : string :=
  match v with
  | Some s => if JSString.truthy s then s else d
  | None => d
  end.

(** The roles of the columns, by their header (lines 70-73). *)
Definition isDateHeader (h : string) : bool := JSString.includes h "date".
Definition isMerchantHeader (h : string) : bool :=
  JSString.includes h "merchant" || JSString.includes h "description"
  || JSString.includes h "name".
Definition isAmountHeader (h : string) : bool :=
  JSString.includes h "amount" || JSString.includes h "price"
  || JSString.includes h "total".
Definition isDescriptionHeader (h : string) : bool :=
  JSString.includes h "description".

(** The body of the loop of [parseCSV] (lines 68-91), from row [i] on:
    [transactions] is what has been pushed so far.  Reading a property of
    [undefined] raises a [TypeError]. *)
Fixpoint parseCSV_rows (clock : nat -> string) (headers : list string)
    (lines : list string) (i : nat) (transactions : list Transaction)
  : outcome (list Transaction) :=
  match lines with
  | [] => Returns transactions
  | line :: rest =>
      let values := map JSString.trim (JSString.split "," line) in
      let dateIdx := JSArray.findIndex isDateHeader headers in
      let merchantIdx := JSArray.findIndex isMerchantHeader headers in
      let amountIdx := JSArray.findIndex isAmountHeader headers in
      let descIdx := JSArray.findIndex isDescriptionHeader headers in
      if (0 <=? dateIdx)%Z && (0 <=? amountIdx)%Z then
        match JSArray.get values amountIdx with
        | None => Throws TypeError
        | Some cell =>
            let amount := Math_abs (parseFloat (stripNonNumeric cell)) in
            let merchant := orElse (JSArray.get values merchantIdx) "Unknown" in
            let description := orElse (JSArray.get values descIdx) merchant in
            let category := categorizeTransaction description merchant in
            parseCSV_rows clock headers rest (S i)
              (transactions ++
               [ {| date := orElse (JSArray.get values dateIdx)
                                   (currentDate clock i);
                    merchant := merchant;
                    amount := if isNaN amount then 0%float else amount;
                    category := category;
                    description := Some description |} ])
        end
      else parseCSV_rows clock headers rest (S i) transactions
  end.

(** The non-blank lines of the content (line 62). *)
Definition csvLines (content : string) : list string :=
  filter (fun line => JSString.truthy (JSString.trim line))
         (JSString.split "010" content).

(** The header names (line 65). *)
Definition csvHeaders (lines : list string) : list string :=
  map JSString.trim
      (JSString.split "," (JSString.toLowerCase (nth 0 lines ""))).

Definition parseCSV (clock : nat -> string) (content : string)
  : outcome (list Transaction) :=
  let lines := csvLines content in
  if List.length lines <? 2 then Returns []
  else parseCSV_rows clock (csvHeaders lines) (skipn 1 lines) 1 [].

(** *** Spreadsheets

    The rows [XLSX.utils.sheet_to_json] returns are objects whose values
    have type [any]: strings, numbers, Booleans.  The transaction built from
    a row stores them unconverted. *)

Module Sheet.

Inductive value : Type :=
| VUndefined
| VNull
| VBoolean (b : bool)
| VNumber (x : number)
| VString (s : string).

Definition truthy (v : value) : bool :=
  match v with
  | VUndefined | VNull => false
  | VBoolean b => b
  | VNumber x => JSNumber.truthy x
  | VString s => JSString.truthy s
  end.

(** A row: its own enumerable properties in the order of [Object.keys]. *)
Definition Row : Type := JSObject.t value.

(** What [parseExcel] pushes (lines 140-145): no description. *)
Record Transaction : Type := {
  date : value;
  merchant : value;
  amount : number;
  category : value
}.

(** [row[k]] *)
Definition prop (row : Row) (k : string) : value :=
  match JSObject.get k row with
  | Some v => v
  | None => VUndefined
  end.

(** [k || ''] for the result of [find]. *)
Definition keyOrEmpty (k : option string) : string :=
  match k with
  | Some s => s
  | None => ""
  end.

(** The Boolean value of the result of [find]. *)
Definition found (k : option string) : bool :=
  match k with
  | Some s => JSString.truthy s
  | None => false
  end.

(** [v || d] *)
Definition orElse (v d : value) : value := if truthy v then v else d.

Definition isDateKey (k : string) : bool :=
  JSString.includes (JSString.toLowerCase k) "date".
Definition isMerchantKey (k : string) : bool :=
  JSString.includes (JSString.toLowerCase k) "merchant"
  || JSString.includes (JSString.toLowerCase k) "description"
  || JSString.includes (JSString.toLowerCase k) "name".
Definition isAmountKey (k : string) : bool :=
  JSString.includes (JSString.toLowerCase k) "amount"
  || JSString.includes (JSString.toLowerCase k) "price"
  || JSString.includes (JSString.toLowerCase k) "total".
Definition isCategoryKey (k : string) : bool :=
  JSString.includes (JSString.toLowerCase k) "category"
  || JSString.includes (JSString.toLowerCase k) "type".

End Sheet.

Section Excel.

(** The SheetJS library and [Number.prototype.toString] are not part of
    the repository: [XLSX_first_sheet] stands for lines 98-103 (reading
    the workbook and converting its first sheet, which may raise and may
    return nothing), [Number_toString] for the conversion of a number to
    a string inside [String(...)]. *)
Variable ArrayBuffer : Type.
Variable XLSX_first_sheet : ArrayBuffer -> outcome (option (list Sheet.Row)).
Variable Number_toString : number -> string.

(** [String(v)] *)
Definition String_of (v : Sheet.value) : string :=
  match v with
  | Sheet.VUndefined => "undefined"
  | Sheet.VNull => "null"
  | Sheet.VBoolean true => "true"
  | Sheet.VBoolean false => "false"
  | Sheet.VNumber x => Number_toString x
  | Sheet.VString s => s
  end.

(** The body of the [for ... of] loop (lines 110-147) from row [i] on. *)
Fixpoint parseExcel_rows (clock : nat -> string) (jsonData : list Sheet.Row)
    (i : nat) (transactions : list Sheet.Transaction)
  : list Sheet.Transaction :=
  match jsonData with
  | [] => transactions
  | row :: rest =>
      let dateKey := find Sheet.isDateKey (JSObject.keys row) in
      let merchantKey := find Sheet.isMerchantKey (JSObject.keys row) in
      let amountKey := find Sheet.isAmountKey (JSObject.keys row) in
      let categoryKey := find Sheet.isCategoryKey (JSObject.keys row) in
      if Sheet.found dateKey && Sheet.found amountKey then
        let amountStr :=
          stripNonNumeric
            (String_of (Sheet.prop row (Sheet.keyOrEmpty amountKey))) in
        let amount := Math_abs (parseFloat amountStr) in
        parseExcel_rows clock rest (S i)
          (transactions ++
           [ {| Sheet.date :=
                  Sheet.orElse (Sheet.prop row (Sheet.keyOrEmpty dateKey))
                    (Sheet.VString (currentDate clock i));
                Sheet.merchant :=
                  Sheet.orElse
                    (Sheet.prop row (Sheet.keyOrEmpty merchantKey))
                    (Sheet.VString "Unknown");
                Sheet.amount := if isNaN amount then 0%float else amount;
                Sheet.category :=
                  Sheet.orElse
                    (Sheet.prop row (Sheet.keyOrEmpty categoryKey))
                    (Sheet.VString "Uncategorized") |} ])
      else parseExcel_rows clock rest (S i) transactions
  end.

(** [parseExcel]: whatever is raised inside the [try] block is caught and
    an empty list is returned. *)
Definition parseExcel (clock : nat -> string) (arrayBuffer : ArrayBuffer)
  : outcome (list Sheet.Transaction) :=
  match XLSX_first_sheet arrayBuffer with
  | Throws _ => Returns []
  | Returns None => Returns []
  | Returns (Some jsonData) =>
      if List.length jsonData =? 0 then Returns []
      else Returns (parseExcel_rows clock jsonData 0 [])
  end.

(** [parsePDF] (lines 156-159). *)
Definition parsePDF (arrayBuffer : ArrayBuffer) : outcome (list Transaction) :=
  Returns [].

End Excel.

(** ** Report generation (lines 185-283) *)

(** A decimal literal denotes the nearest binary64 value, in JavaScript as
    here. *)
Set Warnings "-inexact-float".

(** *** The values of the arithmetic of the report

    [byCategory] and [byMonth] are declared as [Record<string, number>].
    What lines 207 and 214 store is the result of a [+], and that is a
    string when the key names an inherited object: the object is truthy,
    and [+] concatenates its text and the text of the amount. *)

Module JSValue.

(** What [+] converts to a text without making a string of its own: a
    number or [undefined]. *)
Inductive Atom : Type :=
| ANumber (x : number)
| AUndefined.

(** A piece of a string made by [+]: the text of an atom or of an
    inherited object. *)
Inductive Piece : Type :=
| PAtom (a : Atom)
| PObject (m : JSObject.Inherited).

(** A number, or a string made by [+] around the text of an inherited
    object: the texts of [before], the text of [object] (for a function
    such as [valueOf] it is [function valueOf() { [native code] }], for
    [Object.prototype] it is [[object Object]]) and the texts of [after],
    in this order.  Such a string is not empty and is no numeric
    literal. *)
Inductive primitive : Type :=
| Num (x : number)
| Str (before : list Atom) (object : JSObject.Inherited)
      (after : list Piece).

(** What an expression evaluates to: a primitive, an inherited object or
    [undefined]. *)
Definition value : Type := JSObject.Lookup primitive.

Definition truthy (v : value) : bool :=
  match v with
  | JSObject.Own (Num x) => JSNumber.truthy x
  | JSObject.Own (Str _ _ _) => true
  | JSObject.Inherits _ => true
  | JSObject.Missing => false
  end.

(** [v || 0] *)
Definition orZero (v : value) : value :=
  if truthy v then v else JSObject.Own (Num 0).

(** [Number(v)]: NaN for [undefined], for a string as above, and for an
    inherited object, which is converted through its text. *)
Definition toNumber (v : value) : number :=
  match v with
  | JSObject.Own (Num x) => x
  | _ => nan
  end.

(** The pieces of the text of a value. *)
Definition pieces (v : value) : list Piece :=
  match v with
  | JSObject.Own (Num x) => [PAtom (ANumber x)]
  | JSObject.Own (Str before object after) =>
      map PAtom before ++ PObject object :: after
  | JSObject.Inherits m => [PObject m]
  | JSObject.Missing => [PAtom AUndefined]
  end.

(** [a + b]: the concatenation of the texts when an operand is a string or
    an object, the sum of the numbers otherwise. *)
Definition plus (a b : value) : primitive :=
  match a with
  | JSObject.Own (Str before object after) =>
      Str before object (after ++ pieces b)
  | JSObject.Inherits m => Str [] m (pieces b)
  | JSObject.Own (Num _) | JSObject.Missing =>
      let atom := match a with
                  | JSObject.Own (Num x) => ANumber x
                  | _ => AUndefined
                  end in
      match b with
      | JSObject.Own (Str before object after) =>
          Str (atom :: before) object after
      | JSObject.Inherits m => Str [atom] m []
      | JSObject.Own (Num _) | JSObject.Missing =>
          Num (toNumber a + toNumber b)%float
      end
  end.

End JSValue.

Record Totals : Type := {
  transactionCount : nat;
  totalSpent : number;
  avgSpendPerTxn : number
}.

(** A value of [merchantMap]. *)
Record MerchantData : Type := {
  spent : number;
  count : nat
}.

(** An element of [topMerchants]. *)
Module Top.
Record Merchant : Type := {
  merchant : string;
  spent : number;
  count : nat
}.
End Top.

Record Forecast : Type := {
  nextMonthSpend : number;
  confidence : string;
  method : string
}.

Record HealthScore : Type := {
  score : number;
  summary : string
}.

Record PeriodHint : Type := {
  start : string;
  end_ : string;
  monthsDetected : nat
}.

Record Report : Type := {
  totals : Totals;
  byCategory : JSObject.t JSValue.primitive;
  byMonth : JSObject.t JSValue.primitive;
  topMerchants : list Top.Merchant;
  budget : JSObject.t number;
  forecast : option Forecast;
  healthScore : HealthScore;
  periodHint : PeriodHint
}.

Section Report.

Context {runtime : Runtime}.

(** Lines 206-208. *)
Definition groupByCategory (transactions : list Transaction)
  : JSObject.t JSValue.primitive :=
  fold_left
    (fun byCategory t =>
       JSObject.assign (category t)
         (JSValue.plus
            (JSValue.orZero (JSObject.lookup (category t) byCategory))
            (JSObject.Own (JSValue.Num (amount t))))
         byCategory)
    transactions [].

(** Lines 211-215. *)
Definition groupByMonth (transactions : list Transaction)
  : JSObject.t JSValue.primitive :=
  fold_left
    (fun byMonth t =>
       let month := String.substring 0 7 (date t) in
       JSObject.assign month
         (JSValue.plus (JSValue.orZero (JSObject.lookup month byMonth))
                       (JSObject.Own (JSValue.Num (amount t))))
         byMonth)
    transactions [].

(** The callback of lines 219-225: a merchant seen for the first time
    gets a fresh [{spent: 0, count: 0}], which is then updated in place.
    An inherited object is truthy: for a merchant named as one, no
    property is made, and [spent] and [count] are written on the inherited
    object, which nothing reads them from; the map is as it was. *)
Definition countMerchant (merchantMap : JSObject.t MerchantData)
    (t : Transaction) : JSObject.t MerchantData :=
  let merchantMap1 :=
    match JSObject.lookup (merchant t) merchantMap with
    | JSObject.Own _ | JSObject.Inherits _ => merchantMap
    | JSObject.Missing =>
        JSObject.set (merchant t) {| spent := 0; count := 0 |} merchantMap
    end in
  match JSObject.lookup (merchant t) merchantMap1 with
  | JSObject.Own data =>
      JSObject.overwrite (merchant t)
        {| spent := (spent data + amount t)%float;
           count := count data + 1 |}
        merchantMap1
  | JSObject.Inherits _ | JSObject.Missing => merchantMap1
  end.

(** Lines 218-225. *)
Definition groupByMerchant (transactions : list Transaction)
  : JSObject.t MerchantData :=
  fold_left countMerchant transactions [].

(** Lines 227-230. *)
Definition rankMerchants (merchantMap : JSObject.t MerchantData)
  : list Top.Merchant :=
  JSArray.sliceFirst 10
    (JSArray.sortBy (fun a b => (Top.spent b - Top.spent a)%float)
       (map (fun '(merchant, data) =>
               {| Top.merchant := merchant;
                  Top.spent := spent data;
                  Top.count := count data |})
            (JSObject.entries merchantMap))).

(** Lines 233-236. *)
Definition suggestBudget (byCategory : JSObject.t JSValue.primitive)
  : JSObject.t number :=
  fold_left
    (fun budget '(cat, spent) =>
       JSObject.assign cat
         (Math_ceil (JSValue.toNumber (JSObject.Own spent) * 1.1)%float)
         budget)
    (JSObject.entries byCategory) [].

(** Lines 239-249. *)
Definition makeForecast (byMonth : JSObject.t JSValue.primitive)
  : option Forecast :=
  let months := JSArray.sortStrings (JSObject.keys byMonth) in
  if 2 <=? List.length months then
    let recentMonths := JSArray.sliceLast 3 months in
    let avgRecent :=
      (JSValue.toNumber
         (JSObject.Own
            (fold_left
               (fun sum m =>
                  JSValue.plus (JSObject.Own sum) (JSObject.lookup m byMonth))
               recentMonths (JSValue.Num 0)))
       / ofNat (List.length recentMonths))%float in
    Some {| nextMonthSpend := Math_round avgRecent;
            confidence := if 3 <=? List.length months then "High"
                          else "Medium";
            method := "Average of last 3 months" |}
  else None.

(** Lines 252-263.  The summary is chosen from the score before it is
    clamped. *)
Definition makeHealthScore (totalSpent : number)
    (byCategory byMonth : JSObject.t JSValue.primitive) : HealthScore :=
  let avgMonthly :=
    (totalSpent / ofNat (List.length (JSObject.keys byMonth)))%float in
  let score0 := 75%float in
  let score1 := if (3000 <? avgMonthly)%float then (score0 - 15)%float
                else score0 in
  let score2 := if (5000 <? avgMonthly)%float then (score1 - 10)%float
                else score1 in
  let dining :=
    JSValue.truthy (JSObject.lookup "Dining" byCategory)
    && (totalSpent * 0.3
        <? JSValue.toNumber (JSObject.lookup "Dining" byCategory))%float in
  let score3 := if dining then (score2 - 10)%float else score2 in
  {| score := Math_max 0 (Math_min 100 score3);
     summary := if (80 <=? score3)%float then "Excellent financial health!"
                else if (60 <=? score3)%float
                     then "Good, with room for improvement"
                     else "Consider reducing spending" |}.

(** Lines 266-271. *)
Definition makePeriodHint (transactions : list Transaction)
    (byMonth : JSObject.t JSValue.primitive) : PeriodHint :=
  let dates := JSArray.sortStrings (map date transactions) in
  {| start := nth 0 dates "";
     end_ := nth (List.length dates - 1) dates "";
     monthsDetected := List.length (JSObject.keys byMonth) |}.

Definition generateReport (transactions : list Transaction) : Report :=
  if List.length transactions =? 0 then
    {| totals := {| transactionCount := 0; totalSpent := 0;
                    avgSpendPerTxn := 0 |};
       byCategory := [];
       byMonth := [];
       topMerchants := [];
       budget := [];
       forecast := None;
       healthScore := {| score := 0; summary := "No data available" |};
       periodHint := {| start := ""; end_ := ""; monthsDetected := 0 |} |}
  else
    let totalSpent :=
      fold_left (fun sum t => (sum + amount t)%float) transactions 0%float in
    let transactionCount := List.length transactions in
    let avgSpendPerTxn := (totalSpent / ofNat transactionCount)%float in
    let byCategory := groupByCategory transactions in
    let byMonth := groupByMonth transactions in
    let merchantMap := groupByMerchant transactions in
    let topMerchants := rankMerchants merchantMap in
    let budget := suggestBudget byCategory in
    let forecast := makeForecast byMonth in
    let healthScore := makeHealthScore totalSpent byCategory byMonth in
    let periodHint := makePeriodHint transactions byMonth in
    {| totals := {| transactionCount := transactionCount;
                    totalSpent := totalSpent;
                    avgSpendPerTxn := avgSpendPerTxn |};
       byCategory := byCategory;
       byMonth := byMonth;
       topMerchants := topMerchants;
       budget := budget;
       forecast := forecast;
       healthScore := healthScore;
       periodHint := periodHint |}.

End Report.

(** ** Vocabulary of the proofs: signs and order of binary64 values *)

Module IEEE.

Local Open Scope Z_scope.

Definition sf_signed (sx : bool) (f : spec_float) : Prop :=
  match f with
  | S754_zero s | S754_infinity s | S754_finite s _ _ => s = sx
  | S754_nan => False
  end.

Definition sf_nonzero (f : spec_float) : Prop :=
  match f with
  | S754_zero _ => False
  | _ => True
  end.

(** Non-negative values: a zero of either sign, a positive number or
    +infinity. *)
Definition sf_nonneg (f : spec_float) : bool :=
  match f with
  | S754_zero _ => true
  | S754_infinity s | S754_finite s _ _ => negb s
  | S754_nan => false
  end.

(** The rank of a non-negative value: an integer that orders them. *)
Definition sf_rank (f : spec_float) : Z :=
  match f with
  | S754_finite _ m e => Zpos m * 2 ^ (e + 1074)
  | S754_infinity _ => 2 ^ 2100
  | _ => 0
  end.

Definition nonneg (x : float) : bool := (0 <=? x)%float.
Definition pos0 (x : float) : Prop := sf_signed false (Prim2SF x).
Definition rank (x : float) : Z := sf_rank (Prim2SF x).

End IEEE.

(** [k] occurs in [s]. *)
Definition Substring (k s : string) : Prop :=
  exists pre post, s = (pre ++ k ++ post)%string.

(** One of the keywords of [rule] occurs in [text]. *)
Definition RuleMatches (rule : Rule) (text : string) : Prop :=
  exists keyword, In keyword (keywords rule) /\ Substring keyword text.

(** ** Vocabulary of the properties of the parsers *)

(** A line feed. *)
Definition LF : string := String "010" "".

(** [f i x0; f (i+1) x1; ...] *)
Fixpoint mapi {A B : Type} (f : nat -> A -> B) (i : nat) (l : list A)
  : list B :=
  match l with
  | [] => []
  | x :: l' => f i x :: mapi f (S i) l'
  end.

(** The data rows of a delimited text: its non-blank lines after the
    header. *)
Definition csvDataLines (content : string) : list string :=
  skipn 1 (csvLines content).

(** The cells of a data row. *)
Definition csvValues (line : string) : list string :=
  map JSString.trim (JSString.split "," line).

(** The cell of a data row in the first column whose header satisfies
    [role]; [None] when there is no such column or the row is too short. *)
Definition csvCell (role : string -> bool) (headers : list string)
    (line : string) : option string :=
  JSArray.get (csvValues line) (JSArray.findIndex role headers).

(** A date column and an amount column are resolved (line 75). *)
Definition csvResolved (headers : list string) : bool :=
  (0 <=? JSArray.findIndex isDateHeader headers)%Z
  && (0 <=? JSArray.findIndex isAmountHeader headers)%Z.

Definition csvHasAmountCell (headers : list string) (line : string) : bool :=
  match csvCell isAmountHeader headers line with
  | Some _ => true
  | None => false
  end.

(** The amount the parsers store for the text of an amount cell, in the
    words of the specification: everything but digits, dots and minus signs
    is removed, the rest is parsed, the sign is dropped, and what is not a
    number counts as 0. *)
Definition normalizedAmount (text : string) : number :=
  let stripped :=
    JSString.filterChars
      (fun c => JSString.isDigit c || Ascii.eqb c "." || Ascii.eqb c "-")
      text in
  let parsed := parseFloat stripped in
  if isNaN parsed then 0%float else Math_abs parsed.

(** The transaction [parseCSV] pushes for data row [line], processed as
    row [i] (lines 76-89). *)
Definition csvTransaction (clock : nat -> string) (headers : list string)
    (i : nat) (line : string) : Transaction :=
  let merchant := orElse (csvCell isMerchantHeader headers line) "Unknown" in
  let description :=
    orElse (csvCell isDescriptionHeader headers line) merchant in
  {| date := orElse (csvCell isDateHeader headers line) (currentDate clock i);
     merchant := merchant;
     amount :=
       match csvCell isAmountHeader headers line with
       | Some cell => normalizedAmount cell
       | None => 0%float
       end;
     category := categorizeTransaction description merchant;
     description := Some description |}.

(** A ten-character date [YYYY-MM-DD]. *)
Definition isISODate (s : string) : bool :=
  match s with
  | String y1 (String y2 (String y3 (String y4 (String h1
      (String m1 (String m2 (String h2 (String d1 (String d2 ""))))))))) =>
      JSString.isDigit y1 && JSString.isDigit y2 && JSString.isDigit y3
      && JSString.isDigit y4 && Ascii.eqb h1 "-"
      && JSString.isDigit m1 && JSString.isDigit m2 && Ascii.eqb h2 "-"
      && JSString.isDigit d1 && JSString.isDigit d2
  | _ => false
  end.

(** A spreadsheet row has a key for the date and one for the amount
    (line 136). *)
Definition sheetResolved (row : Sheet.Row) : bool :=
  existsb Sheet.isDateKey (JSObject.keys row)
  && existsb Sheet.isAmountKey (JSObject.keys row).

(** The value of a row under the first of its keys that satisfies [role]. *)
Definition sheetCell (role : string -> bool) (row : Sheet.Row) : Sheet.value :=
  Sheet.prop row (Sheet.keyOrEmpty (find role (JSObject.keys row))).

(** The transaction [parseExcel] pushes for [row], processed as row [i]
    (lines 137-145). *)
Definition sheetTransaction (Number_toString : number -> string)
    (clock : nat -> string) (i : nat) (row : Sheet.Row) : Sheet.Transaction :=
  {| Sheet.date :=
       Sheet.orElse (sheetCell Sheet.isDateKey row)
                    (Sheet.VString (currentDate clock i));
     Sheet.merchant :=
       Sheet.orElse (sheetCell Sheet.isMerchantKey row)
                    (Sheet.VString "Unknown");
     Sheet.amount :=
       normalizedAmount
         (String_of Number_toString (sheetCell Sheet.isAmountKey row));
     Sheet.category :=
       Sheet.orElse (sheetCell Sheet.isCategoryKey row)
                    (Sheet.VString "Uncategorized") |}.

(** The rows kept, each with the index it is processed at. *)
Fixpoint sheetKept (rows : list Sheet.Row) (i : nat)
  : list (nat * Sheet.Row) :=
  match rows with
  | [] => []
  | row :: rest =>
      if sheetResolved row then (i, row) :: sheetKept rest (S i)
      else sheetKept rest (S i)
  end.

(** ** Vocabulary of the properties of dictionaries *)

(** The place a new array-index key takes among keys in enumeration
    order. *)
Fixpoint insertIndexKey (n : N) (k : string) (ks : list string)
  : list string :=
  match ks with
  | [] => [k]
  | k' :: ks' =>
      match JSObject.arrayIndex k' with
      | Some n' =>
          if (n <? n')%N then k :: ks else k' :: insertIndexKey n k ks'
      | None => k :: ks
      end
  end.

(** The keys of an object in enumeration order once [k] has been assigned
    to. *)
Definition addKey (k : string) (ks : list string) : list string :=
  if existsb (String.eqb k) ks then ks
  else match JSObject.arrayIndex k with
       | Some n => insertIndexKey n k ks
       | None => ks ++ [k]
       end.

(** The enumeration order of the keys of an object, empty at first, whose
    properties were assigned to in the order [l]. *)
Definition keyOrder (l : list string) : list string :=
  fold_left (fun ks k => addKey k ks) l [].

Definition isArrayIndex (k : string) : bool :=
  match JSObject.arrayIndex k with
  | Some _ => true
  | None => false
  end.

(** The numeric value of an array-index key (0 for the other keys). *)
Definition indexValue (k : string) : N :=
  match JSObject.arrayIndex k with
  | Some n => n
  | None => 0%N
  end.

(** An assignment to [o[k]] makes or changes a property of [o]: [k] is
    not [__proto__] where that is an accessor. *)
Definition settable {runtime : Runtime} (k : string) : bool :=
  match JSObject.inherited k with
  | Some JSObject.Prototype => false
  | _ => true
  end.

(** What [o[k]] evaluates to for an object whose own property [k] is
    [own]. *)
Definition lookupOf {runtime : Runtime} {V : Type} (k : string)
    (own : option V) : JSObject.Lookup V :=
  match own with
  | Some v => JSObject.Own v
  | None =>
      match JSObject.inherited k with
      | Some m => JSObject.Inherits m
      | None => JSObject.Missing
      end
  end.

(** [k] names an inherited object. *)
Definition isInherited {runtime : Runtime} (k : string) : bool :=
  match JSObject.inherited k with
  | Some _ => true
  | None => false
  end.

(** An object whose properties were all made by assignments has no
    property that an assignment ignores. *)
Definition assignable {runtime : Runtime} {V : Type} (o : JSObject.t V)
  : Prop :=
  forall k, settable k = false -> JSObject.get k o = None.

(** [l] without the repetitions: each element at its first occurrence. *)
Fixpoint firstOccurrences (l : list string) : list string :=
  match l with
  | [] => []
  | x :: l' =>
      x :: filter (fun y => negb (String.eqb x y)) (firstOccurrences l')
  end.

(** ** Vocabulary of the properties of the report *)

(** The floating-point sum of a list of numbers, added from left to right
    starting from 0. *)
Definition fsum (l : list number) : number :=
  fold_left (fun sum x => (sum + x)%float) l 0%float.

(** The month of a transaction: the first seven characters of its date. *)
Definition monthOf (t : Transaction) : string :=
  String.substring 0 7 (date t).

(** The transactions whose key is [k]. *)
Definition withKey (key : Transaction -> string) (k : string)
    (transactions : list Transaction) : list Transaction :=
  filter (fun t => String.eqb (key t) k) transactions.

(** The amounts of a transaction list are non-negative (and so not NaN),
    as those the parsers store are. *)
Definition amountsNonNegative (transactions : list Transaction) : Prop :=
  Forall (fun t => (0 <=? amount t)%float = true) transactions.

(** The value a grouping by [key] holds for [k]: nothing when no
    transaction has this key, and otherwise the sum of their amounts. *)
Definition groupSum (key : Transaction -> string) (k : string)
    (transactions : list Transaction) : option number :=
  match withKey key k transactions with
  | [] => None
  | g => Some (fsum (map amount g))
  end.

(** The value lines 207 and 214 assign for a transaction, for what the
    property read gives. *)
Definition added (v : JSValue.value) (t : Transaction) : JSValue.primitive :=
  JSValue.plus (JSValue.orZero v) (JSObject.Own (JSValue.Num (amount t))).


(** The amount a grouping holds for a key, 0 when it has none. *)
Definition spendOf (o : JSObject.t JSValue.primitive) (k : string) : number :=
  match JSObject.get k o with
  | Some (JSValue.Num x) => x
  | _ => 0%float
  end.

(** No transaction has, by [key], a key that names an inherited object:
    each key is one the object gets as a property of its own, with a
    number for its value. *)
Definition plainKeys {runtime : Runtime} (key : Transaction -> string)
    (transactions : list Transaction) : Prop :=
  Forall (fun t => JSObject.inherited (key t) = None) transactions.

(** What a grouping by [key] holds for [k], whatever [k] is: nothing when
    no transaction has this key or when the key is [__proto__] and what is
    assigned to it is ignored; for a key that names an inherited function,
    the string made of the text of the function and the texts of the
    amounts; and otherwise the sum of the amounts. *)
Definition groupValue {runtime : Runtime} (key : Transaction -> string)
    (k : string) (transactions : list Transaction)
  : option JSValue.primitive :=
  match withKey key k transactions with
  | [] => None
  | g =>
      match JSObject.inherited k with
      | None => Some (JSValue.Num (fsum (map amount g)))
      | Some (JSObject.Method name) =>
          Some (JSValue.Str [] (JSObject.Method name)
                  (map (fun t => JSValue.PAtom (JSValue.ANumber (amount t)))
                       g))
      | Some JSObject.Prototype => None
      end
  end.

(** The entry of [topMerchants] made from an entry of the merchant map
    (line 228). *)
Definition toTopMerchant (entry : string * MerchantData) : Top.Merchant :=
  let '(merchant, data) := entry in
  {| Top.merchant := merchant;
     Top.spent := spent data;
     Top.count := count data |}.

(** What the merchant map holds after one more transaction of a merchant
    (lines 220-224). *)
Definition addToMerchant (data : option MerchantData) (t : Transaction)
  : MerchantData :=
  let d := match data with
           | Some d => d
           | None => {| spent := 0; count := 0 |}
           end in
  {| spent := (spent d + amount t)%float; count := count d + 1 |}.

(** ** [generateReport] on a store

    The same function, with the objects it works on placed in a store: the
    array it is given holds references to transaction objects, and every
    object and array it creates is a new cell.  Assignments to properties
    and the sorts, which work in place, are writes to cells. *)

Module Store.

Definition loc : Type := nat.

Inductive cell : Type :=
| CTransaction (t : Transaction)
| CTransactions (elems : list loc)
| CStrings (elems : list string)
| CNumbers (props : JSObject.t number)
| CPrimitives (props : JSObject.t JSValue.primitive)
| CMerchants (props : JSObject.t MerchantData)
| CTop (elems : list Top.Merchant).

Definition store : Type := list cell.

(** A new object: the next free cell. *)
Definition alloc (c : cell) (s : store) : loc * store :=
  (List.length s, s ++ [c]).

Fixpoint replace (l : loc) (c : cell) (s : store) : store :=
  match s, l with
  | [], _ => []
  | _ :: s', 0 => c :: s'
  | c0 :: s', S l' => c0 :: replace l' c s'
  end.

(** A write to cell [l]. *)
Definition update (l : loc) (f : cell -> cell) (s : store) : store :=
  match nth_error s l with
  | Some c => replace l (f c) s
  | None => s
  end.

Definition transactionsAt (s : store) (l : loc) : list loc :=
  match nth_error s l with
  | Some (CTransactions elems) => elems
  | _ => []
  end.

Definition stringsAt (s : store) (l : loc) : list string :=
  match nth_error s l with
  | Some (CStrings elems) => elems
  | _ => []
  end.

Definition numbersAt (s : store) (l : loc) : JSObject.t number :=
  match nth_error s l with
  | Some (CNumbers props) => props
  | _ => []
  end.

Definition primitivesAt (s : store) (l : loc)
  : JSObject.t JSValue.primitive :=
  match nth_error s l with
  | Some (CPrimitives props) => props
  | _ => []
  end.

Definition merchantsAt (s : store) (l : loc) : JSObject.t MerchantData :=
  match nth_error s l with
  | Some (CMerchants props) => props
  | _ => []
  end.

Definition topAt (s : store) (l : loc) : list Top.Merchant :=
  match nth_error s l with
  | Some (CTop elems) => elems
  | _ => []
  end.

Definition onNumbers (f : JSObject.t number -> JSObject.t number) (c : cell)
  : cell :=
  match c with
  | CNumbers props => CNumbers (f props)
  | _ => c
  end.

Definition onPrimitives
    (f : JSObject.t JSValue.primitive -> JSObject.t JSValue.primitive)
    (c : cell) : cell :=
  match c with
  | CPrimitives props => CPrimitives (f props)
  | _ => c
  end.

Definition onMerchants
    (f : JSObject.t MerchantData -> JSObject.t MerchantData) (c : cell)
  : cell :=
  match c with
  | CMerchants props => CMerchants (f props)
  | _ => c
  end.

Definition onStrings (f : list string -> list string) (c : cell) : cell :=
  match c with
  | CStrings elems => CStrings (f elems)
  | _ => c
  end.

Definition onTop (f : list Top.Merchant -> list Top.Merchant) (c : cell)
  : cell :=
  match c with
  | CTop elems => CTop (f elems)
  | _ => c
  end.

(** [arr[k]], a transaction object, when the array has one there. *)
Definition element (s : store) (arr : loc) (k : nat) : option Transaction :=
  match nth_error (transactionsAt s arr) k with
  | Some r =>
      match nth_error s r with
      | Some (CTransaction t) => Some t
      | _ => None
      end
  | None => None
  end.

(** [arr.forEach(body)]: the indices below the length the array has at the
    start are visited in order, and each element is read when its turn
    comes, from the store as the earlier calls of [body] left it. *)
Fixpoint forEachFrom (arr : loc) (body : Transaction -> store -> store)
    (k n : nat) (s : store) : store :=
  match n with
  | 0 => s
  | S n' =>
      match element s arr k with
      | Some t => forEachFrom arr body (S k) n' (body t s)
      | None => forEachFrom arr body (S k) n' s
      end
  end.

Definition forEach (arr : loc) (body : Transaction -> store -> store)
    (s : store) : store :=
  forEachFrom arr body 0 (List.length (transactionsAt s arr)) s.

(** The elements of the array, for the callbacks of [reduce] and [map],
    which write nothing. *)
Fixpoint elementsFrom (s : store) (arr : loc) (k n : nat) : list Transaction :=
  match n with
  | 0 => []
  | S n' =>
      match element s arr k with
      | Some t => t :: elementsFrom s arr (S k) n'
      | None => elementsFrom s arr (S k) n'
      end
  end.

Definition elements (s : store) (arr : loc) : list Transaction :=
  elementsFrom s arr 0 (List.length (transactionsAt s arr)).

Section OnStore.

Context {runtime : Runtime}.

(** Lines 205-208. *)
Definition groupByCategory (transactions : loc) (s : store) : loc * store :=
  let (byCategory, s1) := alloc (CPrimitives []) s in
  (byCategory,
   forEach transactions
     (fun t s =>
        update byCategory
          (onPrimitives
             (JSObject.assign (category t)
                (JSValue.plus
                   (JSValue.orZero
                      (JSObject.lookup (category t)
                                       (primitivesAt s byCategory)))
                   (JSObject.Own (JSValue.Num (amount t))))))
          s)
     s1).

(** Lines 211-215. *)
Definition groupByMonth (transactions : loc) (s : store) : loc * store :=
  let (byMonth, s1) := alloc (CPrimitives []) s in
  (byMonth,
   forEach transactions
     (fun t s =>
        let month := String.substring 0 7 (date t) in
        update byMonth
          (onPrimitives
             (JSObject.assign month
                (JSValue.plus
                   (JSValue.orZero
                      (JSObject.lookup month (primitivesAt s byMonth)))
                   (JSObject.Own (JSValue.Num (amount t))))))
          s)
     s1).

(** Lines 218-225.  What is written on an inherited object is written on
    no cell of the store. *)
Definition groupByMerchant (transactions : loc) (s : store) : loc * store :=
  let (merchantMap, s1) := alloc (CMerchants []) s in
  (merchantMap,
   forEach transactions
     (fun t s =>
        let s' :=
          match JSObject.lookup (merchant t) (merchantsAt s merchantMap) with
          | JSObject.Own _ | JSObject.Inherits _ => s
          | JSObject.Missing =>
              update merchantMap
                (onMerchants
                   (JSObject.set (merchant t) {| spent := 0; count := 0 |}))
                s
          end in
        match JSObject.lookup (merchant t) (merchantsAt s' merchantMap) with
        | JSObject.Own data =>
            update merchantMap
              (onMerchants
                 (JSObject.overwrite (merchant t)
                    {| spent := (spent data + amount t)%float;
                       count := count data + 1 |}))
              s'
        | JSObject.Inherits _ | JSObject.Missing => s'
        end)
     s1).

(** Lines 227-230: [map] makes a new array, [sort] sorts it in place and
    [slice] makes another. *)
Definition rankMerchants (merchantMap : loc) (s : store) : loc * store :=
  let (mapped, s1) :=
    alloc (CTop (map (fun '(merchant, data) =>
                        {| Top.merchant := merchant;
                           Top.spent := spent data;
                           Top.count := count data |})
                     (JSObject.entries (merchantsAt s merchantMap))))
          s in
  let s2 :=
    update mapped
      (onTop (JSArray.sortBy (fun a b => (Top.spent b - Top.spent a)%float)))
      s1 in
  alloc (CTop (JSArray.sliceFirst 10 (topAt s2 mapped))) s2.

(** Lines 233-236. *)
Definition suggestBudget (byCategory : loc) (s : store) : loc * store :=
  let (budget, s1) := alloc (CNumbers []) s in
  (budget,
   fold_left
     (fun s '(cat, spent) =>
        update budget
          (onNumbers
             (JSObject.assign cat
                (Math_ceil
                   (JSValue.toNumber (JSObject.Own spent) * 1.1)%float)))
          s)
     (JSObject.entries (primitivesAt s1 byCategory)) s1).

(** Lines 239-249: [Object.keys] makes a new array, [sort] sorts it in
    place and [slice] makes another. *)
Definition makeForecast (byMonth : loc) (s : store)
  : option Forecast * store :=
  let (months, s1) :=
    alloc (CStrings (JSObject.keys (primitivesAt s byMonth))) s in
  let s2 := update months (onStrings JSArray.sortStrings) s1 in
  if 2 <=? List.length (stringsAt s2 months) then
    let (recentMonths, s3) :=
      alloc (CStrings (JSArray.sliceLast 3 (stringsAt s2 months))) s2 in
    let avgRecent :=
      (JSValue.toNumber
         (JSObject.Own
            (fold_left
               (fun sum m =>
                  JSValue.plus (JSObject.Own sum)
                    (JSObject.lookup m (primitivesAt s3 byMonth)))
               (stringsAt s3 recentMonths) (JSValue.Num 0)))
       / ofNat (List.length (stringsAt s3 recentMonths)))%float in
    (Some {| nextMonthSpend := Math_round avgRecent;
             confidence :=
               if 3 <=? List.length (stringsAt s3 months) then "High"
               else "Medium";
             method := "Average of last 3 months" |},
     s3)
  else (None, s2).

(** Lines 266-271: [map] makes a new array and [sort] sorts it in place. *)
Definition makePeriodHint (transactions byMonth : loc) (s : store)
  : PeriodHint * store :=
  let (dates, s1) := alloc (CStrings (map date (elements s transactions))) s in
  let s2 := update dates (onStrings JSArray.sortStrings) s1 in
  ({| start := nth 0 (stringsAt s2 dates) "";
      end_ := nth (List.length (stringsAt s2 dates) - 1)
                  (stringsAt s2 dates) "";
      monthsDetected :=
        List.length (JSObject.keys (primitivesAt s2 byMonth)) |},
   s2).

(** [generateReport(transactions)]: the report, with the contents of the
    objects it refers to, and the store it leaves. *)
Definition generateReport (transactions : loc) (s : store) : Report * store :=
  if List.length (transactionsAt s transactions) =? 0 then
    ({| totals := {| transactionCount := 0; totalSpent := 0;
                     avgSpendPerTxn := 0 |};
        byCategory := [];
        byMonth := [];
        topMerchants := [];
        budget := [];
        forecast := None;
        healthScore := {| score := 0; summary := "No data available" |};
        periodHint := {| start := ""; end_ := ""; monthsDetected := 0 |} |},
     s)
  else
    let totalSpent :=
      fold_left (fun sum t => (sum + amount t)%float)
                (elements s transactions) 0%float in
    let transactionCount := List.length (transactionsAt s transactions) in
    let avgSpendPerTxn := (totalSpent / ofNat transactionCount)%float in
    let (byCategory, s1) := groupByCategory transactions s in
    let (byMonth, s2) := groupByMonth transactions s1 in
    let (merchantMap, s3) := groupByMerchant transactions s2 in
    let (topMerchants, s4) := rankMerchants merchantMap s3 in
    let (budget, s5) := suggestBudget byCategory s4 in
    let (forecast, s6) := makeForecast byMonth s5 in
    let healthScore :=
      makeHealthScore totalSpent (primitivesAt s6 byCategory)
                      (primitivesAt s6 byMonth) in
    let (periodHint, s7) := makePeriodHint transactions byMonth s6 in
    ({| totals := {| transactionCount := transactionCount;
                     totalSpent := totalSpent;
                     avgSpendPerTxn := avgSpendPerTxn |};
        byCategory := primitivesAt s7 byCategory;
        byMonth := primitivesAt s7 byMonth;
        topMerchants := topAt s7 topMerchants;
        budget := numbersAt s7 budget;
        forecast := forecast;
        healthScore := healthScore;
        periodHint := periodHint |},
     s7).

End OnStore.

(** The array at [arr] holds, in this order, references to objects with the
    fields of [transactions]. *)
Definition holds (s : store) (arr : loc) (transactions : list Transaction)
  : Prop :=
  exists refs,
    nth_error s arr = Some (CTransactions refs)
    /\ Forall2 (fun r t => nth_error s r = Some (CTransaction t))
               refs transactions.

(** [s'] has all the cells of [s], with their contents: it differs from
    [s] by new cells only. *)
Definition extends (s s' : store) : Prop :=
  forall l c, nth_error s l = Some c -> nth_error s' l = Some c.

(** [s'] keeps the cells of [s]. *)
Definition frame (s s' : store) : Prop :=
  List.length s <= List.length s'
  /\ forall l, l < List.length s -> nth_error s' l = nth_error s l.

End Store.

(** ** Vocabulary of the properties of whole-number amounts *)





(** ** Vocabulary of the further properties of the parsers and the report *)

(** The categories [categorizeTransaction] can answer with: those of the
    rules, and "Other". *)
Definition categoryNames : list string :=
  map rule_category CATEGORY_RULES ++ ["Other"].

(** A data row has no cell in the amount column: it has no more cells
    than the index of that column. *)
Definition csvShortRow (headers : list string) (line : string) : bool :=
  List.length (JSString.split "," line)
  <=? Z.to_nat (JSArray.findIndex isAmountHeader headers).

(** ** Sessions, the agent and the HTTP handlers (lines 45-58, 302-591)

    What the handlers work on comes from outside the repository: the
    request, the random session id, the files of the server and the answer
    of the agent.  They are arguments of the functions below;
    [JSON.stringify] and the parsing of the request are not modelled, so a
    response body is the value that is serialized and a request carries
    what [req.formData()] and [req.json()] evaluate to.  The properties
    read from such values ([text], [message], [sessionId], ...) are none
    that [Object.prototype] has. *)

(** [a.join(sep)] on strings. *)
Fixpoint join (sep : string) (a : list string) : string :=
  match a with
  | [] => ""
  | [x] => x
  | x :: rest => (x ++ sep ++ join sep rest)%string
  end.

(** *** Values of any type: the JSON values of a request body and the
    events of the agent *)

Module JSON.

Set Warnings "-register-all".

Inductive value : Type :=
| JNull
| JBoolean (b : bool)
| JNumber (x : number)
| JString (s : string)
| JArray (a : list value)
| JObject (o : list (string * value)).

Definition truthy (v : value) : bool :=
  match v with
  | JNull => false
  | JBoolean b => b
  | JNumber x => JSNumber.truthy x
  | JString s => JSString.truthy s
  | JArray _ | JObject _ => true
  end.

(** [v.k] for a [v] that is not [null]: [None] is [undefined].  Only an
    object has the properties read here. *)
Definition member (k : string) (v : value) : option value :=
  match v with
  | JObject o => JSObject.get k o
  | _ => None
  end.

(** [v?.k] *)
Definition optMember (k : string) (v : option value) : option value :=
  match v with
  | None | Some JNull => None
  | Some v' => member k v'
  end.

(** [!v] for the result of a property read. *)
Definition falsy (v : option value) : bool :=
  match v with
  | None => true
  | Some v' => negb (truthy v')
  end.

(** [typeof v === "string" && v], when that is truthy. *)
Definition nonEmptyString (v : option value) : option string :=
  match v with
  | Some (JString s) => if JSString.truthy s then Some s else None
  | _ => None
  end.

Section ToString.

Variable Number_toString : number -> string.

(** [String(v)], which is also what a template literal puts for [v].  An
    object is converted by its method [toString]: the one it inherits
    answers [[object Object]]; a property of its own of that name, which is
    no function in a value read from JSON, hides it, and the conversion
    raises a [TypeError] (the inherited [valueOf] returns the object
    itself).  An array is its elements joined by commas, with nothing for
    [null]. *)
Fixpoint toString (v : value) : outcome string :=
  match v with
  | JNull => Returns "null"
  | JBoolean true => Returns "true"
  | JBoolean false => Returns "false"
  | JNumber x => Returns (Number_toString x)
  | JString s => Returns s
  | JArray a =>
      (fix elements (a : list value) : outcome string :=
         match a with
         | [] => Returns ""
         | x :: rest =>
             match match x with
                   | JNull => Returns ""
                   | _ => toString x
                   end with
             | Throws e => Throws e
             | Returns head =>
                 match rest with
                 | [] => Returns head
                 | _ =>
                     match elements rest with
                     | Throws e => Throws e
                     | Returns tail => Returns (head ++ "," ++ tail)%string
                     end
                 end
             end
         end) a
  | JObject o =>
      match JSObject.get "toString" o with
      | Some _ => Throws TypeError
      | None => Returns "[object Object]"
      end
  end.

End ToString.

(** [v] is an object with a property of its own named [toString], or an
    array with such a value among its elements, at any depth. *)
Fixpoint hidesToString (v : value) : bool :=
  match v with
  | JArray a => existsb hidesToString a
  | JObject o =>
      match JSObject.get "toString" o with
      | Some _ => true
      | None => false
      end
  | _ => false
  end.

End JSON.

(** *** Transactions as they are at run time

    A session holds what a parser returned.  [parseExcel] stores the cell
    values of a row unconverted, so that the date, the merchant and the
    category of a transaction can be a string, a number or a Boolean. *)

Module Stored.

Record Transaction : Type := {
  date : Sheet.value;
  merchant : Sheet.value;
  amount : number;
  category : Sheet.value;
  description : option string
}.

End Stored.

Definition ofCSV (t : Transaction) : Stored.Transaction :=
  {| Stored.date := Sheet.VString (date t);
     Stored.merchant := Sheet.VString (merchant t);
     Stored.amount := amount t;
     Stored.category := Sheet.VString (category t);
     Stored.description := description t |}.

Definition ofSheet (t : Sheet.Transaction) : Stored.Transaction :=
  {| Stored.date := Sheet.date t;
     Stored.merchant := Sheet.merchant t;
     Stored.amount := Sheet.amount t;
     Stored.category := Sheet.category t;
     Stored.description := None |}.

(** *** The session store (lines 45-54) *)

Module Session.

(** The two values the code stores in [role] (lines 391-393). *)
Inductive Role : Type := User | Assistant.

(** [String(m.role).toUpperCase()] *)
Definition upperName (r : Role) : string :=
  match r with
  | User => "USER"
  | Assistant => "ASSISTANT"
  end.

(** An element of [conversationHistory]: the content of a user entry is
    the message of the request body, of whatever type it is. *)
Record Message : Type := {
  role : Role;
  content : JSON.value
}.

Record Data : Type := {
  sessionId : string;
  transactions : list Stored.Transaction;
  fileName : string;
  currency : string;
  conversationHistory : list Message
}.

(** [sessions]: a [Map] from session ids to session objects. *)
Definition Store : Type := list (string * Data).

(** [sessions.get(id)] *)
Definition get (id : string) (sessions : Store) : option Data :=
  JSObject.get id sessions.

(** [sessions.set(id, data)]: the entry of a key that is present is
    replaced. *)
Definition set (id : string) (data : Data) (sessions : Store) : Store :=
  match JSObject.get id sessions with
  | Some _ => JSObject.overwrite id data sessions
  | None => sessions ++ [(id, data)]
  end.

End Session.

(** *** Requests and responses *)

Module Http.

(** A [File] of the form data: [name], and what [text()] and
    [arrayBuffer()] resolve to. *)
Record File (ArrayBuffer : Type) : Type := {
  name : string;
  text : string;
  arrayBuffer : ArrayBuffer
}.

Arguments name {ArrayBuffer} f.
Arguments text {ArrayBuffer} f.
Arguments arrayBuffer {ArrayBuffer} f.

(** An entry of the form data is a string or a file. *)
Inductive FormValue (ArrayBuffer : Type) : Type :=
| FormString (s : string)
| FormFile (f : File ArrayBuffer).

Arguments FormString {ArrayBuffer} s.
Arguments FormFile {ArrayBuffer} f.

(** A request: its method, the path of its URL, what
    [(await req.formData()).get('file')] evaluates to ([None] is [null])
    and what [await req.json()] evaluates to. *)
Record Request (ArrayBuffer : Type) : Type := {
  method : string;
  path : string;
  formFile : outcome (option (FormValue ArrayBuffer));
  json : outcome JSON.value
}.

Arguments method {ArrayBuffer} r.
Arguments path {ArrayBuffer} r.
Arguments formFile {ArrayBuffer} r.
Arguments json {ArrayBuffer} r.

(** The objects the handlers serialize with [JSON.stringify]. *)
Inductive Payload : Type :=
| PError (error : string)
| PUpload (sessionId fileName currency : string) (report : Report)
| PChat (message : string) (report : option Report).

(** The body a response is made with: [null], a string, the content of a
    file, or the serialization of a payload. *)
Inductive Body (Bytes : Type) : Type :=
| BNull
| BText (s : string)
| BFile (content : Bytes)
| BJson (p : Payload).

Arguments BNull {Bytes}.
Arguments BText {Bytes} s.
Arguments BFile {Bytes} content.
Arguments BJson {Bytes} p.

(** A response: its status, its headers, its body.  The names of the
    headers are written as the source writes them. *)
Record Response (Bytes : Type) : Type := {
  status : nat;
  headers : list (string * string);
  body : Body Bytes
}.

Arguments status {Bytes} r.
Arguments headers {Bytes} r.
Arguments body {Bytes} r.

(** A header of the name [k] is among [h]: header names are compared
    without regard to case. *)
Definition hasHeader (k : string) (h : list (string * string)) : bool :=
  existsb (fun '(k', _) =>
             String.eqb (JSString.toLowerCase k') (JSString.toLowerCase k))
          h.

(** [new Response(body, { status, headers })].  A body that is a string
    has the type of plain text, which the response gets as its content type
    when the headers name none; a null body and the content of a file have
    no type. *)
Definition newResponse {Bytes : Type} (body : Body Bytes) (status : nat)
    (headers : list (string * string)) : Response Bytes :=
  {| status := status;
     headers :=
       match body with
       | BText _ | BJson _ =>
           if hasHeader "Content-Type" headers then headers
           else headers ++ [("Content-Type", "text/plain;charset=UTF-8")]
       | BNull | BFile _ => headers
       end;
     body := body |}.

(** [headers.set(k, v)] *)
Fixpoint setHeader (k v : string) (h : list (string * string))
  : list (string * string) :=
  match h with
  | [] => [(k, v)]
  | (k', v') :: h' =>
      if String.eqb (JSString.toLowerCase k') (JSString.toLowerCase k)
      then (k', v) :: h'
      else (k', v') :: setHeader k v h'
  end.

Definition jsonHeaders : list (string * string) :=
  [("Content-Type", "application/json")].

(** Lines 536-540. *)
Definition corsHeaders : list (string * string) :=
  [("Access-Control-Allow-Origin", "*");
   ("Access-Control-Allow-Methods", "GET, POST, OPTIONS");
   ("Access-Control-Allow-Headers", "Content-Type")].

End Http.

(** The result of [chatWithAgent]. *)
Record ChatResult : Type := {
  chat_message : string;
  chat_report : option Report
}.

Section Server.

(** What is not part of the repository: SheetJS, the conversions of
    numbers to strings, the agent, whose stream of events either delivers
    its events or fails, and the files of the server. *)
Variable ArrayBuffer : Type.
Variable Bytes : Type.
Variable XLSX_first_sheet : ArrayBuffer -> outcome (option (list Sheet.Row)).
Variable Number_toString : number -> string.
Variable Number_toFixed : number -> nat -> string.
Variable runTask : string -> string -> outcome (list JSON.value).
Variable readFile : string -> outcome Bytes.
Context {runtime : Runtime}.

(** *** [generateReport] on stored transactions

    [generateReport] uses [t.category] and [t.merchant] as property keys,
    hence through [String(...)], and calls [t.date.substring], which only a
    string has: on a date of another type the call raises a [TypeError]
    (line 213), before anything but local variables has been written. *)
Definition asTransaction (t : Stored.Transaction) : outcome Transaction :=
  match Stored.date t with
  | Sheet.VString d =>
      Returns {| date := d;
                 merchant := String_of Number_toString (Stored.merchant t);
                 amount := Stored.amount t;
                 category := String_of Number_toString (Stored.category t);
                 description := Stored.description t |}
  | _ => Throws TypeError
  end.

Fixpoint asTransactions (l : list Stored.Transaction)
  : outcome (list Transaction) :=
  match l with
  | [] => Returns []
  | t :: rest =>
      match asTransaction t with
      | Throws e => Throws e
      | Returns t' =>
          match asTransactions rest with
          | Throws e => Throws e
          | Returns rest' => Returns (t' :: rest')
          end
      end
  end.

Definition generateReportOf (transactions : list Stored.Transaction)
  : outcome Report :=
  match asTransactions transactions with
  | Throws e => Throws e
  | Returns txs => Returns (generateReport txs)
  end.

(** *** [chatWithAgent] (lines 302-418) *)

(** [a.map(f)] for an [f] that may raise. *)
Fixpoint traverse {A B : Type} (f : A -> outcome B) (a : list A)
  : outcome (list B) :=
  match a with
  | [] => Returns []
  | x :: rest =>
      match f x with
      | Throws e => Throws e
      | Returns y =>
          match traverse f rest with
          | Throws e => Throws e
          | Returns ys => Returns (y :: ys)
          end
      end
  end.

(** Lines 314-320: the last eight entries of the history. *)
Definition historyText (history : list Session.Message) : outcome string :=
  if 0 <? List.length history then
    match traverse
            (fun m =>
               match JSON.toString Number_toString (Session.content m) with
               | Throws e => Throws e
               | Returns content =>
                   Returns (Session.upperName (Session.role m) ++ ": "
                            ++ content)%string
               end)
            (JSArray.sliceLast 8 history) with
    | Throws e => Throws e
    | Returns entries => Returns (join LF entries)
    end
  else Returns "".

(** [amt.toFixed(2)]: a string has no method [toFixed], and the call
    raises a [TypeError]. *)
Definition toFixed2 (amt : JSValue.primitive) : outcome string :=
  match amt with
  | JSValue.Num x => Returns (Number_toFixed x 2)
  | JSValue.Str _ _ _ => Throws TypeError
  end.

(** A line of the two lists of lines 338-347. *)
Definition amountLine (entry : string * JSValue.primitive) : outcome string :=
  let '(name, amt) := entry in
  match toFixed2 amt with
  | Throws e => Throws e
  | Returns text => Returns ("- " ++ name ++ ": $" ++ text)%string
  end.

(** Lines 323-354. *)
Definition systemPrompt (report : Report) : outcome string :=
  match traverse amountLine
          (JSArray.sortBy
             (fun a b =>
                (JSValue.toNumber (JSObject.Own (snd b))
                 - JSValue.toNumber (JSObject.Own (snd a)))%float)
             (JSObject.entries (byCategory report))) with
  | Throws e => Throws e
  | Returns categoryLines =>
  match traverse amountLine
          (JSArray.sortBy
             (fun a b => if JSString.ltb (fst b) (fst a)
                         then 1%float else (-1)%float)
             (JSObject.entries (byMonth report))) with
  | Throws e => Throws e
  | Returns monthLines =>
  Returns
    (join LF
       [ "You are BillSense, a helpful financial advisor AI.";
         "";
         "    You are given a user's transaction summary and must answer with:";
         "    - Concrete numbers (totals, category sums, comparisons)";
         "    - Short reasoning";
         "    - 1-3 actionable recommendations";
         "    Keep it concise, but specific.";
         "";
         "    Transaction Summary:";
         ("    - Total Transactions: "
            ++ Number_toString (ofNat (transactionCount (totals report))))%string;
         ("    - Total Spent: $"
            ++ Number_toFixed (totalSpent (totals report)) 2)%string;
         ("    - Average per Transaction: $"
            ++ Number_toFixed (avgSpendPerTxn (totals report)) 2)%string;
         ("    - Period: " ++ start (periodHint report) ++ " to "
            ++ end_ (periodHint report))%string;
         "";
         "    Spending by Category:";
         ("    " ++ join LF categoryLines)%string;
         "";
         "    Monthly Spending:";
         ("    " ++ join LF monthLines)%string;
         "";
         "    Top Merchants:";
         ("    "
            ++ join LF
                 (map (fun m =>
                         ("- " ++ Top.merchant m ++ ": $"
                          ++ Number_toFixed (Top.spent m) 2 ++ " ("
                          ++ Number_toString (ofNat (Top.count m))
                          ++ " txns)")%string)
                    (JSArray.sliceFirst 5 (topMerchants report))))%string;
         "    " ])
  end end.

(** Lines 357-363. *)
Definition taskPrompt (systemPrompt historyText : string)
    (userMessage : JSON.value) : outcome string :=
  match JSON.toString Number_toString userMessage with
  | Throws e => Throws e
  | Returns question =>
      Returns
        (join (LF ++ LF)%string
           (filter JSString.truthy
              [ systemPrompt;
                if JSString.truthy historyText
                then ("Conversation so far:" ++ LF ++ historyText)%string
                else "";
                ("User Question: " ++ question)%string ]))
  end.

(** Lines 373-381: what an event contributes.  Reading a property of
    [null] raises. *)
Definition chunk (e : JSON.value) : outcome string :=
  match e with
  | JSON.JNull => Throws TypeError
  | _ =>
      let text := JSON.member "text" e in
      let delta := JSON.member "delta" e in
      let content := JSON.member "content" e in
      let message := JSON.member "message" e in
      Returns
        match JSON.nonEmptyString text with
        | Some s => s
        | None =>
        match JSON.nonEmptyString delta with
        | Some s => s
        | None =>
        match JSON.nonEmptyString content with
        | Some s => s
        | None =>
        match JSON.nonEmptyString (JSON.optMember "text" content) with
        | Some s => s
        | None =>
        match JSON.nonEmptyString (JSON.optMember "content" message) with
        | Some s => s
        | None =>
        match JSON.nonEmptyString
                (JSON.optMember "text" (JSON.optMember "content" message))
        with
        | Some s => s
        | None => ""
        end end end end end end
  end.

(** The loop of lines 369-384, from [fullResponse] on. *)
Fixpoint collect (events : list JSON.value) (fullResponse : string)
  : outcome string :=
  match events with
  | [] => Returns fullResponse
  | e :: rest =>
      match chunk e with
      | Throws x => Throws x
      | Returns c => collect rest (fullResponse ++ c)%string
      end
  end.

(** Lines 398-406. *)
Definition shouldUpdateReport (q : string) : bool :=
  JSString.includes q "analy" || JSString.includes q "report"
  || JSString.includes q "chart" || JSString.includes q "trend"
  || JSString.includes q "budget" || JSString.includes q "forecast"
  || JSString.includes q "update".

Definition agentError : ChatResult :=
  {| chat_message :=
       "I encountered an error. Please try again with a simpler question.";
     chat_report := None |}.

(** [chatWithAgent]: the result, and the session object as the call
    leaves it.  The report, the text of the history and the system prompt
    are made before the [try] block, so that what they raise is raised by
    the call; whatever is raised inside the block gives the error message.
    The entries of the history are pushed before the message is
    lower-cased, which raises when it is not a string. *)
Definition chatWithAgent (sessionData : Session.Data)
    (userMessage : JSON.value) : outcome (ChatResult * Session.Data) :=
  match generateReportOf (Session.transactions sessionData) with
  | Throws e => Throws e
  | Returns report =>
  let history := Session.conversationHistory sessionData in
  match historyText history with
  | Throws e => Throws e
  | Returns historyText =>
  match systemPrompt report with
  | Throws e => Throws e
  | Returns systemPrompt =>
  match taskPrompt systemPrompt historyText userMessage with
  | Throws _ => Returns (agentError, sessionData)
  | Returns taskPrompt =>
      match runTask taskPrompt "claude-sonnet-4-20250514" with
      | Throws _ => Returns (agentError, sessionData)
      | Returns events =>
          match collect events "" with
          | Throws _ => Returns (agentError, sessionData)
          | Returns fullResponse =>
              let finalText :=
                if JSString.truthy (JSString.trim fullResponse)
                then JSString.trim fullResponse
                else "I received your question but couldn't generate a response. Please try rephrasing." in
              let sessionData' :=
                {| Session.sessionId := Session.sessionId sessionData;
                   Session.transactions := Session.transactions sessionData;
                   Session.fileName := Session.fileName sessionData;
                   Session.currency := Session.currency sessionData;
                   Session.conversationHistory :=
                     history
                     ++ [ {| Session.role := Session.User;
                             Session.content := userMessage |};
                          {| Session.role := Session.Assistant;
                             Session.content := JSON.JString finalText |} ]
                |} in
              match userMessage with
              | JSON.JString s =>
                  let q := JSString.toLowerCase s in
                  Returns
                    ({| chat_message := finalText;
                        chat_report := if shouldUpdateReport q
                                       then Some report else None |},
                     sessionData')
              | _ => Returns (agentError, sessionData')
              end
          end
      end
  end end end end.

(** *** The handlers (lines 422-520) *)

(** [new Response(JSON.stringify(p), { status, headers })] with the
    content type of JSON. *)
Definition jsonResponse (status : nat) (p : Http.Payload)
  : Http.Response Bytes :=
  Http.newResponse (Http.BJson p) status Http.jsonHeaders.

(** [fileName.split('.').pop()?.toLowerCase()] *)
Definition fileExt (fileName : string) : string :=
  JSString.toLowerCase (last (JSString.split "." fileName) "").

(** [handleUpload]: [uuid] is what [crypto.randomUUID()] returns. *)
Definition handleUpload (clock : nat -> string) (uuid : string)
    (req : Http.Request ArrayBuffer) (sessions : Session.Store)
  : Http.Response Bytes * Session.Store :=
  let failed := jsonResponse 500 (Http.PError "Failed to process file") in
  match Http.formFile req with
  | Throws _ => (failed, sessions)
  | Returns None =>
      (jsonResponse 400 (Http.PError "No file provided"), sessions)
  | Returns (Some (Http.FormString s)) =>
      if JSString.truthy s then (failed, sessions)
      else (jsonResponse 400 (Http.PError "No file provided"), sessions)
  | Returns (Some (Http.FormFile file)) =>
      let fileName := Http.name file in
      let ext := fileExt fileName in
      let parsed : option (outcome (list Stored.Transaction)) :=
        if String.eqb ext "csv" then
          Some match parseCSV clock (Http.text file) with
               | Returns txs => Returns (map ofCSV txs)
               | Throws e => Throws e
               end
        else if String.eqb ext "xlsx" || String.eqb ext "xls" then
          Some match parseExcel ArrayBuffer XLSX_first_sheet Number_toString
                                clock (Http.arrayBuffer file) with
               | Returns txs => Returns (map ofSheet txs)
               | Throws e => Throws e
               end
        else if String.eqb ext "pdf" then
          Some match parsePDF ArrayBuffer (Http.arrayBuffer file) with
               | Returns txs => Returns (map ofCSV txs)
               | Throws e => Throws e
               end
        else None in
      match parsed with
      | None =>
          (jsonResponse 400 (Http.PError "Unsupported file type"), sessions)
      | Some (Throws _) => (failed, sessions)
      | Some (Returns transactions) =>
          let sessionData :=
            {| Session.sessionId := uuid;
               Session.transactions := transactions;
               Session.fileName := fileName;
               Session.currency := "USD";
               Session.conversationHistory := [] |} in
          let sessions' := Session.set uuid sessionData sessions in
          match generateReportOf transactions with
          | Throws _ => (failed, sessions')
          | Returns report =>
              (jsonResponse 200 (Http.PUpload uuid fileName "USD" report),
               sessions')
          end
      end
  end.

(** [handleChat].  The session object is shared with the store: what
    [chatWithAgent] pushes on its history is in the store afterwards. *)
Definition handleChat (req : Http.Request ArrayBuffer)
    (sessions : Session.Store) : Http.Response Bytes * Session.Store :=
  let failed := jsonResponse 500 (Http.PError "Failed to process chat") in
  match Http.json req with
  | Throws _ => (failed, sessions)
  | Returns JSON.JNull => (failed, sessions)
  | Returns body =>
      let sessionId := JSON.member "sessionId" body in
      let message := JSON.member "message" body in
      match sessionId, message with
      | Some sessionId, Some message =>
          if negb (JSON.truthy sessionId) || negb (JSON.truthy message) then
            (jsonResponse 400 (Http.PError "Missing sessionId or message"),
             sessions)
          else
            let found :=
              match sessionId with
              | JSON.JString id =>
                  match Session.get id sessions with
                  | Some sessionData => Some (id, sessionData)
                  | None => None
                  end
              | _ => None
              end in
            match found with
            | None =>
                (jsonResponse 404 (Http.PError "Invalid session"), sessions)
            | Some (id, sessionData) =>
                match chatWithAgent sessionData message with
                | Throws _ => (failed, sessions)
                | Returns (result, sessionData') =>
                    (jsonResponse 200
                       (Http.PChat (chat_message result)
                                   (chat_report result)),
                     Session.set id sessionData' sessions)
                end
            end
      | _, _ =>
          (jsonResponse 400 (Http.PError "Missing sessionId or message"),
           sessions)
      end
  end.

(** *** The server (lines 531-591) *)

(** [new Headers(response.headers)] with the CORS headers set on it. *)
Definition withCors (h : list (string * string)) : list (string * string) :=
  fold_left (fun h '(k, v) => Http.setHeader k v h) Http.corsHeaders h.

(** Lines 548-555 and 559-566. *)
Definition staticFile (file contentType missing : string)
  : Http.Response Bytes :=
  match readFile file with
  | Returns content =>
      Http.newResponse (Http.BFile content) 200
        (("Content-Type", contentType) :: Http.corsHeaders)
  | Throws _ => Http.newResponse (Http.BText missing) 404 []
  end.

(** The handler given to [Deno.serve].  The response of a handler is
    made anew from its status, its headers with the CORS headers set, and
    the stream of its body, which has no type of its own. *)
Definition serve (clock : nat -> string) (uuid : string)
    (req : Http.Request ArrayBuffer) (sessions : Session.Store)
  : Http.Response Bytes * Session.Store :=
  let method := Http.method req in
  let path := Http.path req in
  if String.eqb method "OPTIONS" then
    (Http.newResponse Http.BNull 200 Http.corsHeaders, sessions)
  else if String.eqb path "/" || String.eqb path "/index.html" then
    (staticFile "./public/index.html" "text/html" "index.html not found",
     sessions)
  else if String.eqb path "/sample_txns.csv" then
    (staticFile "./sample_txns.csv" "text/csv" "sample file not found",
     sessions)
  else if String.eqb path "/api/upload" && String.eqb method "POST" then
    let (response, sessions') := handleUpload clock uuid req sessions in
    ({| Http.status := Http.status response;
        Http.headers := withCors (Http.headers response);
        Http.body := Http.body response |}, sessions')
  else if String.eqb path "/api/chat" && String.eqb method "POST" then
    let (response, sessions') := handleChat req sessions in
    ({| Http.status := Http.status response;
        Http.headers := withCors (Http.headers response);
        Http.body := Http.body response |}, sessions')
  else (Http.newResponse (Http.BText "Not Found") 404 [], sessions).

End Server.

(** ** Vocabulary of the properties of the chat *)

(** The session [data] once an exchange has been pushed on its history
    (lines 391-395). *)
Definition withExchange (data : Session.Data) (userMessage : JSON.value)
    (answer : string) : Session.Data :=
  {| Session.sessionId := Session.sessionId data;
     Session.transactions := Session.transactions data;
     Session.fileName := Session.fileName data;
     Session.currency := Session.currency data;
     Session.conversationHistory :=
       Session.conversationHistory data
       ++ [ {| Session.role := Session.User;
               Session.content := userMessage |};
            {| Session.role := Session.Assistant;
               Session.content := JSON.JString answer |} ] |}.

(** The answer made of what the events have delivered (lines 386-388). *)
Definition finalTextOf (fullResponse : string) : string :=
  if JSString.truthy (JSString.trim fullResponse)
  then JSString.trim fullResponse
  else "I received your question but couldn't generate a response. Please try rephrasing.".

(** The words that make a reply carry the report (lines 399-406). *)
Definition reportWords : list string :=
  ["analy"; "report"; "chart"; "trend"; "budget"; "forecast"; "update"].

(** The model the task is run with (line 365). *)
Definition taskModel : string := "claude-sonnet-4-20250514".

(** The task the agent is given for [userMessage] in a session of the
    report [report] and the history [history] (lines 314-363), when making
    it raises nothing. *)
Definition agentTask (Number_toString : number -> string)
    (Number_toFixed : number -> nat -> string) (report : Report)
    (history : list Session.Message) (userMessage : JSON.value)
  : outcome string :=
  match historyText Number_toString history with
  | Throws e => Throws e
  | Returns history' =>
      match systemPrompt Number_toString Number_toFixed report with
      | Throws e => Throws e
      | Returns system => taskPrompt Number_toString system history' userMessage
      end
  end.

(** ** Vocabulary of the invariant of the session store *)

(** A history made of exchanges: an entry of the user followed by an entry
    of the assistant whose content is a string that is not empty. *)
Fixpoint exchanges (history : list Session.Message) : bool :=
  match history with
  | [] => true
  | u :: rest =>
      match rest with
      | [] => false
      | a :: rest' =>
          match Session.role u, Session.role a, Session.content a with
          | Session.User, Session.Assistant, JSON.JString answer =>
              JSString.truthy answer && exchanges rest'
          | _, _, _ => false
          end
      end
  end.

(** What holds of the store at any time: no id is there twice, and the
    session under an id has this id, the currency "USD" and a history made
    of exchanges. *)
Definition storeInvariant (sessions : Session.Store) : Prop :=
  NoDup (map fst sessions)
  /\ forall id data,
       Session.get id sessions = Some data ->
       Session.sessionId data = id
       /\ Session.currency data = "USD"
       /\ exchanges (Session.conversationHistory data) = true.

Section Run.

Variable ArrayBuffer : Type.
Variable Bytes : Type.
Variable XLSX_first_sheet : ArrayBuffer -> outcome (option (list Sheet.Row)).
Variable Number_toString : number -> string.
Variable Number_toFixed : number -> nat -> string.
Variable runTask : string -> string -> outcome (list JSON.value).
Variable readFile : string -> outcome Bytes.
Context {runtime : Runtime}.

(** The store after a sequence of requests, each with the clock and the
    random id of the time it is served at. *)
Definition serveAll
    (requests : list ((nat -> string) * string * Http.Request ArrayBuffer))
    (sessions : Session.Store) : Session.Store :=
  fold_left
    (fun sessions '(clock, uuid, req) =>
       snd (serve ArrayBuffer Bytes XLSX_first_sheet Number_toString
                  Number_toFixed runTask readFile clock uuid req sessions))
    requests sessions.

End Run.

(** The date cell of a row gives a date that is a string: it is a string
    itself, or falsy, so that the current date is taken. *)
Definition dateCellIsText (row : Sheet.Row) : bool :=
  match sheetCell Sheet.isDateKey row with
  | Sheet.VString _ => true
  | v => negb (Sheet.truthy v)
  end.

(* ================================================================== *)
(** * Part II: properties                                               *)
(* ================================================================== *)

(** ** Facts of IEEE 754 arithmetic, from its specification *)

Module IEEEFacts.

Import IEEE.
Local Open Scope Z_scope.

Lemma digits2_size p : digits2_pos p = Pos.size p.
Proof. induction p; simpl; congruence. Qed.

Lemma digits2_bounds p :
  2 ^ (Zpos (digits2_pos p) - 1) <= Zpos p < 2 ^ Zpos (digits2_pos p).
Proof.
  rewrite digits2_size. split.
  - pose proof (Pos.size_le p) as H.
    assert (Hp : (Zpos (2 ^ Pos.size p) <= Zpos p~0)%Z) by exact H.
    rewrite Pos2Z.inj_pow in Hp.
    replace (Zpos (Pos.size p)) with (1 + (Zpos (Pos.size p) - 1)) in Hp by lia.
    rewrite Z.pow_add_r in Hp by lia. lia.
  - pose proof (Pos.size_gt p) as H.
    assert (Hp : (Zpos p < Zpos (2 ^ Pos.size p))%Z) by exact H.
    now rewrite Pos2Z.inj_pow in Hp.
Qed.

Lemma shr_1_m mrs : 0 <= shr_m mrs -> shr_m (shr_1 mrs) = shr_m mrs / 2.
Proof.
  destruct mrs as [m r s]; simpl. intros Hm.
  destruct m as [|p|p]; try lia; [reflexivity|].
  destruct p as [p|p|]; simpl.
  - rewrite Pos2Z.inj_xI. apply Z.div_unique with (r := 1); lia.
  - rewrite Pos2Z.inj_xO. apply Z.div_unique with (r := 0); lia.
  - reflexivity.
Qed.

Lemma iter_shr_1_m p : forall mrs,
  0 <= shr_m mrs ->
  shr_m (iter_pos shr_1 p mrs) = shr_m mrs / 2 ^ Zpos p.
Proof.
  induction p as [p IH|p IH|]; intros mrs Hm; simpl iter_pos.
  - assert (Hpow : 0 < 2 ^ Zpos p) by (apply Z.pow_pos_nonneg; lia).
    assert (H1 : 0 <= shr_m (shr_1 mrs))
      by (rewrite shr_1_m by lia; apply Z.div_pos; lia).
    assert (H2 : 0 <= shr_m (iter_pos shr_1 p (shr_1 mrs)))
      by (rewrite IH by lia; apply Z.div_pos; lia).
    rewrite IH, IH, shr_1_m by lia.
    rewrite !Z.div_div by lia. f_equal.
    replace (Z.pos p~1) with (Z.pos p + Z.pos p + 1) by lia.
    rewrite !Z.pow_add_r, Z.pow_1_r by lia. lia.
  - assert (Hpow : 0 < 2 ^ Zpos p) by (apply Z.pow_pos_nonneg; lia).
    assert (H2 : 0 <= shr_m (iter_pos shr_1 p mrs))
      by (rewrite IH by lia; apply Z.div_pos; lia).
    rewrite IH, IH by lia.
    rewrite !Z.div_div by lia. f_equal.
    replace (Z.pos p~0) with (Z.pos p + Z.pos p) by lia.
    rewrite Z.pow_add_r by lia. lia.
  - rewrite shr_1_m by lia. reflexivity.
Qed.


Lemma emin_val : emin = -1074.
Proof. reflexivity. Qed.

Lemma fexp_eq e : fexp prec emax e = Z.max (e - 53) (-1074).
Proof. reflexivity. Qed.

(** Shifting a positive mantissa to its canonical exponent keeps it
    positive, provided its exponent is not below [emin]. *)
Lemma shr_fexp_pos m e l :
  0 < m -> -1074 <= e ->
  0 < shr_m (fst (shr_fexp prec emax m e l))
  /\ -1074 <= snd (shr_fexp prec emax m e l).
Proof.
  intros Hm He. unfold shr_fexp.
  assert (Hrec : shr_m (shr_record_of_loc m l) = m)
    by (destruct l as [|[]]; reflexivity).
  destruct m as [|p|p]; try lia. simpl Zdigits2.
  rewrite fexp_eq.
  pose proof (digits2_bounds p) as [Hlo Hhi].
  set (d := Zpos (digits2_pos p)) in *.
  assert (Hd : 0 < d) by (unfold d; lia).
  unfold shr.
  destruct (Z.max (d + e - 53) (-1074) - e) as [|n|n] eqn:Hn; simpl; try (split; lia).
  rewrite iter_shr_1_m by lia. rewrite Hrec. split; [|lia].
  apply Z.div_str_pos. split; [apply Z.pow_pos_nonneg; lia|].
  apply Z.le_trans with (2 ^ (d - 1)); [|lia].
  apply Z.pow_le_mono_r; lia.
Qed.

Lemma round_nearest_even_pos m l : 0 < m -> 0 < round_nearest_even m l.
Proof.
  intros Hm. unfold round_nearest_even.
  destruct l as [|[]]; try lia. destruct (Z.even m); lia.
Qed.

(** Rounding a positive mantissa never yields a zero or NaN and keeps the
    sign. *)
Lemma binary_round_aux_pos sx m e l :
  0 < m -> -1074 <= e ->
  sf_signed sx (binary_round_aux prec emax sx m e l)
  /\ sf_nonzero (binary_round_aux prec emax sx m e l).
Proof.
  intros Hm He. unfold binary_round_aux.
  pose proof (shr_fexp_pos m e l Hm He) as [H1 H1e].
  destruct (shr_fexp prec emax m e l) as [mrs' e'] eqn:E1. simpl in H1, H1e.
  pose proof (round_nearest_even_pos (shr_m mrs') (loc_of_shr_record mrs') H1) as H2.
  pose proof (shr_fexp_pos _ e' loc_Exact H2 H1e) as [H3 _].
  destruct (shr_fexp prec emax _ e' loc_Exact) as [mrs'' e''] eqn:E2. simpl in H3.
  destruct (shr_m mrs'') as [|q|q]; try lia.
  destruct (e'' <=? emax - prec); simpl; auto.
Qed.


Lemma shr_fexp_nonneg m e l :
  0 <= m -> 0 <= shr_m (fst (shr_fexp prec emax m e l)).
Proof.
  intros Hm. unfold shr_fexp, shr.
  assert (Hrec : shr_m (shr_record_of_loc m l) = m)
    by (destruct l as [|[]]; reflexivity).
  destruct (fexp prec emax (Zdigits2 m + e) - e) as [|n|n]; simpl; try lia.
  rewrite iter_shr_1_m by lia. rewrite Hrec.
  apply Z.div_pos; [lia | apply Z.pow_pos_nonneg; lia].
Qed.

(** Rounding a non-negative mantissa keeps the sign it is given and never
    yields NaN. *)
Lemma binary_round_aux_signed sx m e l :
  0 <= m -> sf_signed sx (binary_round_aux prec emax sx m e l).
Proof.
  intros Hm. unfold binary_round_aux.
  pose proof (shr_fexp_nonneg m e l Hm) as H1.
  destruct (shr_fexp prec emax m e l) as [mrs' e'] eqn:E1. simpl in H1.
  assert (H2 : 0 <= round_nearest_even (shr_m mrs') (loc_of_shr_record mrs')).
  { unfold round_nearest_even.
    destruct (loc_of_shr_record mrs') as [|[]]; try lia.
    destruct (Z.even (shr_m mrs')); lia. }
  pose proof (shr_fexp_nonneg _ e' loc_Exact H2) as H3.
  destruct (shr_fexp prec emax _ e' loc_Exact) as [mrs'' e''] eqn:E2. simpl in H3.
  destruct (shr_m mrs'') as [|q|q]; try lia; [reflexivity|].
  destruct (e'' <=? emax - prec); reflexivity.
Qed.

Lemma shl_align_exp mx ex ex' :
  -1074 <= ex -> -1074 <= ex' -> -1074 <= snd (shl_align mx ex ex').
Proof.
  intros. unfold shl_align. destruct (ex' - ex); simpl; lia.
Qed.

Lemma binary_round_pos sx mx ex :
  -1074 <= ex ->
  sf_signed sx (binary_round prec emax sx mx ex)
  /\ sf_nonzero (binary_round prec emax sx mx ex).
Proof.
  intros He. unfold binary_round.
  pose proof (shl_align_exp mx ex (fexp prec emax (Zpos (digits2_pos mx) + ex)) He) as Hs.
  destruct (shl_align mx ex _) as [mz ez]. simpl in Hs.
  apply binary_round_aux_pos; [lia|].
  apply Hs. rewrite fexp_eq. lia.
Qed.

Lemma Pos_iter_xO m d : Zpos (Pos.iter xO m d) = Zpos m * 2 ^ Zpos d.
Proof.
  induction d as [|d IH] using Pos.peano_ind.
  - simpl. lia.
  - rewrite Pos.iter_succ, Pos2Z.inj_xO, IH, Pos2Z.inj_succ, Z.pow_succ_r by lia.
    lia.
Qed.

(** Aligning a mantissa on a lower exponent multiplies it by the
    corresponding power of two. *)
Lemma shl_align_m mx ex ez :
  ez <= ex -> Zpos (fst (shl_align mx ex ez)) = Zpos mx * 2 ^ (ex - ez).
Proof.
  intros Hle. unfold shl_align.
  destruct (ez - ex) as [|d|d] eqn:Hd; cbn [fst].
  - replace (ex - ez) with 0 by lia. rewrite Z.pow_0_r. lia.
  - lia.
  - rewrite Pos_iter_xO. f_equal. f_equal. pose proof (Pos2Z.opp_pos d). lia.
Qed.


Lemma bounded_canonical m e :
  bounded prec emax m e = true ->
  -1074 <= e /\ Zpos (digits2_pos m) <= 53
  /\ (-1074 < e -> Zpos (digits2_pos m) = 53).
Proof.
  unfold bounded, canonical_mantissa. rewrite fexp_eq.
  intros H. apply andb_true_iff in H. destruct H as [H _].
  apply Z.eqb_eq in H. lia.
Qed.

(** On canonical positive numbers the comparison by exponent, then by
    mantissa, is the comparison of the mantissas aligned on a common
    exponent. *)
Lemma SFcompare_aligned m1 e1 m2 e2 :
  bounded prec emax m1 e1 = true -> bounded prec emax m2 e2 = true ->
  SFcompare (S754_finite false m1 e1) (S754_finite false m2 e2)
  = Some (Zpos m1 * 2 ^ (e1 - Z.min e1 e2) ?= Zpos m2 * 2 ^ (e2 - Z.min e1 e2)).
Proof.
  intros B1 B2.
  destruct (bounded_canonical _ _ B1) as (He1 & Hd1 & Hn1).
  destruct (bounded_canonical _ _ B2) as (He2 & Hd2 & Hn2).
  pose proof (digits2_bounds m1) as [Hlo1 Hhi1].
  pose proof (digits2_bounds m2) as [Hlo2 Hhi2].
  assert (P53 : forall d, d <= 53 -> 2 ^ d <= 2 ^ 53)
    by (intros; apply Z.pow_le_mono_r; lia).
  assert (Hm1 : Zpos m1 < 2 ^ 53) by (specialize (P53 _ Hd1); lia).
  assert (Hm2 : Zpos m2 < 2 ^ 53) by (specialize (P53 _ Hd2); lia).
  assert (Hstep : forall k, 0 < k -> 2 <= 2 ^ k).
  { intros k Hk. change 2 with (2 ^ 1) at 1. apply Z.pow_le_mono_r; lia. }
  simpl SFcompare. f_equal.
  destruct (Z.compare_spec e1 e2) as [Heq|Hlt|Hgt].
  - subst e2. rewrite Z.min_id, Z.sub_diag, Z.pow_0_r, !Z.mul_1_r.
    rewrite Pos.compare_cont_spec. change (Zpos m1 ?= Zpos m2) with (m1 ?= m2)%positive.
    destruct (m1 ?= m2)%positive; reflexivity.
  - symmetry. apply Z.compare_lt_iff.
    rewrite Z.min_l, Z.sub_diag, Z.pow_0_r, Z.mul_1_r by lia.
    rewrite Hn2 in Hlo2 by lia. change (53 - 1) with 52 in Hlo2.
    specialize (Hstep (e2 - e1) ltac:(lia)).
    change (2 ^ 53) with (2 ^ 52 * 2) in Hm1. nia.
  - symmetry. apply Z.compare_gt_iff.
    rewrite Z.min_r, Z.sub_diag, Z.pow_0_r, Z.mul_1_r by lia.
    rewrite Hn1 in Hlo1 by lia. change (53 - 1) with 52 in Hlo1.
    specialize (Hstep (e1 - e2) ltac:(lia)).
    change (2 ^ 53) with (2 ^ 52 * 2) in Hm2. nia.
Qed.

(** On non-negative operands the difference [y - x] is positive exactly
    when [x < y]. *)
Lemma SFsub_pos_iff x y :
  valid_binary x = true -> valid_binary y = true ->
  sf_nonneg x = true -> sf_nonneg y = true ->
  SFltb (S754_zero false) (SFsub prec emax y x) = SFltb x y.
Proof.
  intros Vx Vy Nx Ny.
  destruct x as [sx|sx| |sx mx ex]; try discriminate;
  destruct y as [sy|sy| |sy my ey]; try discriminate;
  simpl in Nx, Ny;
  try (destruct sx; try discriminate); try (destruct sy; try discriminate);
  try reflexivity.
  simpl in Vx, Vy.
  destruct (bounded_canonical _ _ Vx) as (Hex & _).
  destruct (bounded_canonical _ _ Vy) as (Hey & _).
  unfold SFltb at 2. rewrite SFcompare_aligned by assumption.
  unfold SFsub. cbn [cond_Zopp].
  rewrite !shl_align_m by lia.
  rewrite (Z.min_comm ey ex).
  set (ez := Z.min ex ey).
  set (X := Zpos mx * 2 ^ (ex - ez)).
  set (Y := Zpos my * 2 ^ (ey - ez)).
  assert (Hez : -1074 <= ez) by (unfold ez; lia).
  unfold binary_normalize.
  destruct (Z.compare_spec X Y) as [Heq|Hlt|Hgt].
  - replace (Y - X) with 0 by lia. reflexivity.
  - destruct (Y - X) as [|d|d] eqn:Hd; try lia.
    destruct (binary_round_pos false d ez Hez) as [Hs Hnz].
    destruct (binary_round prec emax false d ez) as [s|s| |s m e];
      simpl in Hs, Hnz; try contradiction; subst; reflexivity.
  - destruct (Y - X) as [|d|d] eqn:Hd; try lia.
    destruct (binary_round_pos true d ez Hez) as [Hs Hnz].
    destruct (binary_round prec emax true d ez) as [s|s| |s m e];
      simpl in Hs, Hnz; try contradiction; subst; reflexivity.
Qed.


Lemma sf_rank_finite m e :
  bounded prec emax m e = true ->
  0 < sf_rank (S754_finite false m e) < 2 ^ 2100.
Proof.
  intros B. destruct (bounded_canonical _ _ B) as (He & Hd & _).
  unfold bounded in B. apply andb_true_iff in B. destruct B as [_ B].
  apply Z.leb_le in B. change (emax - prec) with 971 in B.
  pose proof (digits2_bounds m) as [_ Hhi].
  assert (Hm : Zpos m < 2 ^ 53).
  { apply Z.lt_le_trans with (1 := Hhi). apply Z.pow_le_mono_r; lia. }
  assert (Hp : 0 < 2 ^ (e + 1074)) by (apply Z.pow_pos_nonneg; lia).
  assert (Hq : 2 ^ (e + 1074) <= 2 ^ 2045) by (apply Z.pow_le_mono_r; lia).
  cbv beta iota delta [sf_rank]. split; [apply Z.mul_pos_pos; lia|].
  change (2 ^ 2100) with (2 ^ 53 * 2 ^ 2045 * 4). nia.
Qed.

Lemma SFcompare_rank x y :
  valid_binary x = true -> valid_binary y = true ->
  sf_nonneg x = true -> sf_nonneg y = true ->
  SFcompare x y = Some (sf_rank x ?= sf_rank y).
Proof.
  intros Vx Vy Nx Ny.
  destruct x as [sx|sx| |sx mx ex]; try discriminate;
  destruct y as [sy|sy| |sy my ey]; try discriminate;
  simpl in Nx, Ny;
  try (destruct sx; try discriminate); try (destruct sy; try discriminate);
  try reflexivity; simpl in Vx, Vy;
  try (pose proof (sf_rank_finite _ _ Vx) as Rx);
  try (pose proof (sf_rank_finite _ _ Vy) as Ry).
  all: try (simpl SFcompare; f_equal; symmetry;
            first [ apply Z.compare_lt_iff | apply Z.compare_gt_iff ];
            cbv beta iota delta [sf_rank] in *; lia).
  rewrite SFcompare_aligned by assumption. f_equal.
  destruct (bounded_canonical _ _ Vx) as (Hex & _).
  destruct (bounded_canonical _ _ Vy) as (Hey & _).
  set (ez := Z.min ex ey).
  assert (Hp : 0 < 2 ^ (ez + 1074)) by (apply Z.pow_pos_nonneg; lia).
  rewrite (Zmult_compare_compat_r _ _ (2 ^ (ez + 1074))) by lia.
  cbv beta iota delta [sf_rank].
  rewrite <- !Z.mul_assoc, <- !Z.pow_add_r by lia.
  replace (ex - ez + (ez + 1074)) with (ex + 1074) by lia.
  replace (ey - ez + (ez + 1074)) with (ey + 1074) by lia.
  reflexivity.
Qed.


Lemma binary_round_signed sx mx ex :
  sf_signed sx (binary_round prec emax sx mx ex).
Proof.
  unfold binary_round. destruct (shl_align mx ex _) as [mz ez].
  apply binary_round_aux_signed. lia.
Qed.

Lemma SFadd_signed x y :
  sf_signed false x -> sf_nonneg y = true ->
  sf_signed false (SFadd prec emax x y).
Proof.
  intros Sx Ny.
  destruct x as [sx|sx| |sx mx ex]; simpl in Sx; try contradiction; subst;
  destruct y as [sy|sy| |sy my ey]; simpl in Ny; try discriminate;
  try (destruct sy; try discriminate); try reflexivity.
  unfold SFadd. cbn [cond_Zopp].
  change (Zpos ?a + Zpos ?b) with (Zpos (a + b)).
  unfold binary_normalize. apply binary_round_signed.
Qed.

Lemma SFmul_nonneg x m e :
  sf_nonneg x = true ->
  sf_nonneg (SFmul prec emax x (S754_finite false m e)) = true.
Proof.
  intros Nx.
  destruct x as [sx|sx| |sx mx ex]; simpl in Nx; try discriminate;
  try (destruct sx; try discriminate); try reflexivity.
  unfold SFmul. cbn [xorb].
  pose proof (binary_round_aux_signed false (Zpos (mx * m)) (ex + e) loc_Exact
                ltac:(lia)) as H.
  destruct (binary_round_aux _ _ _ _ _ _) as [s|s| |s m' e'];
    simpl in H; try contradiction; subst; reflexivity.
Qed.

Lemma SFcompare_refl x : x <> S754_nan -> SFcompare x x = Some Eq.
Proof.
  destruct x as [s|s| |s m e]; intros H; try congruence; simpl.
  - reflexivity.
  - destruct s; reflexivity.
  - rewrite Z.compare_refl, Pos.compare_cont_refl. destruct s; reflexivity.
Qed.

Lemma nonneg_spec x : nonneg x = sf_nonneg (Prim2SF x).
Proof.
  unfold nonneg. rewrite leb_spec.
  change (Prim2SF 0) with (S754_zero false).
  destruct (Prim2SF x) as [s|s| |s m e]; try destruct s; reflexivity.
Qed.

Lemma pos0_nonneg x : pos0 x -> nonneg x = true.
Proof.
  unfold pos0. rewrite nonneg_spec.
  destruct (Prim2SF x); simpl; intros; subst; auto; contradiction.
Qed.

Lemma pos0_zero : pos0 0%float.
Proof. reflexivity. Qed.

Lemma add_pos0 x y : pos0 x -> nonneg y = true -> pos0 (x + y)%float.
Proof.
  unfold pos0. rewrite nonneg_spec, add_spec. apply SFadd_signed.
Qed.

Lemma mul_nonneg x y m e :
  Prim2SF y = S754_finite false m e ->
  nonneg x = true -> nonneg (x * y)%float = true.
Proof.
  intros Hy. rewrite !nonneg_spec, mul_spec, Hy. apply SFmul_nonneg.
Qed.

Lemma compare_rank x y :
  nonneg x = true -> nonneg y = true ->
  SFcompare (Prim2SF x) (Prim2SF y) = Some (rank x ?= rank y).
Proof.
  rewrite !nonneg_spec. intros.
  apply SFcompare_rank; auto using Prim2SF_valid.
Qed.

Lemma ltb_rank x y :
  nonneg x = true -> nonneg y = true -> (x <? y)%float = (rank x <? rank y).
Proof.
  intros. rewrite ltb_spec. unfold SFltb. rewrite compare_rank by assumption.
  unfold Z.ltb. destruct (rank x ?= rank y); reflexivity.
Qed.

Lemma leb_rank x y :
  nonneg x = true -> nonneg y = true -> (x <=? y)%float = (rank x <=? rank y).
Proof.
  intros. rewrite leb_spec. unfold SFleb. rewrite compare_rank by assumption.
  unfold Z.leb. destruct (rank x ?= rank y); reflexivity.
Qed.

Lemma eqb_rank x y :
  nonneg x = true -> nonneg y = true -> (x =? y)%float = (rank x =? rank y).
Proof.
  intros. rewrite eqb_spec. unfold SFeqb. rewrite compare_rank by assumption.
  rewrite Z.eqb_compare. destruct (rank x ?= rank y); reflexivity.
Qed.

(** The comparator [(a, b) => b - a] is positive exactly when [a] is below
    [b]. *)
Lemma sub_pos_rank x y :
  nonneg x = true -> nonneg y = true ->
  (0 <? y - x)%float = (rank x <? rank y).
Proof.
  intros Nx Ny. rewrite <- ltb_rank by assumption.
  rewrite !ltb_spec, sub_spec.
  change (Prim2SF 0) with (S754_zero false).
  rewrite nonneg_spec in Nx, Ny.
  apply SFsub_pos_iff; auto using Prim2SF_valid.
Qed.

Lemma is_nan_spec x :
  is_nan x = match Prim2SF x with S754_nan => true | _ => false end.
Proof.
  unfold is_nan. rewrite eqb_spec. unfold SFeqb.
  destruct (Prim2SF x) as [s|s| |s m e] eqn:E; try reflexivity;
    rewrite SFcompare_refl by discriminate; reflexivity.
Qed.

Lemma is_nan_abs x : is_nan (abs x) = is_nan x.
Proof.
  rewrite !is_nan_spec, abs_spec. destruct (Prim2SF x); reflexivity.
Qed.

Lemma abs_nonneg x : is_nan x = false -> nonneg (abs x) = true.
Proof.
  rewrite is_nan_spec, nonneg_spec, abs_spec.
  destruct (Prim2SF x); simpl; congruence.
Qed.

Lemma nonneg_not_nan x : nonneg x = true -> is_nan x = false.
Proof.
  rewrite is_nan_spec, nonneg_spec. destruct (Prim2SF x); simpl; congruence.
Qed.

Lemma pos0_falsy_zero x :
  pos0 x -> (is_zero x || is_nan x)%bool = true -> x = 0%float.
Proof.
  unfold pos0, is_zero. rewrite is_nan_spec, eqb_spec. intros Hs Hz.
  apply Prim2SF_inj. change (Prim2SF 0) with (S754_zero false) in *.
  destruct (Prim2SF x) as [s|s| |s m e]; simpl in Hs; try contradiction; subst;
    try reflexivity; discriminate.
Qed.

Lemma lt_truthy a d :
  nonneg a = true -> (a <? d)%float = true ->
  (is_zero d || is_nan d)%bool = false.
Proof.
  rewrite nonneg_spec, ltb_spec. unfold is_zero.
  rewrite is_nan_spec, eqb_spec.
  change (Prim2SF 0) with (S754_zero false).
  destruct (Prim2SF a) as [sa|sa| |sa ma ea]; try discriminate;
  destruct (Prim2SF d) as [sd|sd| |sd md ed]; simpl;
  try (destruct sa; try discriminate); try (destruct sd); try discriminate;
  try reflexivity.
Qed.

End IEEEFacts.

(** ** Strings *)

Module StringFacts.

Lemma prefix_spec k : forall s,
  String.prefix k s = true <-> exists post, s = (k ++ post)%string.
Proof.
  induction k as [|c k IH]; intros s; destruct s as [|d s]; simpl.
  - split; [intros _; exists ""; reflexivity | reflexivity].
  - split; [intros _; exists (String d s); reflexivity | reflexivity].
  - split; [discriminate | intros [post H]; discriminate].
  - destruct (ascii_dec c d) as [->|Hne].
    + rewrite IH. split; intros [post H]; exists post.
      * now rewrite H.
      * now injection H.
    + split; [discriminate | intros [post H]; injection H; congruence].
Qed.

Lemma includes_cons c s k :
  JSString.includes (String c s) k
  = String.prefix k (String c s) || JSString.includes s k.
Proof. reflexivity. Qed.

Lemma includes_spec s : forall k,
  JSString.includes s k = true <-> Substring k s.
Proof.
  unfold Substring.
  induction s as [|c s IH]; intros k.
  - change (JSString.includes "" k) with (String.prefix k "" || false).
    rewrite orb_false_r, prefix_spec. split.
    + intros [post H]. exists "", post. exact H.
    + intros [pre [post H]]. destruct pre; [exists post; exact H | discriminate].
  - rewrite includes_cons, orb_true_iff, prefix_spec, IH. split.
    + intros [[post H]|[pre [post H]]].
      * exists "", post. exact H.
      * exists (String c pre), post. simpl. now rewrite H.
    + intros [pre [post H]]. destruct pre as [|d pre]; simpl in H.
      * left. exists post. exact H.
      * right. injection H as _ H. exists pre, post. exact H.
Qed.

Lemma toLowerCase_app a b :
  JSString.toLowerCase (a ++ b)
  = (JSString.toLowerCase a ++ JSString.toLowerCase b)%string.
Proof. induction a as [|c a IH]; simpl; congruence. Qed.

Lemma append_assoc (a b c : string) :
  ((a ++ b) ++ c = a ++ (b ++ c))%string.
Proof. induction a as [|x a IH]; simpl; congruence. Qed.

Lemma Substring_app_l k a b :
  Substring k a -> Substring k (a ++ b)%string.
Proof.
  intros [pre [post ->]]. exists pre, (post ++ b)%string.
  now rewrite !append_assoc.
Qed.

Lemma Substring_app_r k a b :
  Substring k b -> Substring k (a ++ b)%string.
Proof.
  intros [pre [post ->]]. exists (a ++ pre)%string, post.
  now rewrite !append_assoc.
Qed.

End StringFacts.

(** ** Categorisation *)

Lemma existsb_RuleMatches rule text :
  existsb (fun keyword => JSString.includes text keyword) (keywords rule) = true
  <-> RuleMatches rule text.
Proof.
  unfold RuleMatches. rewrite existsb_exists.
  split; intros [k [Hin Hk]]; exists k; split; auto;
    now apply StringFacts.includes_spec.
Qed.

Lemma categorizeLoop_first text : forall before rule after,
  RuleMatches rule text ->
  (forall r, In r before -> ~ RuleMatches r text) ->
  categorizeLoop (before ++ rule :: after) text = rule_category rule.
Proof.
  induction before as [|r0 before IH]; intros rule after Hm Hnone; simpl.
  - apply existsb_RuleMatches in Hm. now rewrite Hm.
  - destruct (existsb _ (keywords r0)) eqn:E.
    + apply existsb_RuleMatches in E. exfalso. apply (Hnone r0); simpl; auto.
    + apply IH; auto. intros r Hr. apply Hnone. simpl; auto.
Qed.

Lemma categorizeLoop_none text : forall rules,
  (forall r, In r rules -> ~ RuleMatches r text) ->
  categorizeLoop rules text = "Other".
Proof.
  induction rules as [|r0 rules IH]; intros Hnone; simpl; [reflexivity|].
  destruct (existsb _ (keywords r0)) eqn:E.
  - apply existsb_RuleMatches in E. exfalso. apply (Hnone r0); simpl; auto.
  - apply IH. intros r Hr. apply Hnone. simpl; auto.
Qed.

(** C9.  [categorizeTransaction] lowercases the concatenation of the two
    fields and answers with the category of the first rule, in table order,
    one of whose keywords occurs in it, and with "Other" when no rule has
    one; a text in which "starbucks" occurs is "Dining", whatever the case
    it is written in. *)
Theorem categorize_first_matching_rule :
  (forall description merchant : string,
     let text := JSString.toLowerCase (description ++ " " ++ merchant) in
     (forall before rule after,
        CATEGORY_RULES = before ++ rule :: after ->
        RuleMatches rule text ->
        (forall r, In r before -> ~ RuleMatches r text) ->
        categorizeTransaction description merchant = rule_category rule)
     /\ ((forall r, In r CATEGORY_RULES -> ~ RuleMatches r text) ->
         categorizeTransaction description merchant = "Other")
     /\ (Substring "starbucks" (JSString.toLowerCase description)
         \/ Substring "starbucks" (JSString.toLowerCase merchant) ->
         categorizeTransaction description merchant = "Dining"))
  /\ categorizeTransaction "Starbucks Coffee" "STARBUCKS #1234" = "Dining"
  /\ categorizeTransaction "Monthly rent" "Landlord" = "Other".
Proof.
  split; [|split; reflexivity].
  intros description merchant text. unfold categorizeTransaction. fold text.
  split; [|split].
  - intros before rule after Heq Hm Hnone. rewrite Heq.
    now apply categorizeLoop_first.
  - apply categorizeLoop_none.
  - intros Hs.
    apply (categorizeLoop_first text [] (nth 0 CATEGORY_RULES {| rule_category := ""; keywords := [] |})).
    + exists "starbucks". split; [simpl; tauto|].
      unfold text. rewrite !StringFacts.toLowerCase_app.
      destruct Hs as [Hs|Hs].
      * now apply StringFacts.Substring_app_l.
      * now apply StringFacts.Substring_app_r, StringFacts.Substring_app_r.
    + intros r [].
Qed.

(** ** The parsers *)

Lemma normalizedAmount_code cell :
  (let amount := Math_abs (parseFloat (stripNonNumeric cell)) in
   if isNaN amount then 0%float else amount)
  = normalizedAmount cell.
Proof.
  unfold normalizedAmount, stripNonNumeric, isNaN, Math_abs. cbv zeta.
  fold isNumericChar. rewrite IEEEFacts.is_nan_abs. reflexivity.
Qed.

Lemma normalizedAmount_nonneg text :
  IEEE.nonneg (normalizedAmount text) = true.
Proof.
  unfold normalizedAmount, isNaN, Math_abs. cbv zeta.
  destruct (is_nan (parseFloat _)) eqn:E.
  - reflexivity.
  - now apply IEEEFacts.abs_nonneg.
Qed.

Lemma parseCSV_rows_unresolved clock headers :
  csvResolved headers = false ->
  forall lines i acc,
    parseCSV_rows clock headers lines i acc = Returns acc.
Proof.
  intros Hres. induction lines as [|line rest IH]; intros i acc; simpl.
  - reflexivity.
  - unfold csvResolved in Hres. rewrite Hres. apply IH.
Qed.

Lemma parseCSV_rows_resolved clock headers :
  csvResolved headers = true ->
  forall lines i acc,
    parseCSV_rows clock headers lines i acc
    = if forallb (csvHasAmountCell headers) lines
      then Returns (acc ++ mapi (csvTransaction clock headers) i lines)
      else Throws TypeError.
Proof.
  intros Hres. induction lines as [|line rest IH]; intros i acc; simpl.
  - now rewrite app_nil_r.
  - unfold csvResolved in Hres. rewrite Hres.
    unfold csvHasAmountCell at 1. unfold csvCell at 1. unfold csvValues at 1.
    destruct (JSArray.get _ (JSArray.findIndex isAmountHeader headers))
      as [cell|] eqn:Hcell; simpl.
    + rewrite IH. destruct (forallb _ rest); [|reflexivity].
      rewrite <- app_assoc. simpl. do 3 f_equal.
      unfold csvTransaction, csvCell, csvValues. rewrite Hcell.
      rewrite <- normalizedAmount_code. reflexivity.
    + reflexivity.
Qed.

(** What [parseCSV] does, case by case. *)
Lemma parseCSV_outcome clock content :
  parseCSV clock content =
  let lines := csvLines content in
  let headers := csvHeaders lines in
  if List.length lines <? 2 then Returns []
  else if csvResolved headers then
    if forallb (csvHasAmountCell headers) (csvDataLines content)
    then Returns (mapi (csvTransaction clock headers) 1 (csvDataLines content))
    else Throws TypeError
  else Returns [].
Proof.
  unfold parseCSV, csvDataLines. cbv zeta.
  destruct (List.length (csvLines content) <? 2); [reflexivity|].
  destruct (csvResolved (csvHeaders (csvLines content))) eqn:Hres.
  - now rewrite parseCSV_rows_resolved.
  - now rewrite parseCSV_rows_unresolved.
Qed.

Lemma nth_error_mapi {A B : Type} (f : nat -> A -> B) : forall l i k,
  nth_error (mapi f i l) k = option_map (f (i + k)) (nth_error l k).
Proof.
  induction l as [|x l IH]; intros i k; destruct k; simpl; try reflexivity.
  - now rewrite Nat.add_0_r.
  - rewrite IH. now rewrite Nat.add_succ_r.
Qed.

Lemma length_mapi {A B : Type} (f : nat -> A -> B) : forall l i,
  List.length (mapi f i l) = List.length l.
Proof. induction l; intros; simpl; auto. Qed.

(** C1 (at the failing input).  A data row that is shorter than the header
    has no amount cell, and [parseCSV], which has no [try] block, raises a
    [TypeError] when it takes [.replace] of it. *)
Theorem parseCSV_raises_on_short_row :
  forall clock : nat -> string,
    parseCSV clock ("Date,Amount" ++ LF ++ "2024-01-05") = Throws TypeError.
Proof. intros clock. reflexivity. Qed.

Lemma found_existsb (role : string -> bool) (ks : list string) :
  (forall k, role k = true -> JSString.truthy k = true) ->
  Sheet.found (find role ks) = existsb role ks.
Proof.
  intros Hrole. induction ks as [|k ks IH]; simpl.
  - reflexivity.
  - destruct (role k) eqn:E; simpl; auto.
Qed.

Lemma isDateKey_truthy k : Sheet.isDateKey k = true -> JSString.truthy k = true.
Proof. destruct k; [discriminate | reflexivity]. Qed.

Lemma isAmountKey_truthy k :
  Sheet.isAmountKey k = true -> JSString.truthy k = true.
Proof. destruct k; [discriminate | reflexivity]. Qed.

Lemma parseExcel_rows_spec Number_toString clock : forall rows i acc,
  parseExcel_rows Number_toString clock rows i acc
  = acc ++ map (fun '(k, row) => sheetTransaction Number_toString clock k row)
               (sheetKept rows i).
Proof.
  induction rows as [|row rest IH]; intros i acc; simpl.
  - now rewrite app_nil_r.
  - rewrite (found_existsb _ _ isDateKey_truthy),
            (found_existsb _ _ isAmountKey_truthy).
    fold (sheetResolved row).
    destruct (sheetResolved row); [|apply IH].
    rewrite IH, <- app_assoc. simpl. do 3 f_equal.
    unfold sheetTransaction, sheetCell.
    rewrite <- normalizedAmount_code. reflexivity.
Qed.

Lemma sheetKept_filter : forall rows i,
  map snd (sheetKept rows i) = filter sheetResolved rows.
Proof.
  induction rows as [|row rest IH]; intros i; simpl; [reflexivity|].
  destruct (sheetResolved row); simpl; now rewrite IH.
Qed.

Lemma sheetKept_In : forall rows i k row,
  In (k, row) (sheetKept rows i) ->
  i <= k /\ nth_error rows (k - i) = Some row /\ sheetResolved row = true.
Proof.
  induction rows as [|r rest IH]; intros i k row Hin; simpl in Hin.
  - contradiction.
  - destruct (sheetResolved r) eqn:E.
    + destruct Hin as [Heq|Hin].
      * injection Heq as <- <-. rewrite Nat.sub_diag. simpl. auto.
      * apply IH in Hin. destruct Hin as (Hle & Hnth & Hres).
        split; [lia|]. split; [|assumption].
        replace (k - i) with (S (k - S i)) by lia. exact Hnth.
    + apply IH in Hin. destruct Hin as (Hle & Hnth & Hres).
      split; [lia|]. split; [|assumption].
      replace (k - i) with (S (k - S i)) by lia. exact Hnth.
Qed.

Lemma parseCSV_returns clock content txs :
  parseCSV clock content = Returns txs ->
  let headers := csvHeaders (csvLines content) in
  (csvResolved headers = true ->
   List.length txs = List.length (csvDataLines content))
  /\ forall k t,
       nth_error txs k = Some t ->
       exists line,
         nth_error (csvDataLines content) k = Some line
         /\ csvHasAmountCell headers line = true
         /\ t = csvTransaction clock headers (S k) line.
Proof.
  rewrite parseCSV_outcome. cbv zeta.
  set (headers := csvHeaders (csvLines content)).
  assert (Hnil : forall k (t : Transaction), nth_error [] k = Some t -> False)
    by (intros [|k] t; discriminate).
  destruct (List.length (csvLines content) <? 2) eqn:Hlen.
  - intros [= <-]. split.
    + intros _. unfold csvDataLines.
      apply Nat.ltb_lt in Hlen.
      destruct (csvLines content) as [|h [|l ls]]; simpl in *; try reflexivity; lia.
    + intros k t H. destruct (Hnil _ _ H).
  - destruct (csvResolved headers) eqn:Hres.
    + destruct (forallb _ (csvDataLines content)) eqn:Hall; [|discriminate].
      intros [= <-]. split.
      * intros _. apply length_mapi.
      * intros k t Hk. rewrite nth_error_mapi in Hk.
        destruct (nth_error (csvDataLines content) k) as [line|] eqn:Hline;
          [|discriminate].
        injection Hk as <-. exists line. split; [reflexivity|]. split.
        -- rewrite forallb_forall in Hall. apply Hall.
           now apply nth_error_In with k.
        -- reflexivity.
    + intros [= <-]. split; [discriminate|].
      intros k t H. destruct (Hnil _ _ H).
Qed.

Lemma parseExcel_returns ArrayBuffer lib Number_toString clock buffer txs :
  parseExcel ArrayBuffer lib Number_toString clock buffer = Returns txs ->
  txs = []
  \/ exists rows,
       lib buffer = Returns (Some rows)
       /\ txs = map (fun '(k, row) => sheetTransaction Number_toString clock k row)
                    (sheetKept rows 0).
Proof.
  unfold parseExcel.
  destruct (lib buffer) as [[rows|]|e]; try (intros [= <-]; now left).
  destruct (List.length rows =? 0); intros [= <-]; [now left|].
  right. exists rows. split; [reflexivity|].
  now rewrite parseExcel_rows_spec.
Qed.

Lemma split_head sep d rest :
  JSString.includes d (String sep "") = false ->
  nth 0 (JSString.split sep (d ++ String sep rest)) "" = d.
Proof.
  induction d as [|c d IH]; intros Hno.
  - simpl. now rewrite Ascii.eqb_refl.
  - rewrite StringFacts.includes_cons in Hno.
    apply orb_false_iff in Hno. destruct Hno as [Hp Hno].
    simpl. destruct (Ascii.eqb c sep) eqn:E.
    + apply Ascii.eqb_eq in E. subst c. simpl in Hp.
      destruct (ascii_dec sep sep); [|congruence].
      destruct d; discriminate.
    + specialize (IH Hno).
      destruct (JSString.split sep (d ++ String sep rest)) as [|w ws];
        simpl in *; congruence.
Qed.

Lemma isISODate_no_T d :
  isISODate d = true -> JSString.includes d "T" = false.
Proof.
  unfold isISODate.
  assert (Hd : forall c, JSString.isDigit c = true -> Ascii.eqb c "T" = false).
  { intros c. unfold JSString.isDigit.
    destruct (Ascii.eqb c "T") eqn:E; [|reflexivity].
    apply Ascii.eqb_eq in E. subst c. discriminate. }
  assert (Hh : forall c, Ascii.eqb c "-" = true -> Ascii.eqb c "T" = false).
  { intros c E. apply Ascii.eqb_eq in E. subst c. reflexivity. }
  destruct d as [|y1 [|y2 [|y3 [|y4 [|h1 [|m1 [|m2 [|h2 [|d1 [|d2 [|x r]]]]]]]]]]];
    try discriminate.
  intros H. rewrite !andb_true_iff in H.
  repeat match goal with E : _ /\ _ |- _ => destruct E end.
  repeat match goal with
  | E : JSString.isDigit _ = true |- _ => apply Hd in E
  | E : Ascii.eqb _ "-" = true |- _ => apply Hh in E
  end.
  assert (Hp : forall c s, Ascii.eqb c "T" = false ->
               String.prefix "T" (String c s) = false).
  { intros c s E.
    change (String.prefix "T" (String c s))
      with (if ascii_dec "T" c then String.prefix "" s else false).
    destruct (ascii_dec "T" c) as [<-|]; [discriminate|reflexivity]. }
  rewrite !StringFacts.includes_cons, !Hp by assumption. reflexivity.
Qed.

(** The current date is the part of the time stamp before its [T]. *)
Lemma currentDate_of_timestamp clock i d rest :
  clock i = (d ++ "T" ++ rest)%string -> isISODate d = true ->
  currentDate clock i = d.
Proof.
  intros Hc Hd. unfold currentDate. rewrite Hc.
  apply split_head. now apply isISODate_no_T.
Qed.

(** C2 (counterexample).  The second column of this text is its date
    column and its only data row has one cell: no date is present for the
    row, yet the row is kept, with the current date as its date. *)
Lemma row_without_date_cell_is_kept :
  let clock := fun _ : nat => "2026-11-01T09:30:00.000Z" in
  let content := ("Amount,Date" ++ LF ++ "5")%string in
  csvDataLines content = ["5"]
  /\ csvCell isDateHeader (csvHeaders (csvLines content)) "5" = None
  /\ parseCSV clock content
     = Returns [ {| date := "2026-11-01";
                    merchant := "Unknown";
                    amount := 5;
                    category := "Other";
                    description := Some "Unknown" |} ].
Proof. repeat split; reflexivity. Qed.

(** C2 (amended).  Rows are excluded exactly when no date column or no
    amount column is resolved.  For delimited text the columns are resolved
    from the header line, so none of the rows is kept or, when every row
    has an amount cell, all of them are, whatever their date cells hold; for
    a spreadsheet they are resolved among each row's own keys, and the rows
    kept are those that have a date key and an amount key. *)
Theorem rows_kept_iff_columns_resolved :
  (forall (clock : nat -> string) (content : string),
     let headers := csvHeaders (csvLines content) in
     (csvResolved headers = false -> parseCSV clock content = Returns [])
     /\ (csvResolved headers = true ->
         forallb (csvHasAmountCell headers) (csvDataLines content) = true ->
         exists txs,
           parseCSV clock content = Returns txs
           /\ List.length txs = List.length (csvDataLines content)
           /\ forall k line,
                nth_error (csvDataLines content) k = Some line ->
                nth_error txs k
                = Some (csvTransaction clock headers (S k) line)))
  /\ (forall (ArrayBuffer : Type)
             (lib : ArrayBuffer -> outcome (option (list Sheet.Row)))
             (Number_toString : number -> string)
             (clock : nat -> string) (buffer : ArrayBuffer)
             (rows : list Sheet.Row),
        lib buffer = Returns (Some rows) ->
        exists txs,
          parseExcel ArrayBuffer lib Number_toString clock buffer = Returns txs
          /\ txs = map (fun '(k, row) =>
                          sheetTransaction Number_toString clock k row)
                       (sheetKept rows 0)
          /\ map snd (sheetKept rows 0) = filter sheetResolved rows).
Proof.
  split.
  - intros clock content headers. rewrite parseCSV_outcome. cbv zeta.
    fold headers. split.
    + intros ->. now destruct (_ <? 2).
    + intros -> ->.
      destruct (List.length (csvLines content) <? 2) eqn:Hlen.
      * exists []. split; [reflexivity|].
        assert (Hd : csvDataLines content = []).
        { unfold csvDataLines. apply Nat.ltb_lt in Hlen.
          destruct (csvLines content) as [|h [|l ls]]; simpl in *;
            try reflexivity; lia. }
        rewrite Hd. split; [reflexivity|]. intros [|k] line; discriminate.
      * eexists. split; [reflexivity|]. split; [apply length_mapi|].
        intros k line Hk. now rewrite nth_error_mapi, Hk.
  - intros ArrayBuffer lib Number_toString clock buffer rows Hlib.
    unfold parseExcel. rewrite Hlib.
    destruct rows as [|row rest].
    + exists []. repeat split; reflexivity.
    + eexists. split; [reflexivity|].
      split; [now rewrite parseExcel_rows_spec | apply sheetKept_filter].
Qed.

(** C3.  The amount of every transaction a parser returns is the text of
    its amount cell with everything but digits, dots and minus signs
    removed, parsed, with the sign dropped, and 0 when that is not a number;
    it is never negative and never NaN.  No row is dropped for its amount:
    [parseCSV] returns one transaction for each data row, and [parseExcel]
    one for each row that has a date key and an amount key, in the order of
    the rows, so that a cell such as "N/A" yields a transaction with
    amount 0. *)
Theorem amount_is_normalized :
  (forall (clock : nat -> string) (content : string)
          (txs : list Transaction),
     parseCSV clock content = Returns txs ->
     let headers := csvHeaders (csvLines content) in
     (csvResolved headers = true ->
      List.length txs = List.length (csvDataLines content))
     /\ forall k t,
          nth_error txs k = Some t ->
          exists line cell,
            nth_error (csvDataLines content) k = Some line
            /\ csvCell isAmountHeader headers line = Some cell
            /\ amount t = normalizedAmount cell
            /\ (0 <=? amount t)%float = true)
  /\ (forall (ArrayBuffer : Type)
             (lib : ArrayBuffer -> outcome (option (list Sheet.Row)))
             (Number_toString : number -> string)
             (clock : nat -> string) (buffer : ArrayBuffer)
             (txs : list Sheet.Transaction) (t : Sheet.Transaction),
        parseExcel ArrayBuffer lib Number_toString clock buffer = Returns txs ->
        In t txs ->
        exists rows row,
          lib buffer = Returns (Some rows) /\ In row rows
          /\ sheetResolved row = true
          /\ Sheet.amount t
             = normalizedAmount
                 (String_of Number_toString (sheetCell Sheet.isAmountKey row))
          /\ (0 <=? Sheet.amount t)%float = true)
  /\ (forall (ArrayBuffer : Type)
             (lib : ArrayBuffer -> outcome (option (list Sheet.Row)))
             (Number_toString : number -> string)
             (clock : nat -> string) (buffer : ArrayBuffer)
             (rows : list Sheet.Row),
        lib buffer = Returns (Some rows) ->
        exists txs,
          parseExcel ArrayBuffer lib Number_toString clock buffer = Returns txs
          /\ List.length txs = List.length (filter sheetResolved rows)
          /\ forall k row,
               nth_error (filter sheetResolved rows) k = Some row ->
               exists t,
                 nth_error txs k = Some t
                 /\ Sheet.amount t
                    = normalizedAmount
                        (String_of Number_toString
                                   (sheetCell Sheet.isAmountKey row)))
  /\ (forall clock : nat -> string,
        parseCSV clock ("Date,Merchant,Amount" ++ LF ++ "2024-01-05,Cafe,N/A")
        = Returns [ {| date := "2024-01-05";
                       merchant := "Cafe";
                       amount := 0;
                       category := "Dining";
                       description := Some "Cafe" |} ])
  /\ (forall (Number_toString : number -> string) (clock : nat -> string),
        parseExcel unit
          (fun _ => Returns (Some [ [("Date", Sheet.VString "2024-01-05");
                                     ("Amount", Sheet.VString "N/A")];
                                    [("Date", Sheet.VString "2024-01-06");
                                     ("Amount", Sheet.VString "$12.50")] ]))
          Number_toString clock tt
        = Returns [ {| Sheet.date := Sheet.VString "2024-01-05";
                       Sheet.merchant := Sheet.VString "Unknown";
                       Sheet.amount := 0;
                       Sheet.category := Sheet.VString "Uncategorized" |};
                    {| Sheet.date := Sheet.VString "2024-01-06";
                       Sheet.merchant := Sheet.VString "Unknown";
                       Sheet.amount := 12.5;
                       Sheet.category := Sheet.VString "Uncategorized" |} ])
  /\ normalizedAmount "USD -1234.50 (refund)" = 1234.5%float.
Proof.
  split; [|split; [|split; [|split; [intros clock; reflexivity
                                    |split; [intros N clock; reflexivity
                                            |reflexivity]]]]].
  - intros clock content txs Hret headers.
    destruct (parseCSV_returns _ _ _ Hret) as [Hlen Hrows].
    split; [exact Hlen|].
    intros k t Hk. destruct (Hrows k t Hk) as (line & Hline & Hcell & ->).
    fold headers in Hcell. unfold csvHasAmountCell in Hcell.
    destruct (csvCell isAmountHeader headers line) as [cell|] eqn:E;
      [|discriminate].
    exists line, cell. repeat split; auto.
    + unfold csvTransaction. simpl. fold headers. now rewrite E.
    + unfold csvTransaction. simpl. fold headers. rewrite E.
      apply normalizedAmount_nonneg.
  - intros ArrayBuffer lib Number_toString clock buffer txs t Hret Hin.
    destruct (parseExcel_returns _ _ _ _ _ _ Hret) as [->|(rows & Hlib & ->)];
      [contradiction|].
    apply in_map_iff in Hin. destruct Hin as ([k row] & <- & Hin).
    apply sheetKept_In in Hin. destruct Hin as (_ & Hnth & Hres).
    exists rows, row. repeat split; auto.
    + now apply nth_error_In with (k - 0).
    + apply normalizedAmount_nonneg.
  - intros ArrayBuffer lib Number_toString clock buffer rows Hlib.
    exists (map (fun '(k, row) => sheetTransaction Number_toString clock k row)
                (sheetKept rows 0)).
    split.
    { unfold parseExcel. rewrite Hlib. destruct rows as [|row rest];
        [reflexivity|]. cbn [List.length Nat.eqb].
      now rewrite parseExcel_rows_spec. }
    rewrite <- (sheetKept_filter rows 0). rewrite !length_map.
    split; [reflexivity|].
    intros k row Hk. rewrite nth_error_map in Hk. rewrite nth_error_map.
    destruct (nth_error (sheetKept rows 0) k) as [[i row']|]; [|discriminate].
    injection Hk as ->. eexists. split; reflexivity.
Qed.

(** C4.  Dates that are not in the form YYYY-MM-DD, or are no dates at
    all, are stored as they are written: they are neither put in that form
    nor replaced by the current date.  The months of the report, which
    line 213 takes to be the first seven characters [YYYY-MM] of a date,
    are then no months. *)
Lemma date_is_not_canonicalized :
  let clock := fun _ : nat => "2026-11-01T09:30:00.000Z" in
  exists t1 t2,
    parseCSV clock
      ("Date,Amount" ++ LF ++ "01/05/2024,5" ++ LF ++ "next tuesday,7")
    = Returns [t1; t2]
    /\ date t1 = "01/05/2024" /\ isISODate (date t1) = false
    /\ date t2 = "next tuesday" /\ isISODate (date t2) = false
    /\ JSObject.keys (byMonth (generateReport (runtime := Deno) [t1; t2]))
       = ["01/05/2"; "next tu"].
Proof. do 2 eexists. repeat split; reflexivity. Qed.

(** ** Dictionaries *)

Module ObjectFacts.

Section Dictionary.

Context {V : Type}.
Implicit Types (o : JSObject.t V) (k : string) (v : V).

Lemma get_None_keys k o :
  JSObject.get k o = None <-> ~ In k (JSObject.keys o).
Proof.
  induction o as [|[k' v'] o IH]; simpl.
  - tauto.
  - destruct (String.eqb k k') eqn:E.
    + apply String.eqb_eq in E. subst. split; [discriminate | tauto].
    + apply String.eqb_neq in E. rewrite IH. split.
      * intros H [H1|H1]; congruence.
      * tauto.
Qed.

Lemma existsb_keys k o :
  existsb (String.eqb k) (JSObject.keys o)
  = match JSObject.get k o with Some _ => true | None => false end.
Proof.
  induction o as [|[k' v'] o IH]; simpl; [reflexivity|].
  destruct (String.eqb k k'); simpl; auto.
Qed.

Lemma get_overwrite k v k' o :
  JSObject.get k' (JSObject.overwrite k v o)
  = if String.eqb k' k
    then match JSObject.get k o with Some _ => Some v | None => None end
    else JSObject.get k' o.
Proof.
  induction o as [|[k0 v0] o IH]; simpl.
  - now destruct (String.eqb k' k).
  - destruct (String.eqb k k0) eqn:E; simpl.
    + apply String.eqb_eq in E. subst k0.
      destruct (String.eqb k' k); reflexivity.
    + destruct (String.eqb k' k0) eqn:E'.
      * apply String.eqb_eq in E'. subst k0.
        rewrite String.eqb_sym in E. now rewrite E.
      * exact IH.
Qed.

Lemma keys_overwrite k v o :
  JSObject.keys (JSObject.overwrite k v o) = JSObject.keys o.
Proof.
  induction o as [|[k0 v0] o IH]; simpl; [reflexivity|].
  destruct (String.eqb k k0); simpl; [reflexivity | now rewrite IH].
Qed.

Lemma get_insertIndex n k v k' o :
  JSObject.get k o = None ->
  JSObject.get k' (JSObject.insertIndex n k v o)
  = if String.eqb k' k then Some v else JSObject.get k' o.
Proof.
  induction o as [|[k0 v0] o IH]; simpl; intros Hk.
  - reflexivity.
  - destruct (String.eqb k k0) eqn:Ek; [discriminate|].
    destruct (JSObject.arrayIndex k0) as [n0|].
    + destruct (n <? n0)%N; simpl; [reflexivity|].
      rewrite IH by assumption.
      destruct (String.eqb k' k0) eqn:E0; [|reflexivity].
      destruct (String.eqb k' k) eqn:E; [|reflexivity].
      apply String.eqb_eq in E0, E. subst.
      rewrite String.eqb_refl in Ek. discriminate.
    + reflexivity.
Qed.

Lemma keys_insertIndex n k v o :
  JSObject.keys (JSObject.insertIndex n k v o)
  = insertIndexKey n k (JSObject.keys o).
Proof.
  induction o as [|[k0 v0] o IH]; simpl; [reflexivity|].
  destruct (JSObject.arrayIndex k0) as [n0|]; [|reflexivity].
  destruct (n <? n0)%N; simpl; [reflexivity | now rewrite IH].
Qed.

Lemma get_app k o o' :
  JSObject.get k (o ++ o')
  = match JSObject.get k o with
    | Some x => Some x
    | None => JSObject.get k o'
    end.
Proof.
  induction o as [|[k0 v0] o IH]; simpl; [reflexivity|].
  destruct (String.eqb k k0); auto.
Qed.

(** Reading after an assignment. *)
Lemma get_set k v k' o :
  JSObject.get k' (JSObject.set k v o)
  = if String.eqb k' k then Some v else JSObject.get k' o.
Proof.
  unfold JSObject.set. destruct (JSObject.get k o) as [x|] eqn:Hk.
  - rewrite get_overwrite, Hk. reflexivity.
  - destruct (JSObject.arrayIndex k) as [n|].
    + now apply get_insertIndex.
    + rewrite get_app. simpl.
      destruct (String.eqb k' k) eqn:E.
      * apply String.eqb_eq in E. subst. now rewrite Hk.
      * now destruct (JSObject.get k' o).
Qed.

(** The keys after an assignment. *)
Lemma keys_set k v o :
  JSObject.keys (JSObject.set k v o) = addKey k (JSObject.keys o).
Proof.
  unfold JSObject.set, addKey. rewrite existsb_keys.
  destruct (JSObject.get k o) as [x|].
  - apply keys_overwrite.
  - destruct (JSObject.arrayIndex k) as [n|].
    + apply keys_insertIndex.
    + unfold JSObject.keys. now rewrite map_app.
Qed.

(** An assignment and an overwriting of the same property amount to one
    assignment. *)
Lemma overwrite_set k v v0 o :
  JSObject.overwrite k v (JSObject.set k v0 o) = JSObject.set k v o.
Proof.
  unfold JSObject.set. destruct (JSObject.get k o) as [x|] eqn:Hk.
  - clear Hk. induction o as [|[k0 x0] o IH]; simpl; [reflexivity|].
    destruct (String.eqb k k0) eqn:E; simpl; rewrite E; [reflexivity|].
    now rewrite IH.
  - destruct (JSObject.arrayIndex k) as [n|].
    + induction o as [|[k0 x0] o IH]; simpl in *.
      * now rewrite String.eqb_refl.
      * destruct (String.eqb k k0) eqn:E; [discriminate|].
        destruct (JSObject.arrayIndex k0) as [n0|].
        -- destruct (n <? n0)%N; simpl.
           ++ now rewrite String.eqb_refl.
           ++ rewrite E. now rewrite IH.
        -- simpl. now rewrite String.eqb_refl.
    + induction o as [|[k0 x0] o IH]; simpl in *.
      * now rewrite String.eqb_refl.
      * destruct (String.eqb k k0) eqn:E; [discriminate|].
        now rewrite IH.
Qed.

(** A loop that assigns, for each element, to the property [key t] a value
    computed from the one it has: what a property ends up with depends on
    the elements with that key only. *)
Lemma get_fold_set {T : Type} (key : T -> string)
    (f : option V -> T -> V) k : forall (l : list T) o,
  JSObject.get k
    (fold_left (fun o t => JSObject.set (key t) (f (JSObject.get (key t) o) t) o)
               l o)
  = fold_left (fun acc t => Some (f acc t))
              (filter (fun t => String.eqb (key t) k) l)
              (JSObject.get k o).
Proof.
  induction l as [|t l IH]; intros o; simpl; [reflexivity|].
  rewrite IH, get_set. rewrite (String.eqb_sym k (key t)).
  destruct (String.eqb (key t) k) eqn:E; simpl; [|reflexivity].
  apply String.eqb_eq in E. now rewrite E.
Qed.

Lemma keys_fold_set {T : Type} (key : T -> string)
    (f : option V -> T -> V) : forall (l : list T) o,
  JSObject.keys
    (fold_left (fun o t => JSObject.set (key t) (f (JSObject.get (key t) o) t) o)
               l o)
  = fold_left (fun ks k => addKey k ks) (map key l) (JSObject.keys o).
Proof.
  induction l as [|t l IH]; intros o; simpl; [reflexivity|].
  now rewrite IH, keys_set.
Qed.

End Dictionary.

(** *** The enumeration order of keys *)

Lemma existsb_eqb_In k ks :
  existsb (String.eqb k) ks = true <-> In k ks.
Proof.
  rewrite existsb_exists. split.
  - intros [x [Hin E]]. apply String.eqb_eq in E. now subst.
  - intros Hin. exists k. split; [assumption | apply String.eqb_refl].
Qed.

Lemma In_insertIndexKey n k x ks :
  In x (insertIndexKey n k ks) <-> x = k \/ In x ks.
Proof.
  induction ks as [|k0 ks IH]; simpl.
  - intuition.
  - destruct (JSObject.arrayIndex k0) as [n0|].
    + destruct (n <? n0)%N; simpl; [intuition|]. rewrite IH. intuition.
    + simpl. intuition.
Qed.

Lemma In_addKey k x ks : In x (addKey k ks) <-> x = k \/ In x ks.
Proof.
  unfold addKey. destruct (existsb (String.eqb k) ks) eqn:E.
  - apply existsb_eqb_In in E. split; [auto|]. intros [->|H]; assumption.
  - destruct (JSObject.arrayIndex k) as [n|].
    + apply In_insertIndexKey.
    + rewrite in_app_iff. simpl. intuition.
Qed.

Lemma NoDup_insertIndexKey n k ks :
  ~ In k ks -> NoDup ks -> NoDup (insertIndexKey n k ks).
Proof.
  induction ks as [|k0 ks IH]; simpl; intros Hk Hnd.
  - constructor; [intros [] | constructor].
  - inversion Hnd as [|? ? Hk0 Hnd']; subst.
    destruct (JSObject.arrayIndex k0) as [n0|].
    + destruct (n <? n0)%N.
      * constructor; [simpl; tauto | assumption].
      * constructor.
        -- rewrite In_insertIndexKey. intros [->|H]; tauto.
        -- apply IH; tauto.
    + constructor; [simpl; tauto | assumption].
Qed.

Lemma NoDup_addKey k ks : NoDup ks -> NoDup (addKey k ks).
Proof.
  intros Hnd. unfold addKey. destruct (existsb (String.eqb k) ks) eqn:E.
  - assumption.
  - assert (Hk : ~ In k ks).
    { intros H. apply existsb_eqb_In in H. congruence. }
    destruct (JSObject.arrayIndex k) as [n|].
    + now apply NoDup_insertIndexKey.
    + apply NoDup_app; [assumption | constructor; [intros []|constructor] |].
      intros x Hx [<-|[]]. contradiction.
Qed.

Lemma keyOrder_snoc l k : keyOrder (l ++ [k]) = addKey k (keyOrder l).
Proof. unfold keyOrder. now rewrite fold_left_app. Qed.

(** The keys of the object are the keys assigned to, each once. *)
Lemma keyOrder_In l : forall x, In x (keyOrder l) <-> In x l.
Proof.
  induction l as [|k l IH] using rev_ind; intros x.
  - reflexivity.
  - rewrite keyOrder_snoc, In_addKey, IH, in_app_iff. simpl. intuition.
Qed.

Lemma keyOrder_NoDup l : NoDup (keyOrder l).
Proof.
  induction l as [|k l IH] using rev_ind.
  - constructor.
  - rewrite keyOrder_snoc. now apply NoDup_addKey.
Qed.

Lemma firstOccurrences_snoc l k :
  firstOccurrences (l ++ [k])
  = if existsb (String.eqb k) l then firstOccurrences l
    else firstOccurrences l ++ [k].
Proof.
  induction l as [|x l IH]; simpl; [reflexivity|].
  rewrite IH. destruct (String.eqb k x) eqn:E; simpl.
  - apply String.eqb_eq in E. subst x.
    destruct (existsb (String.eqb k) l); [reflexivity|].
    rewrite filter_app. simpl. rewrite String.eqb_refl. simpl.
    now rewrite app_nil_r.
  - destruct (existsb (String.eqb k) l); [reflexivity|].
    rewrite filter_app. simpl. rewrite (String.eqb_sym x k), E. reflexivity.
Qed.

Lemma insertIndexKey_app n k idx others :
  Forall (fun x => isArrayIndex x = true) idx ->
  Sorted (fun a b => (indexValue a <= indexValue b)%N) idx ->
  Forall (fun x => isArrayIndex x = false) others ->
  JSObject.arrayIndex k = Some n ->
  exists idx',
    insertIndexKey n k (idx ++ others) = idx' ++ others
    /\ Forall (fun x => isArrayIndex x = true) idx'
    /\ Sorted (fun a b => (indexValue a <= indexValue b)%N) idx'.
Proof.
  intros Hidx Hsorted Hothers Hk.
  assert (Hki : isArrayIndex k = true) by (unfold isArrayIndex; now rewrite Hk).
  assert (Hkv : indexValue k = n) by (unfold indexValue; now rewrite Hk).
  induction idx as [|k0 idx IH]; simpl.
  - exists [k]. split; [|split; [now constructor | repeat constructor]].
    destruct others as [|o others]; [reflexivity|]. simpl.
    apply Forall_inv in Hothers.
    unfold isArrayIndex in Hothers. now destruct (JSObject.arrayIndex o).
  - pose proof (Forall_inv Hidx) as Hk0.
    pose proof (Forall_inv_tail Hidx) as Hidx'.
    apply Sorted_inv in Hsorted. destruct Hsorted as [Hsorted Hhd].
    unfold isArrayIndex in Hk0.
    destruct (JSObject.arrayIndex k0) as [n0|] eqn:E0; [|discriminate].
    assert (Hv0 : indexValue k0 = n0) by (unfold indexValue; now rewrite E0).
    destruct (n <? n0)%N eqn:Hlt.
    + exists (k :: k0 :: idx). split; [reflexivity|]. split.
      * constructor; assumption.
      * constructor; [constructor; assumption|]. constructor.
        apply N.ltb_lt in Hlt. lia.
    + destruct (IH Hidx' Hsorted) as (idx' & Heq & Hall & Hs).
      exists (k0 :: idx'). split; [simpl; now rewrite Heq|]. split.
      * constructor; [|assumption]. unfold isArrayIndex. now rewrite E0.
      * constructor; [assumption|].
        apply N.ltb_ge in Hlt.
        destruct idx' as [|y idx'']; constructor.
        destruct idx as [|z idx3]; simpl in Heq.
        -- destruct others as [|o others]; simpl in Heq.
           ++ injection Heq as <- _. lia.
           ++ apply Forall_inv in Hothers.
              unfold isArrayIndex in Hothers.
              destruct (JSObject.arrayIndex o); [discriminate|].
              injection Heq as <- _. lia.
        -- apply HdRel_inv in Hhd.
           pose proof (Forall_inv Hidx') as Hzi.
           unfold isArrayIndex in Hzi.
           destruct (JSObject.arrayIndex z) as [nz|] eqn:Ez; [|discriminate].
           assert (Hvz : indexValue z = nz) by (unfold indexValue; now rewrite Ez).
           destruct (n <? nz)%N; injection Heq as <- _; lia.
Qed.

(** The enumeration order: the array-index keys in ascending numeric
    order, then the other keys in the order of their first assignment. *)
Lemma keyOrder_structure l :
  exists idx,
    keyOrder l
    = idx ++ firstOccurrences (filter (fun k => negb (isArrayIndex k)) l)
    /\ Forall (fun x => isArrayIndex x = true) idx
    /\ Sorted (fun a b => (indexValue a <= indexValue b)%N) idx.
Proof.
  induction l as [|k l IH] using rev_ind.
  - exists []. repeat split; constructor.
  - destruct IH as (idx & Heq & Hidx & Hsorted).
    set (others := firstOccurrences (filter (fun k => negb (isArrayIndex k)) l)) in *.
    assert (Hothers : Forall (fun x => isArrayIndex x = false) others).
    { apply Forall_forall. intros x Hx.
      assert (Hin : In x (filter (fun k => negb (isArrayIndex k)) l)).
      { clear -Hx. unfold others in Hx.
        induction (filter (fun k => negb (isArrayIndex k)) l) as [|y f IHf];
          simpl in Hx; [contradiction|].
        destruct Hx as [<-|Hx]; [now left|].
        apply filter_In in Hx. right. apply IHf. tauto. }
      apply filter_In in Hin. destruct Hin as [_ Hin].
      now apply negb_true_iff in Hin. }
    rewrite keyOrder_snoc, filter_app. simpl. unfold addKey.
    destruct (existsb (String.eqb k) (keyOrder l)) eqn:E.
    + exists idx. split; [|tauto].
      apply existsb_eqb_In in E. apply (proj1 (keyOrder_In l k)) in E.
      destruct (isArrayIndex k) eqn:Hk; simpl.
      * now rewrite app_nil_r.
      * rewrite firstOccurrences_snoc.
        assert (Hin : In k (filter (fun k => negb (isArrayIndex k)) l)).
        { apply filter_In. split; [assumption | now rewrite Hk]. }
        apply existsb_eqb_In in Hin. now rewrite Hin.
    + assert (Hnot : ~ In k l).
      { intros H. apply (proj2 (keyOrder_In l k)) in H.
        apply (proj2 (existsb_eqb_In k _)) in H. congruence. }
      destruct (JSObject.arrayIndex k) as [n|] eqn:Hk.
      * assert (Hki : isArrayIndex k = true)
          by (unfold isArrayIndex; now rewrite Hk).
        rewrite Hki. simpl. rewrite app_nil_r. fold others. rewrite Heq.
        destruct (insertIndexKey_app n k idx others Hidx Hsorted Hothers Hk)
          as (idx' & Hins & Hall & Hs).
        exists idx'. tauto.
      * assert (Hki : isArrayIndex k = false)
          by (unfold isArrayIndex; now rewrite Hk).
        rewrite Hki. simpl.
        exists idx. split; [|tauto]. rewrite firstOccurrences_snoc.
        assert (Hnin : existsb (String.eqb k)
                         (filter (fun k => negb (isArrayIndex k)) l) = false).
        { destruct (existsb _ (filter _ l)) eqn:E'; [|reflexivity].
          apply existsb_eqb_In, filter_In in E'. tauto. }
        rewrite Hnin, Heq. fold others. now rewrite app_assoc.
Qed.

(** *** Inherited properties *)

Section Inheritance.

Context {runtime : Runtime} {V : Type}.
Implicit Types (o : JSObject.t V) (k : string) (v : V).

Lemma lookup_lookupOf k o :
  JSObject.lookup k o = lookupOf k (JSObject.get k o).
Proof. reflexivity. Qed.

Lemma lookup_plain k o :
  JSObject.inherited k = None ->
  JSObject.lookup k o
  = match JSObject.get k o with
    | Some v => JSObject.Own v
    | None => JSObject.Missing
    end.
Proof. intros H. unfold JSObject.lookup. now rewrite H. Qed.

Lemma assign_settable k v o :
  settable k = true -> JSObject.assign k v o = JSObject.set k v o.
Proof.
  unfold settable, JSObject.assign.
  destruct (JSObject.get k o), (JSObject.inherited k) as [[n|]|];
    intros H; try reflexivity; discriminate.
Qed.

Lemma assign_ignored k v o :
  settable k = false -> JSObject.get k o = None ->
  JSObject.assign k v o = o.
Proof.
  unfold settable, JSObject.assign. intros H ->.
  destruct (JSObject.inherited k) as [[n|]|]; try discriminate. reflexivity.
Qed.


Lemma assignable_nil : assignable (@nil (string * V)).
Proof. intros k _. reflexivity. Qed.

Lemma assignable_assign k v o : assignable o -> assignable (JSObject.assign k v o).
Proof.
  intros Ho k' Hk'. destruct (settable k) eqn:E.
  - rewrite assign_settable by assumption. rewrite get_set.
    destruct (String.eqb k' k) eqn:E'; [|now apply Ho].
    apply String.eqb_eq in E'. congruence.
  - rewrite assign_ignored; auto.
Qed.

(** A loop that assigns, for each element, to the property [key t] a value
    computed from what [o[key t]] evaluates to: what a property ends up
    with depends on the elements with that key only, and the assignments
    that are ignored leave no trace. *)
Lemma get_fold_assign {T : Type} (key : T -> string)
    (f : JSObject.Lookup V -> T -> V) k : forall (l : list T) o,
  assignable o ->
  JSObject.get k
    (fold_left
       (fun o t =>
          JSObject.assign (key t) (f (JSObject.lookup (key t) o) t) o)
       l o)
  = if settable k
    then fold_left (fun acc t => Some (f (lookupOf k acc) t))
                   (filter (fun t => String.eqb (key t) k) l)
                   (JSObject.get k o)
    else None.
Proof.
  induction l as [|t l IH]; intros o Ho; cbn [fold_left filter].
  - destruct (settable k) eqn:E; [reflexivity | now apply Ho].
  - rewrite IH by now apply assignable_assign.
    destruct (settable k) eqn:E; [|reflexivity].
    destruct (String.eqb (key t) k) eqn:Ek.
    + apply String.eqb_eq in Ek. subst k. cbn [fold_left].
      rewrite assign_settable by assumption.
      now rewrite get_set, String.eqb_refl, lookup_lookupOf.
    + f_equal. destruct (settable (key t)) eqn:Et.
      * rewrite assign_settable by assumption. rewrite get_set.
        now rewrite String.eqb_sym, Ek.
      * rewrite assign_ignored; auto.
Qed.

Lemma keys_fold_assign {T : Type} (key : T -> string)
    (f : JSObject.Lookup V -> T -> V) : forall (l : list T) o,
  assignable o ->
  JSObject.keys
    (fold_left
       (fun o t =>
          JSObject.assign (key t) (f (JSObject.lookup (key t) o) t) o)
       l o)
  = fold_left (fun ks k => addKey k ks) (filter settable (map key l))
              (JSObject.keys o).
Proof.
  induction l as [|t l IH]; intros o Ho; cbn [fold_left map filter];
    [reflexivity|].
  rewrite IH by now apply assignable_assign.
  destruct (settable (key t)) eqn:Et; cbn [fold_left].
  - now rewrite assign_settable, keys_set.
  - rewrite assign_ignored; auto.
Qed.

End Inheritance.

(** The names of seven characters at most that a plain object inherits:
    [valueOf] alone. *)
Lemma inherited_short {runtime : Runtime} k :
  String.length k <= 7 ->
  JSObject.inherited k = None <-> k <> "valueOf".
Proof.
  intros Hlen. unfold JSObject.inherited. split.
  - intros H ->. discriminate H.
  - intros Hk.
    assert (Hm : existsb (String.eqb k) JSObject.methods = false).
    { apply not_true_is_false. intros Hin.
      apply existsb_eqb_In in Hin. unfold JSObject.methods in Hin.
      repeat (destruct Hin as [<-|Hin];
              [first [ now apply Hk | cbn in Hlen; lia ]|]).
      destruct Hin. }
    rewrite Hm.
    destruct (String.eqb_spec k "__proto__") as [->|_];
      [cbn in Hlen; lia | reflexivity].
Qed.

End ObjectFacts.

(** ** Sorting *)

Module SortFacts.

Section Sort.

Context {A : Type}.
Variable le : A -> A -> bool.

Lemma insert_perm x l : Permutation (JSArray.insert le x l) (x :: l).
Proof.
  induction l as [|y l IH]; simpl.
  - apply Permutation_refl.
  - destruct (le x y).
    + apply Permutation_refl.
    + apply perm_trans with (y :: x :: l); [now constructor | constructor].
Qed.

(** Sorting permutes. *)
Lemma sort_perm l : Permutation (JSArray.sort le l) l.
Proof.
  induction l as [|x l IH]; simpl.
  - constructor.
  - apply perm_trans with (x :: JSArray.sort le l);
      [apply insert_perm | now constructor].
Qed.

Lemma sort_length l : List.length (JSArray.sort le l) = List.length l.
Proof. apply Permutation_length, sort_perm. Qed.

Lemma insert_sorted x l :
  (forall y, In y l -> le x y = false -> le y x = true) ->
  Sorted (fun a b => le a b = true) l ->
  Sorted (fun a b => le a b = true) (JSArray.insert le x l).
Proof.
  intros Htotal Hs. induction l as [|y l IH]; simpl.
  - repeat constructor.
  - destruct (le x y) eqn:E.
    + constructor; [assumption | constructor; assumption].
    + apply Sorted_inv in Hs. destruct Hs as [Hs Hhd].
      constructor.
      * apply IH; [|assumption]. intros z Hz. apply Htotal. now right.
      * destruct l as [|z l]; simpl.
        -- constructor. apply Htotal; [now left | assumption].
        -- destruct (le x z).
           ++ constructor. apply Htotal; [now left | assumption].
           ++ constructor. now apply HdRel_inv in Hhd.
Qed.

(** The result of sorting is ordered, when the comparison is total on the
    elements sorted. *)
Lemma sort_sorted l :
  (forall x y, In x l -> In y l -> le x y = false -> le y x = true) ->
  Sorted (fun a b => le a b = true) (JSArray.sort le l).
Proof.
  induction l as [|x l IH]; intros Htotal; simpl.
  - constructor.
  - apply insert_sorted.
    + intros y Hy. apply Htotal; [now left|].
      right. apply Permutation_in with (1 := sort_perm l). exact Hy.
    + apply IH. intros a b Ha Hb. apply Htotal; now right.
Qed.

Lemma insert_filter (p : A -> bool) x l :
  (forall y, In y l -> p x = true -> p y = true -> le x y = true) ->
  filter p (JSArray.insert le x l) = filter p (x :: l).
Proof.
  intros Hp. induction l as [|y l IH]; simpl.
  - reflexivity.
  - destruct (le x y) eqn:E; [reflexivity|]. simpl.
    rewrite IH by (intros z Hz; apply Hp; now right). simpl.
    destruct (p x) eqn:Px; [|reflexivity].
    destruct (p y) eqn:Py; [|reflexivity].
    rewrite Hp in E; [discriminate | now left | reflexivity | assumption].
Qed.

(** Sorting is stable: elements the comparison does not separate keep the
    order they had. *)
Lemma sort_stable (p : A -> bool) l :
  (forall x y, In x l -> In y l -> p x = true -> p y = true -> le x y = true) ->
  filter p (JSArray.sort le l) = filter p l.
Proof.
  induction l as [|x l IH]; intros Hp; simpl.
  - reflexivity.
  - rewrite insert_filter.
    + simpl. rewrite IH; [reflexivity|].
      intros a b Ha Hb. apply Hp; now right.
    + intros y Hy. apply Hp; [now left|].
      right. apply Permutation_in with (1 := sort_perm l). exact Hy.
Qed.

End Sort.

Lemma firstn_sorted {A : Type} (R : A -> A -> Prop) n : forall l,
  Sorted R l -> Sorted R (firstn n l).
Proof.
  induction n as [|n IH]; intros l Hs; simpl; [constructor|].
  destruct l as [|x l]; [constructor|].
  apply Sorted_inv in Hs. destruct Hs as [Hs Hhd].
  constructor; [now apply IH|].
  destruct n; simpl; [constructor|].
  destruct l as [|y l]; constructor. now apply HdRel_inv in Hhd.
Qed.

(** *** The order of strings *)

Lemma ltb_irrefl a : JSString.ltb a a = false.
Proof.
  induction a as [|c a IH]; simpl; [reflexivity|].
  now rewrite Nat.ltb_irrefl.
Qed.

Lemma ltb_cotrans c : forall a b,
  JSString.ltb c a = true ->
  JSString.ltb c b = true \/ JSString.ltb b a = true.
Proof.
  induction c as [|x c IH]; intros a b Hca.
  - destruct a as [|y a]; [discriminate|].
    destruct b as [|z b]; [now right | now left].
  - destruct a as [|y a]; [discriminate|].
    destruct b as [|z b]; [now right|].
    simpl in *.
    destruct (nat_of_ascii x <? nat_of_ascii y) eqn:Exy.
    + apply Nat.ltb_lt in Exy.
      destruct (nat_of_ascii x <? nat_of_ascii z) eqn:Exz; [now left|].
      apply Nat.ltb_ge in Exz.
      assert (Hzy : (nat_of_ascii z <? nat_of_ascii y) = true)
        by (apply Nat.ltb_lt; lia).
      rewrite Hzy. now right.
    + destruct (nat_of_ascii y <? nat_of_ascii x) eqn:Eyx; [discriminate|].
      apply Nat.ltb_ge in Exy, Eyx.
      assert (Hxy : nat_of_ascii x = nat_of_ascii y) by lia.
      rewrite Hxy.
      destruct (nat_of_ascii y <? nat_of_ascii z) eqn:Eyz; [now left|].
      destruct (nat_of_ascii z <? nat_of_ascii y) eqn:Ezy; [now right|].
      now apply IH.
Qed.

Lemma ltb_asym a : forall b,
  JSString.ltb a b = true -> JSString.ltb b a = false.
Proof.
  induction a as [|x a IH]; intros b H.
  - now destruct b.
  - destruct b as [|y b]; [discriminate|]. simpl in *.
    destruct (nat_of_ascii x <? nat_of_ascii y) eqn:Exy.
    + apply Nat.ltb_lt in Exy.
      assert (Hyx : (nat_of_ascii y <? nat_of_ascii x) = false)
        by (apply Nat.ltb_ge; lia).
      now rewrite Hyx.
    + destruct (nat_of_ascii y <? nat_of_ascii x); [discriminate|].
      now apply IH.
Qed.

Lemma leb_total a b : JSString.leb a b = false -> JSString.leb b a = true.
Proof.
  unfold JSString.leb. intros H. apply negb_false_iff in H.
  apply negb_true_iff. now apply ltb_asym.
Qed.

Lemma leb_trans a b c :
  JSString.leb a b = true -> JSString.leb b c = true ->
  JSString.leb a c = true.
Proof.
  unfold JSString.leb. intros Hab Hbc.
  apply negb_true_iff in Hab, Hbc. apply negb_true_iff.
  destruct (JSString.ltb c a) eqn:E; [|reflexivity].
  destruct (ltb_cotrans c a b E); congruence.
Qed.

(** [sort()] puts strings in ascending order. *)
Lemma sortStrings_sorted l :
  StronglySorted (fun a b => JSString.leb a b = true) (JSArray.sortStrings l).
Proof.
  apply Sorted_StronglySorted.
  - intros a b c. apply leb_trans.
  - apply sort_sorted. intros x y _ _. apply leb_total.
Qed.

End SortFacts.

(** ** The report *)


Module ReportFacts.

Import IEEE.

Lemma fold_add_pos0 : forall (l : list number) acc,
  Forall (fun x => nonneg x = true) l -> pos0 acc ->
  pos0 (fold_left (fun sum x => (sum + x)%float) l acc).
Proof.
  induction l as [|x l IH]; intros acc Hl Hacc; simpl.
  - assumption.
  - apply IH; [now apply Forall_inv_tail in Hl|].
    apply IEEEFacts.add_pos0; [assumption | now apply Forall_inv in Hl].
Qed.

Lemma fsum_pos0 l : Forall (fun x => nonneg x = true) l -> pos0 (fsum l).
Proof. intros H. apply fold_add_pos0; [assumption | apply IEEEFacts.pos0_zero]. Qed.

Lemma amounts_nonneg transactions :
  amountsNonNegative transactions ->
  Forall (fun x => nonneg x = true) (map amount transactions).
Proof.
  unfold amountsNonNegative. rewrite !Forall_forall. intros H x Hx.
  apply in_map_iff in Hx. destruct Hx as (t & <- & Ht). now apply H.
Qed.

Lemma amounts_nonneg_filter p transactions :
  amountsNonNegative transactions ->
  amountsNonNegative (filter p transactions).
Proof.
  unfold amountsNonNegative. rewrite !Forall_forall. intros H x Hx.
  apply filter_In in Hx. apply H. tauto.
Qed.

Lemma fold_left_amount (l : list Transaction) acc :
  fold_left (fun sum t => (sum + amount t)%float) l acc
  = fold_left (fun sum x => (sum + x)%float) (map amount l) acc.
Proof. revert acc. induction l; intros; simpl; auto. Qed.

Section Groupings.

Context {runtime : Runtime}.

Lemma added_number x t :
  pos0 x ->
  added (JSObject.Own (JSValue.Num x)) t = JSValue.Num (x + amount t)%float.
Proof.
  intros H. unfold added, JSValue.orZero, JSValue.truthy, JSNumber.truthy.
  destruct (is_zero x || is_nan x) eqn:E; cbn [negb]; [|reflexivity].
  now rewrite (IEEEFacts.pos0_falsy_zero x H E).
Qed.

(** A running total that restarts from 0 when it is falsy is the plain sum,
    on non-negative amounts. *)
Lemma fold_added_number k : forall (l : list Transaction) acc,
  amountsNonNegative l -> pos0 acc ->
  fold_left (fun a t => Some (added (lookupOf k a) t)) l
            (Some (JSValue.Num acc))
  = Some (JSValue.Num
            (fold_left (fun sum x => (sum + x)%float) (map amount l) acc)).
Proof.
  induction l as [|t l IH]; intros acc Hl Hacc; cbn [fold_left map].
  - reflexivity.
  - cbn [lookupOf]. rewrite (added_number acc t Hacc). apply IH.
    + now apply Forall_inv_tail in Hl.
    + apply IEEEFacts.add_pos0; [assumption | now apply Forall_inv in Hl].
Qed.

Lemma fold_added_plain k (l : list Transaction) :
  JSObject.inherited k = None ->
  amountsNonNegative l ->
  fold_left (fun a t => Some (added (lookupOf k a) t)) l None
  = match l with
    | [] => None
    | _ => Some (JSValue.Num (fsum (map amount l)))
    end.
Proof.
  intros Hk Hl. destruct l as [|t l]; cbn [fold_left]; [reflexivity|].
  cbn [lookupOf]. rewrite Hk.
  change (added JSObject.Missing t) with (JSValue.Num (0 + amount t)%float).
  rewrite fold_added_number.
  - reflexivity.
  - now apply Forall_inv_tail in Hl.
  - apply IEEEFacts.add_pos0; [apply IEEEFacts.pos0_zero|].
    now apply Forall_inv in Hl.
Qed.

(** Under a key that names an inherited function the texts of the amounts
    are put one after the other. *)
Lemma fold_added_text k m : forall (l : list Transaction) after,
  fold_left (fun a t => Some (added (lookupOf k a) t)) l
            (Some (JSValue.Str [] m after))
  = Some (JSValue.Str [] m
            (after
             ++ map (fun t => JSValue.PAtom (JSValue.ANumber (amount t))) l)).
Proof.
  induction l as [|t l IH]; intros after; cbn [fold_left map].
  - now rewrite app_nil_r.
  - cbn [lookupOf].
    change (added (JSObject.Own (JSValue.Str [] m after)) t)
      with (JSValue.Str [] m
              (after ++ [JSValue.PAtom (JSValue.ANumber (amount t))])).
    rewrite IH, <- app_assoc. reflexivity.
Qed.

Lemma fold_added_method k name (l : list Transaction) :
  JSObject.inherited k = Some (JSObject.Method name) ->
  fold_left (fun a t => Some (added (lookupOf k a) t)) l None
  = match l with
    | [] => None
    | _ =>
        Some (JSValue.Str [] (JSObject.Method name)
                (map (fun t => JSValue.PAtom (JSValue.ANumber (amount t))) l))
    end.
Proof.
  intros Hk. destruct l as [|t l]; cbn [fold_left]; [reflexivity|].
  cbn [lookupOf]. rewrite Hk.
  change (added (JSObject.Inherits (JSObject.Method name)) t)
    with (JSValue.Str [] (JSObject.Method name)
            [JSValue.PAtom (JSValue.ANumber (amount t))]).
  now rewrite fold_added_text.
Qed.

(** What a grouping holds, whatever its keys are. *)
Lemma grouping_value (key : Transaction -> string) transactions k :
  amountsNonNegative transactions ->
  JSObject.get k
    (fold_left
       (fun o t =>
          JSObject.assign (key t)
            (JSValue.plus (JSValue.orZero (JSObject.lookup (key t) o))
                          (JSObject.Own (JSValue.Num (amount t))))
            o)
       transactions [])
  = groupValue key k transactions.
Proof.
  intros H.
  etransitivity;
    [exact (ObjectFacts.get_fold_assign key added k transactions []
              ObjectFacts.assignable_nil)|].
  unfold groupValue, withKey, settable. cbn [JSObject.get].
  destruct (JSObject.inherited k) as [[name|]|] eqn:Hk.
  - rewrite (fold_added_method k name _ Hk).
    now destruct (filter _ transactions).
  - now destruct (filter _ transactions).
  - rewrite (fold_added_plain k _ Hk) by now apply amounts_nonneg_filter.
    now destruct (filter _ transactions).
Qed.

Lemma grouping_keys (key : Transaction -> string) transactions :
  JSObject.keys
    (fold_left
       (fun o t =>
          JSObject.assign (key t)
            (JSValue.plus (JSValue.orZero (JSObject.lookup (key t) o))
                          (JSObject.Own (JSValue.Num (amount t))))
            o)
       transactions [])
  = keyOrder (filter settable (map key transactions)).
Proof.
  exact (ObjectFacts.keys_fold_assign key added transactions []
           ObjectFacts.assignable_nil).
Qed.

(** Under a key that names nothing inherited, what is held is a number,
    whatever the amounts are. *)
Lemma fold_added_numbers k :
  JSObject.inherited k = None ->
  forall (l : list Transaction) acc,
    (acc = None \/ exists x, acc = Some (JSValue.Num x)) ->
    let r := fold_left (fun a t => Some (added (lookupOf k a) t)) l acc in
    (l = [] /\ r = acc) \/ exists x, r = Some (JSValue.Num x).
Proof.
  intros Hk. induction l as [|t l IH]; intros acc Hacc; cbn [fold_left].
  - now left.
  - right.
    assert (Hstep : exists x, added (lookupOf k acc) t = JSValue.Num x).
    { destruct Hacc as [->|[x ->]]; cbn [lookupOf].
      - rewrite Hk. now eexists.
      - unfold added, JSValue.orZero. cbn [JSValue.truthy].
        destruct (JSNumber.truthy x); now eexists. }
    destruct Hstep as [x Hx]. rewrite Hx.
    destruct (IH (Some (JSValue.Num x))) as [[-> H]|H];
      [right; now eexists | cbn [fold_left]; now eexists | exact H].
Qed.

Lemma grouping_fold (key : Transaction -> string) transactions k :
  JSObject.get k
    (fold_left
       (fun o t =>
          JSObject.assign (key t)
            (JSValue.plus (JSValue.orZero (JSObject.lookup (key t) o))
                          (JSObject.Own (JSValue.Num (amount t))))
            o)
       transactions [])
  = if settable k
    then fold_left (fun acc t => Some (added (lookupOf k acc) t))
                   (withKey key k transactions) None
    else None.
Proof.
  exact (ObjectFacts.get_fold_assign key added k transactions []
           ObjectFacts.assignable_nil).
Qed.

Lemma grouping_number (key : Transaction -> string) transactions k v :
  JSObject.inherited k = None ->
  JSObject.get k
    (fold_left
       (fun o t =>
          JSObject.assign (key t)
            (JSValue.plus (JSValue.orZero (JSObject.lookup (key t) o))
                          (JSObject.Own (JSValue.Num (amount t))))
            o)
       transactions [])
  = Some v ->
  exists x, v = JSValue.Num x.
Proof.
  intros Hk. rewrite grouping_fold.
  destruct (settable k); [|discriminate].
  destruct (fold_added_numbers k Hk (withKey key k transactions) None)
    as [[_ H]|[x Hx]]; [now left | | ]; cbv zeta in *.
  - rewrite H. discriminate.
  - rewrite Hx. intros [= <-]. now exists x.
Qed.

Lemma grouping_text (key : Transaction -> string) transactions k name v :
  JSObject.inherited k = Some (JSObject.Method name) ->
  JSObject.get k
    (fold_left
       (fun o t =>
          JSObject.assign (key t)
            (JSValue.plus (JSValue.orZero (JSObject.lookup (key t) o))
                          (JSObject.Own (JSValue.Num (amount t))))
            o)
       transactions [])
  = Some v ->
  exists after, v = JSValue.Str [] (JSObject.Method name) after.
Proof.
  intros Hk. rewrite grouping_fold.
  destruct (settable k); [|discriminate].
  rewrite (fold_added_method k name _ Hk).
  destruct (withKey key k transactions); [discriminate|].
  intros [= <-]. now eexists.
Qed.

Lemma groupByMonth_number transactions m v :
  JSObject.inherited m = None ->
  JSObject.get m (groupByMonth transactions) = Some v ->
  exists x, v = JSValue.Num x.
Proof. apply (grouping_number monthOf). Qed.

Lemma groupByMonth_text transactions m name v :
  JSObject.inherited m = Some (JSObject.Method name) ->
  JSObject.get m (groupByMonth transactions) = Some v ->
  exists after, v = JSValue.Str [] (JSObject.Method name) after.
Proof. apply (grouping_text monthOf). Qed.

Lemma groupByCategory_value transactions c :
  amountsNonNegative transactions ->
  JSObject.get c (groupByCategory transactions)
  = groupValue category c transactions.
Proof. apply (grouping_value category). Qed.

Lemma groupByMonth_value transactions m :
  amountsNonNegative transactions ->
  JSObject.get m (groupByMonth transactions)
  = groupValue monthOf m transactions.
Proof. apply (grouping_value monthOf). Qed.

(** Under keys that name nothing inherited, a grouping holds the sums. *)
Lemma groupValue_plain (key : Transaction -> string) transactions k :
  plainKeys key transactions ->
  groupValue key k transactions
  = option_map JSValue.Num (groupSum key k transactions).
Proof.
  intros Hp. unfold groupValue, groupSum.
  destruct (withKey key k transactions) as [|t g] eqn:E; [reflexivity|].
  assert (Ht : In t (withKey key k transactions)) by (rewrite E; now left).
  apply filter_In in Ht. destruct Ht as [Ht Hk].
  apply String.eqb_eq in Hk. subst k.
  unfold plainKeys in Hp. rewrite Forall_forall in Hp.
  now rewrite (Hp t Ht).
Qed.




Lemma groupByCategory_keys transactions :
  JSObject.keys (groupByCategory transactions)
  = keyOrder (filter settable (map category transactions)).
Proof. apply (grouping_keys category). Qed.

Lemma length_substring n : forall s,
  String.length (String.substring 0 n s) <= n.
Proof.
  induction n as [|n IH]; intros [|c s]; simpl; try lia.
  specialize (IH s). lia.
Qed.

(** A month has seven characters at most: it is not [__proto__], and the
    only name of an inherited object it can be is [valueOf]. *)
Lemma month_settable t : settable (monthOf t) = true.
Proof.
  unfold settable.
  destruct (JSObject.inherited (monthOf t)) as [[name|]|] eqn:E;
    try reflexivity.
  exfalso. unfold JSObject.inherited in E.
  destruct (existsb _ JSObject.methods); [discriminate|].
  destruct (String.eqb_spec (monthOf t) "__proto__") as [Hm|_];
    [|discriminate].
  pose proof (length_substring 7 (date t)) as Hlen.
  unfold monthOf in Hm. rewrite Hm in Hlen. cbn in Hlen. lia.
Qed.

Lemma month_plain t :
  JSObject.inherited (monthOf t) = None <-> monthOf t <> "valueOf".
Proof. apply ObjectFacts.inherited_short, length_substring. Qed.

Lemma groupByMonth_keys transactions :
  JSObject.keys (groupByMonth transactions)
  = keyOrder (map monthOf transactions).
Proof.
  unfold groupByMonth.
  rewrite (grouping_keys monthOf). f_equal.
  apply forallb_filter_id. apply forallb_forall.
  intros k Hk. apply in_map_iff in Hk. destruct Hk as (t & <- & _).
  apply month_settable.
Qed.

End Groupings.


Section Reports.

Context {runtime : Runtime}.

(** The report of a non-empty list. *)
Lemma generateReport_cons t l :
  let transactions := t :: l in
  let total :=
    fold_left (fun sum t => (sum + amount t)%float) transactions 0%float in
  generateReport transactions
  = {| totals := {| transactionCount := List.length transactions;
                    totalSpent := total;
                    avgSpendPerTxn :=
                      (total / ofNat (List.length transactions))%float |};
       byCategory := groupByCategory transactions;
       byMonth := groupByMonth transactions;
       topMerchants := rankMerchants (groupByMerchant transactions);
       budget := suggestBudget (groupByCategory transactions);
       forecast := makeForecast (groupByMonth transactions);
       healthScore :=
         makeHealthScore total (groupByCategory transactions)
                         (groupByMonth transactions);
       periodHint :=
         makePeriodHint transactions (groupByMonth transactions) |}.
Proof. reflexivity. Qed.

Lemma byMonth_keys transactions :
  JSObject.keys (byMonth (generateReport transactions))
  = keyOrder (map monthOf transactions).
Proof.
  destruct transactions as [|t l]; [reflexivity|].
  rewrite generateReport_cons. apply groupByMonth_keys.
Qed.

Lemma byCategory_keys transactions :
  JSObject.keys (byCategory (generateReport transactions))
  = keyOrder (filter settable (map category transactions)).
Proof.
  destruct transactions as [|t l]; [reflexivity|].
  rewrite generateReport_cons. apply groupByCategory_keys.
Qed.

Lemma forecast_makeForecast transactions :
  forecast (generateReport transactions)
  = makeForecast (byMonth (generateReport transactions)).
Proof.
  destruct transactions as [|t l]; [reflexivity|].
  now rewrite generateReport_cons.
Qed.

(** Adding up properties that hold numbers. *)
Lemma fold_plus_numbers (o : JSObject.t JSValue.primitive) : forall l acc,
  (forall k, In k l -> exists x, JSObject.get k o = Some (JSValue.Num x)) ->
  fold_left
    (fun sum m => JSValue.plus (JSObject.Own sum) (JSObject.lookup m o))
    l (JSValue.Num acc)
  = JSValue.Num (fold_left (fun sum k => (sum + spendOf o k)%float) l acc).
Proof.
  induction l as [|k l IH]; intros acc Hin; cbn [fold_left]; [reflexivity|].
  destruct (Hin k (or_introl eq_refl)) as [x Hx].
  assert (Hl : JSObject.lookup k o = JSObject.Own (JSValue.Num x))
    by (unfold JSObject.lookup; now rewrite Hx).
  assert (Hs : spendOf o k = x) by (unfold spendOf; now rewrite Hx).
  rewrite Hl, Hs. cbn [JSValue.plus JSValue.toNumber].
  apply IH. intros k' Hk'. apply Hin. now right.
Qed.

(** Once a string, the sum stays a string; and it becomes one at the first
    property that holds a string. *)
Lemma fold_plus_string (o : JSObject.t JSValue.primitive) : forall l b m a,
  exists b' m' a',
    fold_left
      (fun sum k => JSValue.plus (JSObject.Own sum) (JSObject.lookup k o))
      l (JSValue.Str b m a)
    = JSValue.Str b' m' a'.
Proof.
  induction l as [|k l IH]; intros b m a; cbn [fold_left].
  - now eexists _, _, _.
  - cbn [JSValue.plus]. apply IH.
Qed.

Lemma fold_plus_text (o : JSObject.t JSValue.primitive) : forall l acc,
  (exists k b m a,
     In k l /\ JSObject.get k o = Some (JSValue.Str b m a)) ->
  exists b' m' a',
    fold_left
      (fun sum k => JSValue.plus (JSObject.Own sum) (JSObject.lookup k o))
      l acc
    = JSValue.Str b' m' a'.
Proof.
  induction l as [|k l IH]; intros acc (k0 & b & m & a & Hin & Hget);
    [destruct Hin|].
  cbn [fold_left].
  destruct acc as [x|b1 m1 a1]; [|cbn [JSValue.plus]; apply fold_plus_string].
  destruct Hin as [->|Hin].
  - assert (Hl : JSObject.lookup k0 o = JSObject.Own (JSValue.Str b m a))
      by (unfold JSObject.lookup; now rewrite Hget).
    rewrite Hl. cbn [JSValue.plus]. apply fold_plus_string.
  - apply IH. now exists k0, b, m, a.
Qed.

Lemma div_nan x : (nan / x)%float = nan.
Proof.
  apply Prim2SF_inj. rewrite div_spec.
  change (Prim2SF nan) with S754_nan. reflexivity.
Qed.

End Reports.

Lemma ltb_trichotomy a : forall b,
  JSString.ltb a b = false -> JSString.ltb b a = false -> a = b.
Proof.
  induction a as [|x a IH]; intros b Hab Hba.
  - now destruct b.
  - destruct b as [|y b]; [discriminate|]. simpl in *.
    destruct (nat_of_ascii x <? nat_of_ascii y) eqn:Exy; [discriminate|].
    destruct (nat_of_ascii y <? nat_of_ascii x) eqn:Eyx; [discriminate|].
    apply Nat.ltb_ge in Exy, Eyx.
    assert (Hxy : nat_of_ascii x = nat_of_ascii y) by lia.
    rewrite <- (ascii_nat_embedding x), <- (ascii_nat_embedding y), Hxy.
    f_equal. now apply IH.
Qed.

(** A sorted list of distinct strings is strictly ascending. *)
Lemma strictly_ascending l :
  NoDup l ->
  StronglySorted (fun a b => JSString.leb a b = true) l ->
  StronglySorted (fun a b => JSString.ltb a b = true) l.
Proof.
  induction l as [|x l IH]; intros Hnd Hs; [constructor|].
  inversion Hnd as [|? ? Hx Hnd']; subst.
  inversion Hs as [|? ? Hs' Hall]; subst.
  constructor; [now apply IH|].
  rewrite Forall_forall in *. intros y Hy.
  specialize (Hall y Hy). unfold JSString.leb in Hall.
  apply negb_true_iff in Hall.
  destruct (JSString.ltb x y) eqn:E; [reflexivity|].
  exfalso. apply Hx. now rewrite (ltb_trichotomy x y E Hall).
Qed.

End ReportFacts.

(** ** Whole numbers: additions that are exact *)

Module WholeFacts.

Import IEEE.
Local Open Scope Z_scope.














End WholeFacts.

(** ** Sums of whole-number amounts *)

Module WholeSumFacts.

Local Open Scope Z_scope.








Section Grouping.

Variable units : Transaction -> Z.
Hypothesis units_nonneg : forall t, 0 <= units t.









End Grouping.

End WholeSumFacts.




(** C5.  A date cell that begins with [valueOf] gives the month
    [valueOf], which is the name of a function every plain object
    inherits.  Line 214 reads this function where it expects the sum so
    far, and stores a string; the average over the months is then NaN, where
    the rounded average of what was spent in the two months, 7 and 5,
    is 6. *)
Lemma forecast_of_an_inherited_month :
  let content :=
    ("Date,Merchant,Amount" ++ LF ++ "2024-01-05,Cafe,7" ++ LF
     ++ "valueOf,Cafe,5")%string in
  let transactions :=
    [ {| date := "2024-01-05"; merchant := "Cafe"; amount := 7;
         category := "Dining"; description := Some "Cafe" |};
      {| date := "valueOf"; merchant := "Cafe"; amount := 5;
         category := "Dining"; description := Some "Cafe" |} ] in
  parseCSV (fun _ => "2026-11-01T09:30:00.000Z") content = Returns transactions
  /\ (forall runtime : Runtime,
        let report := generateReport transactions in
        byMonth report
        = [ ("2024-01", JSValue.Num 7);
            ("valueOf",
             JSValue.Str [] (JSObject.Method "valueOf")
                         [JSValue.PAtom (JSValue.ANumber 5)]) ]
        /\ forecast report
           = Some {| nextMonthSpend := nan;
                     confidence := "Medium";
                     method := "Average of last 3 months" |})
  /\ Math_round ((7 + 5) / 2) = 6%float.
Proof.
  split; [reflexivity|]. split; [|reflexivity].
  intros [[|]]; split; reflexivity.
Qed.

(** C6.  On a non-empty list (of non-negative amounts) the score is 75,
    less 15 when the monthly average, [totalSpent] over the number of
    distinct months, exceeds 3000, less a further 10 when it exceeds 5000,
    less 10 when the Dining spend exceeds 30% of [totalSpent], clamped to
    [0, 100]; the summary is the one the thresholds 80 and 60 give for
    the clamped score. *)
Theorem health_score_formula :
  forall (runtime : Runtime) (transactions : list Transaction),
    transactions <> [] ->
    amountsNonNegative transactions ->
    let report := generateReport transactions in
    let total := totalSpent (totals report) in
    let monthlyAverage :=
      (total / ofNat (List.length (JSObject.keys (byMonth report))))%float in
    let diningSpend := spendOf (byCategory report) "Dining" in
    let raw :=
      (75 - (if (3000 <? monthlyAverage) then 15 else 0)
          - (if (5000 <? monthlyAverage) then 10 else 0)
          - (if (total * 0.3 <? diningSpend) then 10 else 0))%float in
    let s := score (healthScore report) in
    s = Math_max 0 (Math_min 100 raw)
    /\ (0 <=? s)%float = true
    /\ (s <=? 100)%float = true
    /\ summary (healthScore report)
       = if (80 <=? s)%float then "Excellent financial health!"
         else if (60 <=? s)%float then "Good, with room for improvement"
         else "Consider reducing spending".
Proof.
  intros runtime transactions Hne Hnn.
  destruct transactions as [|t0 l]; [congruence|].
  rewrite ReportFacts.generateReport_cons. cbv zeta.
  set (transactions := t0 :: l) in *.
  cbn [totals totalSpent byMonth byCategory healthScore].
  set (total := fold_left (fun sum t => (sum + amount t)%float) transactions 0%float).
  assert (Htotal : IEEE.nonneg (total * 0.3)%float = true).
  { eapply IEEEFacts.mul_nonneg; [vm_compute; reflexivity|].
    apply IEEEFacts.pos0_nonneg. unfold total.
    rewrite ReportFacts.fold_left_amount.
    apply ReportFacts.fold_add_pos0;
      [now apply ReportFacts.amounts_nonneg | apply IEEEFacts.pos0_zero]. }
  unfold makeHealthScore, spendOf. cbv zeta.
  set (avg := (total / ofNat (List.length (JSObject.keys (groupByMonth transactions))))%float).
  set (spent := match JSObject.get "Dining" (groupByCategory transactions) with
                | Some (JSValue.Num d) => d
                | _ => 0%float
                end).
  assert (Hzero : (total * 0.3 <? 0)%float = false).
  { rewrite IEEEFacts.ltb_rank by (assumption || reflexivity).
    apply Z.ltb_ge. change (IEEE.rank 0) with 0%Z.
    unfold IEEE.rank, IEEE.sf_rank.
    destruct (Prim2SF (total * 0.3));
      first [ lia | apply Z.mul_nonneg_nonneg; [lia | apply Z.pow_nonneg; lia] ]. }
  assert (Hnan : (total * 0.3 <? nan)%float = false).
  { rewrite ltb_spec. destruct (Prim2SF (total * 0.3)%float); reflexivity. }
  assert (Hdining :
    JSValue.truthy (JSObject.lookup "Dining" (groupByCategory transactions))
    && (total * 0.3
        <? JSValue.toNumber
             (JSObject.lookup "Dining" (groupByCategory transactions)))%float
    = (total * 0.3 <? spent)%float).
  { rewrite (ObjectFacts.lookup_plain "Dining") by reflexivity.
    unfold spent. destruct (JSObject.get "Dining" (groupByCategory transactions))
      as [[d|before object after]|]; cbn [JSValue.truthy JSValue.toNumber].
    - destruct (total * 0.3 <? d)%float eqn:E; [|apply andb_false_r].
      unfold JSNumber.truthy.
      now rewrite (IEEEFacts.lt_truthy _ _ Htotal E).
    - now rewrite Hnan, Hzero.
    - now rewrite Hzero. }
  rewrite Hdining. cbn [score summary].
  destruct (3000 <? avg)%float, (5000 <? avg)%float,
    (total * 0.3 <? spent)%float; repeat split; reflexivity.
Qed.

(** C6 at two transactions in one month, 7000 in all, 4000 of it on
    Dining: all three penalties apply and the score is 40. *)
Lemma health_score_witness :
  let transactions :=
    [ {| date := "2024-03-01"; merchant := "Landlord"; amount := 3000;
         category := "Other"; description := None |};
      {| date := "2024-03-15"; merchant := "Bistro"; amount := 4000;
         category := "Dining"; description := None |} ] in
  transactions <> []
  /\ amountsNonNegative transactions
  /\ score (healthScore (generateReport (runtime := Deno) transactions))
     = 40%float
  /\ summary (healthScore (generateReport (runtime := Deno) transactions))
     = "Consider reducing spending".
Proof.
  intros transactions.
  assert (Hne : transactions <> []) by discriminate.
  assert (Hnn : amountsNonNegative transactions) by (repeat constructor).
  pose proof (health_score_formula Deno transactions Hne Hnn) as H.
  cbv zeta in H. destruct H as (Hs & _ & _ & Hsum).
  split; [exact Hne|]. split; [exact Hnn|]. split.
  - rewrite Hs. reflexivity.
  - rewrite Hsum. reflexivity.
Defined.

(** ** The merchants *)

Module MerchantFacts.

Import IEEE.

Section Merchants.

Context {runtime : Runtime}.

(** What the callback does to an object that has no property named as an
    inherited object. *)
Lemma countMerchant_spec o t :
  (forall k, isInherited k = true -> JSObject.get k o = None) ->
  countMerchant o t
  = if isInherited (merchant t) then o
    else JSObject.set (merchant t)
                      (addToMerchant (JSObject.get (merchant t) o) t) o.
Proof.
  intros Ho. unfold countMerchant, JSObject.lookup, isInherited.
  destruct (JSObject.inherited (merchant t)) as [m|] eqn:Em.
  - assert (Hget : JSObject.get (merchant t) o = None)
      by (apply Ho; unfold isInherited; now rewrite Em).
    rewrite Hget. cbv zeta. now rewrite Hget.
  - destruct (JSObject.get (merchant t) o) as [d|] eqn:E; cbv zeta.
    + rewrite E. unfold JSObject.set. now rewrite E.
    + rewrite ObjectFacts.get_set, String.eqb_refl.
      now rewrite ObjectFacts.overwrite_set.
Qed.

(** The merchants whose name is that of an inherited object leave no trace
    in the merchant map; the others are grouped. *)
Lemma groupByMerchant_fold transactions :
  groupByMerchant transactions
  = fold_left
      (fun o t =>
         JSObject.set (merchant t)
                      (addToMerchant (JSObject.get (merchant t) o) t) o)
      (filter (fun t => negb (isInherited (merchant t))) transactions) [].
Proof.
  unfold groupByMerchant.
  assert (Hnil : forall k, isInherited k = true
                           -> JSObject.get k (@nil (string * MerchantData)) = None)
    by reflexivity.
  revert Hnil. generalize (@nil (string * MerchantData)).
  induction transactions as [|t l IH]; intros o Ho; cbn [fold_left filter];
    [reflexivity|].
  rewrite (countMerchant_spec o t Ho).
  destruct (isInherited (merchant t)) eqn:Em; cbn [negb fold_left].
  - now apply IH.
  - apply IH. intros k Hk. rewrite ObjectFacts.get_set.
    destruct (String.eqb_spec k (merchant t)) as [->|_]; [|now apply Ho].
    congruence.
Qed.

Lemma filter_plain (key : Transaction -> string) transactions :
  plainKeys key transactions ->
  filter (fun t => negb (isInherited (key t))) transactions = transactions.
Proof.
  intros Hp. apply forallb_filter_id. apply forallb_forall. intros t Ht.
  unfold plainKeys in Hp. rewrite Forall_forall in Hp.
  unfold isInherited. now rewrite (Hp t Ht).
Qed.

Lemma withKey_filter m transactions :
  withKey merchant m
    (filter (fun t => negb (isInherited (merchant t))) transactions)
  = if isInherited m then [] else withKey merchant m transactions.
Proof.
  unfold withKey. induction transactions as [|t l IH]; cbn [filter].
  - now destruct (isInherited m).
  - destruct (String.eqb_spec (merchant t) m) as [<-|Hne].
    + destruct (isInherited (merchant t)) eqn:E; cbn [negb filter].
      * exact IH.
      * rewrite String.eqb_refl. now rewrite IH.
    + destruct (isInherited (merchant t)); cbn [negb filter].
      * exact IH.
      * apply String.eqb_neq in Hne. rewrite Hne. exact IH.
Qed.

Lemma fold_addToMerchant : forall (l : list Transaction) d,
  fold_left (fun acc t => Some (addToMerchant acc t)) l (Some d)
  = Some {| spent := fold_left (fun sum x => (sum + x)%float)
                               (map amount l) (spent d);
            count := count d + List.length l |}.
Proof.
  induction l as [|t l IH]; intros d; simpl.
  - rewrite Nat.add_0_r. now destruct d.
  - rewrite IH. simpl. do 2 f_equal. lia.
Qed.

(** What the merchant map holds for a merchant. *)
Lemma groupByMerchant_get transactions m :
  JSObject.get m (groupByMerchant transactions)
  = if isInherited m then None
    else match withKey merchant m transactions with
         | [] => None
         | g => Some {| spent := fsum (map amount g);
                        count := List.length g |}
         end.
Proof.
  rewrite groupByMerchant_fold.
  rewrite (ObjectFacts.get_fold_set merchant addToMerchant).
  fold (withKey merchant m
          (filter (fun t => negb (isInherited (merchant t))) transactions)).
  rewrite withKey_filter. cbn [JSObject.get].
  destruct (isInherited m); [reflexivity|].
  destruct (withKey merchant m transactions) as [|t g]; [reflexivity|].
  cbn [fold_left]. rewrite fold_addToMerchant. reflexivity.
Qed.

Lemma groupByMerchant_keys transactions :
  JSObject.keys (groupByMerchant transactions)
  = keyOrder
      (map merchant
           (filter (fun t => negb (isInherited (merchant t))) transactions)).
Proof.
  rewrite groupByMerchant_fold.
  now rewrite (ObjectFacts.keys_fold_set merchant addToMerchant).
Qed.

End Merchants.

Lemma In_entry_get {V : Type} (o : JSObject.t V) k v :
  NoDup (JSObject.keys o) -> In (k, v) o -> JSObject.get k o = Some v.
Proof.
  induction o as [|[k0 v0] o IH]; simpl; intros Hnd Hin; [contradiction|].
  inversion Hnd as [|? ? Hk0 Hnd']; subst.
  destruct Hin as [Heq|Hin].
  - injection Heq as -> ->. now rewrite String.eqb_refl.
  - destruct (String.eqb k k0) eqn:E.
    + apply String.eqb_eq in E. subst k0. exfalso. apply Hk0.
      change k with (fst (k, v)). now apply in_map.
    + now apply IH.
Qed.

Lemma Sorted_impl_In {A : Type} (R R' : A -> A -> Prop) l :
  (forall x y, In x l -> In y l -> R x y -> R' x y) ->
  Sorted R l -> Sorted R' l.
Proof.
  induction l as [|x l IH]; intros Himp Hs; [constructor|].
  apply Sorted_inv in Hs. destruct Hs as [Hs Hhd].
  constructor.
  - apply IH; [|assumption]. intros a b Ha Hb. apply Himp; now right.
  - destruct l as [|y l]; constructor.
    apply HdRel_inv in Hhd. apply Himp; simpl; auto.
Qed.

Lemma StronglySorted_impl_In {A : Type} (R R' : A -> A -> Prop) l :
  (forall x y, In x l -> In y l -> R x y -> R' x y) ->
  StronglySorted R l -> StronglySorted R' l.
Proof.
  induction l as [|x l IH]; intros Himp Hs; [constructor|].
  inversion Hs as [|? ? Hs' Hall]; subst.
  constructor.
  - apply IH; [|assumption]. intros a b Ha Hb. apply Himp; now right.
  - rewrite Forall_forall in *. intros y Hy.
    apply Himp; simpl; auto.
Qed.

(** On non-negative numbers the comparator [(a, b) => b.spent - a.spent]
    keeps [a] before [b] exactly when [b.spent <= a.spent]. *)
Lemma comparator_rank a b :
  nonneg (Top.spent a) = true -> nonneg (Top.spent b) = true ->
  negb (0 <? Top.spent b - Top.spent a)%float
  = (rank (Top.spent b) <=? rank (Top.spent a))%Z.
Proof.
  intros Ha Hb. rewrite IEEEFacts.sub_pos_rank by assumption.
  rewrite Z.leb_antisym. reflexivity.
Qed.

End MerchantFacts.
(** C8 (counterexample).  Two merchants with the same spent: the one the
    input names first comes second in [topMerchants], because the name of
    the other is an array index and the keys of an object that are array
    indices are enumerated first. *)
Lemma tie_not_in_first_seen_order :
  let content :=
    ("Date,Merchant,Amount" ++ LF ++ "2024-01-05,Bakery,5" ++ LF
     ++ "2024-01-06,365,5")%string in
  let transactions :=
    [ {| date := "2024-01-05"; merchant := "Bakery"; amount := 5;
         category := "Other"; description := Some "Bakery" |};
      {| date := "2024-01-06"; merchant := "365"; amount := 5;
         category := "Other"; description := Some "365" |} ] in
  parseCSV (fun _ => "2026-11-01T09:30:00.000Z") content = Returns transactions
  /\ map merchant transactions = ["Bakery"; "365"]
  /\ topMerchants (generateReport (runtime := Deno) transactions)
     = [ {| Top.merchant := "365"; Top.spent := 5; Top.count := 1 |};
         {| Top.merchant := "Bakery"; Top.spent := 5; Top.count := 1 |} ].
Proof. repeat split; vm_compute; reflexivity. Qed.

(** C8 (amended).  On a list whose merchants name no member of
    [Object.prototype], [topMerchants] holds the first ten of the
    merchants' groups, ranked.  There is one group for each merchant, with the
    floating-point sum of the amounts of its transactions as [spent] and
    their number as [count].  The ranking is by non-increasing [spent] and
    stable: groups with equal [spent] keep the order in which the merchant
    map enumerates them, which is the merchants whose name is an array
    index first, in ascending numeric order, and then the other merchants
    in the order in which the input first names them. *)
Theorem top_merchants_ranked :
  forall (runtime : Runtime) (transactions : list Transaction),
    amountsNonNegative transactions ->
    plainKeys merchant transactions ->
    let report := generateReport transactions in
    exists groups ranked : list Top.Merchant,
      map Top.merchant groups = keyOrder (map merchant transactions)
      /\ (forall g,
            In g groups ->
            let own := withKey merchant (Top.merchant g) transactions in
            Top.spent g = fsum (map amount own)
            /\ Top.count g = List.length own)
      /\ Permutation ranked groups
      /\ StronglySorted
           (fun a b => (Top.spent b <=? Top.spent a)%float = true) ranked
      /\ (forall g,
            In g groups ->
            filter (fun h => (Top.spent h =? Top.spent g)%float) ranked
            = filter (fun h => (Top.spent h =? Top.spent g)%float) groups)
      /\ topMerchants report = firstn 10 ranked
      /\ List.length (topMerchants report) <= 10
      /\ exists indices : list string,
           keyOrder (map merchant transactions)
           = indices
             ++ firstOccurrences
                  (filter (fun k => negb (isArrayIndex k))
                          (map merchant transactions))
           /\ Forall (fun k => isArrayIndex k = true) indices
           /\ Sorted (fun a b => (indexValue a <= indexValue b)%N) indices.
Proof.
  intros runtime transactions Hnn Hplain report.
  set (merchantMap := groupByMerchant transactions).
  assert (Hmk : JSObject.keys merchantMap = keyOrder (map merchant transactions)).
  { unfold merchantMap. rewrite MerchantFacts.groupByMerchant_keys.
    now rewrite MerchantFacts.filter_plain. }
  set (groups := map toTopMerchant (JSObject.entries merchantMap)).
  set (cmp := fun a b : Top.Merchant => (Top.spent b - Top.spent a)%float).
  set (ranked := JSArray.sortBy cmp groups).
  assert (Hkeys : map Top.merchant groups = keyOrder (map merchant transactions)).
  { unfold groups. rewrite <- Hmk.
    unfold JSObject.keys, JSObject.entries.
    rewrite map_map. apply map_ext. now intros [k d]. }
  assert (Hgroup : forall g, In g groups ->
            Top.spent g
            = fsum (map amount (withKey merchant (Top.merchant g) transactions))
            /\ Top.count g
               = List.length (withKey merchant (Top.merchant g) transactions)).
  { intros g Hg. unfold groups in Hg. apply in_map_iff in Hg.
    destruct Hg as ([k d] & <- & Hin). simpl.
    unfold JSObject.entries in Hin.
    apply MerchantFacts.In_entry_get in Hin.
    - unfold merchantMap in Hin.
      rewrite MerchantFacts.groupByMerchant_get in Hin.
      destruct (isInherited k); [discriminate|].
      destruct (withKey merchant k transactions) as [|t g'];
        [discriminate|].
      injection Hin as <-. split; reflexivity.
    - rewrite Hmk. apply ObjectFacts.keyOrder_NoDup. }
  assert (Hnonneg : forall g, In g groups -> IEEE.nonneg (Top.spent g) = true).
  { intros g Hg. destruct (Hgroup g Hg) as [-> _].
    apply IEEEFacts.pos0_nonneg, ReportFacts.fsum_pos0.
    apply ReportFacts.amounts_nonneg.
    now apply ReportFacts.amounts_nonneg_filter. }
  assert (Hperm : Permutation ranked groups) by apply SortFacts.sort_perm.
  assert (Hin : forall g, In g ranked -> In g groups)
    by (intros g; apply Permutation_in; exact Hperm).
  assert (Htop : topMerchants report = firstn 10 ranked).
  { unfold report. destruct transactions as [|t l]; [reflexivity|].
    now rewrite ReportFacts.generateReport_cons. }
  exists groups, ranked.
  split; [exact Hkeys|]. split; [exact Hgroup|]. split; [exact Hperm|].
  split; [|split; [|split; [exact Htop|split]]].
  - apply MerchantFacts.StronglySorted_impl_In
      with (R := fun a b => (IEEE.rank (Top.spent b) <= IEEE.rank (Top.spent a))%Z).
    + intros x y Hx Hy Hle.
      rewrite IEEEFacts.leb_rank by auto. now apply Z.leb_le.
    + apply Sorted_StronglySorted; [intros a b c; lia|].
      apply MerchantFacts.Sorted_impl_In
        with (R := fun a b => negb (0 <? cmp a b)%float = true).
      * intros x y Hx Hy Hle. unfold cmp in Hle.
        rewrite MerchantFacts.comparator_rank in Hle by auto.
        now apply Z.leb_le.
      * apply SortFacts.sort_sorted. intros x y Hx Hy. unfold cmp.
        rewrite !MerchantFacts.comparator_rank by auto.
        intros H. apply Z.leb_gt in H. apply Z.leb_le. lia.
  - intros g Hg. apply SortFacts.sort_stable.
    intros x y Hx Hy Px Py. unfold cmp.
    rewrite MerchantFacts.comparator_rank by auto.
    rewrite IEEEFacts.eqb_rank in Px, Py by auto.
    apply Z.eqb_eq in Px, Py. apply Z.leb_le. lia.
  - rewrite Htop. apply firstn_le_length.
  - apply ObjectFacts.keyOrder_structure.
Qed.

(** The amended C8 at the two merchants of its counterexample. *)
Lemma top_merchants_witness :
  let transactions :=
    [ {| date := "2024-01-05"; merchant := "Bakery"; amount := 5;
         category := "Dining"; description := None |};
      {| date := "2024-01-06"; merchant := "365"; amount := 5;
         category := "Groceries"; description := None |} ] in
  amountsNonNegative transactions
  /\ plainKeys (runtime := Deno) merchant transactions
  /\ exists groups ranked : list Top.Merchant,
       map Top.merchant groups = ["365"; "Bakery"]
       /\ Permutation ranked groups
       /\ topMerchants (generateReport (runtime := Deno) transactions)
          = firstn 10 ranked.
Proof.
  intros transactions.
  assert (Hnn : amountsNonNegative transactions) by (repeat constructor).
  assert (Hp : plainKeys (runtime := Deno) merchant transactions)
    by (repeat constructor).
  split; [exact Hnn|]. split; [exact Hp|].
  destruct (top_merchants_ranked Deno transactions Hnn Hp)
    as (groups & ranked & Hk & _ & Hperm & _ & _ & Ht & _).
  exists groups, ranked. split; [exact Hk|]. split; [exact Hperm | exact Ht].
Defined.

(** ** The store *)

Module StoreFacts.

Lemma frame_refl s : Store.frame s s.
Proof. split; auto. Qed.

Lemma frame_trans s1 s2 s3 : Store.frame s1 s2 -> Store.frame s2 s3 -> Store.frame s1 s3.
Proof.
  intros [L1 H1] [L2 H2]. split; [lia|].
  intros l Hl. rewrite H2 by lia. now apply H1.
Qed.

Lemma frame_extends s s' : Store.frame s s' -> Store.extends s s'.
Proof.
  intros [_ H] l c Hc. rewrite H; [assumption|].
  apply nth_error_Some. congruence.
Qed.

Lemma frame_alloc c s : Store.frame s (snd (Store.alloc c s)).
Proof.
  unfold Store.alloc. simpl. split.
  - rewrite length_app. simpl. lia.
  - intros l Hl. now apply nth_error_app1.
Qed.

Lemma length_replace l c : forall s,
  List.length (Store.replace l c s) = List.length s.
Proof.
  induction l as [|l IH]; intros [|c0 s]; simpl; auto.
Qed.

Lemma nth_error_replace_other l c l' : forall s,
  l' <> l -> nth_error (Store.replace l c s) l' = nth_error s l'.
Proof.
  revert l'. induction l as [|l IH]; intros l' [|c0 s] Hne; simpl; auto.
  - destruct l'; [congruence | reflexivity].
  - destruct l'; [reflexivity|]. simpl. apply IH. congruence.
Qed.

Lemma nth_error_replace_same l c : forall s,
  l < List.length s -> nth_error (Store.replace l c s) l = Some c.
Proof.
  induction l as [|l IH]; intros [|c0 s] Hl; simpl in *; try lia; auto.
  apply IH. lia.
Qed.

Lemma length_update l f s : List.length (Store.update l f s) = List.length s.
Proof.
  unfold Store.update. destruct (nth_error s l); [apply length_replace | reflexivity].
Qed.

Lemma nth_error_update_other l f s l' :
  l' <> l -> nth_error (Store.update l f s) l' = nth_error s l'.
Proof.
  intros Hne. unfold Store.update. destruct (nth_error s l); [|reflexivity].
  now apply nth_error_replace_other.
Qed.

Lemma nth_error_update_same l f s :
  nth_error (Store.update l f s) l = option_map f (nth_error s l).
Proof.
  unfold Store.update. destruct (nth_error s l) as [c|] eqn:E; simpl.
  - apply nth_error_replace_same. apply nth_error_Some. congruence.
  - exact E.
Qed.

(** A write to a cell that [s0] does not have keeps the cells of [s0]. *)
Lemma frame_update s0 s l f :
  Store.frame s0 s -> List.length s0 <= l -> Store.frame s0 (Store.update l f s).
Proof.
  intros [L H] Hl. split; [now rewrite length_update|].
  intros l' Hl'. rewrite nth_error_update_other by lia. now apply H.
Qed.

Lemma frame_forEachFrom s0 arr body :
  (forall t s, Store.frame s0 s -> Store.frame s0 (body t s)) ->
  forall n k s, Store.frame s0 s -> Store.frame s0 (Store.forEachFrom arr body k n s).
Proof.
  intros Hbody. induction n as [|n IH]; intros k s Hs; simpl.
  - assumption.
  - destruct (Store.element s arr k); apply IH; auto.
Qed.

Lemma frame_forEach s0 arr body s :
  (forall t s, Store.frame s0 s -> Store.frame s0 (body t s)) ->
  Store.frame s0 s -> Store.frame s0 (Store.forEach arr body s).
Proof. intros. now apply frame_forEachFrom. Qed.

Lemma frame_length s s' : Store.frame s s' -> List.length s <= List.length s'.
Proof. now intros [L _]. Qed.

Section OnStore.

Context {runtime : Runtime}.

(** Each step of [generateReport] keeps the cells it finds. *)
Lemma frame_groupByCategory arr s :
  Store.frame s (snd (Store.groupByCategory arr s)).
Proof.
  unfold Store.groupByCategory, Store.alloc. simpl.
  apply frame_forEach; [|apply (frame_alloc _ s)].
  intros t s' Hs'. apply frame_update; auto.
Qed.

Lemma frame_groupByMonth arr s : Store.frame s (snd (Store.groupByMonth arr s)).
Proof.
  unfold Store.groupByMonth, Store.alloc. simpl.
  apply frame_forEach; [|apply (frame_alloc _ s)].
  intros t s' Hs'. apply frame_update; auto.
Qed.

Lemma frame_groupByMerchant arr s :
  Store.frame s (snd (Store.groupByMerchant arr s)).
Proof.
  unfold Store.groupByMerchant, Store.alloc. simpl.
  apply frame_forEach; [|apply (frame_alloc _ s)].
  intros t s' Hs'.
  set (s'' := match JSObject.lookup (merchant t)
                      (Store.merchantsAt s' (List.length s)) with
              | JSObject.Missing => _
              | _ => s'
              end).
  assert (Hs'' : Store.frame s s'').
  { unfold s''. destruct (JSObject.lookup _ _); try assumption.
    apply frame_update; auto. }
  destruct (JSObject.lookup (merchant t)
              (Store.merchantsAt s'' (List.length s)));
    [apply frame_update; auto | assumption | assumption].
Qed.

Lemma frame_rankMerchants merchantMap s :
  Store.frame s (snd (Store.rankMerchants merchantMap s)).
Proof.
  unfold Store.rankMerchants, Store.alloc. simpl.
  eapply frame_trans; [|apply (frame_alloc _ _)].
  apply frame_update; [apply (frame_alloc _ s) | auto].
Qed.

Lemma frame_fold_update {X : Type} s0 l (f : X -> Store.cell -> Store.cell) :
  List.length s0 <= l ->
  forall xs s, Store.frame s0 s ->
  Store.frame s0 (fold_left (fun s x => Store.update l (f x) s) xs s).
Proof.
  intros Hl. induction xs as [|x xs IH]; intros s Hs; simpl; auto.
  apply IH. now apply frame_update.
Qed.

Lemma frame_suggestBudget byCategory s :
  Store.frame s (snd (Store.suggestBudget byCategory s)).
Proof.
  unfold Store.suggestBudget, Store.alloc. simpl.
  set (s1 := s ++ [Store.CNumbers []]).
  assert (H1 : Store.frame s s1) by apply (frame_alloc _ s).
  generalize (JSObject.entries (Store.primitivesAt s1 byCategory)). intros xs.
  revert H1. generalize s1. clear s1.
  induction xs as [|[cat sp] xs IH]; intros s1 H1; simpl; auto.
  apply IH. apply frame_update; auto.
Qed.

Lemma frame_makeForecast byMonth s :
  Store.frame s (snd (Store.makeForecast byMonth s)).
Proof.
  unfold Store.makeForecast.
  pose proof (frame_alloc (Store.CStrings (JSObject.keys (Store.primitivesAt s byMonth))) s)
    as H1.
  destruct (Store.alloc (Store.CStrings (JSObject.keys (Store.primitivesAt s byMonth))) s)
    as [months s1] eqn:E1.
  assert (Hm : months = List.length s) by (unfold Store.alloc in E1; congruence).
  cbn [snd] in H1.
  set (s2 := Store.update months (Store.onStrings JSArray.sortStrings) s1).
  assert (H2 : Store.frame s s2) by (apply frame_update; [assumption | lia]).
  destruct (2 <=? List.length (Store.stringsAt s2 months)).
  - pose proof (frame_alloc
                  (Store.CStrings (JSArray.sliceLast 3 (Store.stringsAt s2 months))) s2)
      as H3.
    destruct (Store.alloc (Store.CStrings (JSArray.sliceLast 3 (Store.stringsAt s2 months))) s2)
      as [recent s3].
    cbn [snd] in *. now apply frame_trans with s2.
  - exact H2.
Qed.

Lemma frame_makePeriodHint arr byMonth s :
  Store.frame s (snd (Store.makePeriodHint arr byMonth s)).
Proof.
  unfold Store.makePeriodHint, Store.alloc. simpl.
  apply frame_update; [apply (frame_alloc _ s) | auto].
Qed.

(** [generateReport] keeps every cell of the store it is given. *)
Lemma frame_generateReport arr s :
  Store.frame s (snd (Store.generateReport arr s)).
Proof.
  unfold Store.generateReport.
  destruct (List.length (Store.transactionsAt s arr) =? 0); [apply frame_refl|].
  pose proof (frame_groupByCategory arr s) as H1.
  destruct (Store.groupByCategory arr s) as [byCategory s1]. simpl in H1.
  pose proof (frame_groupByMonth arr s1) as H2.
  destruct (Store.groupByMonth arr s1) as [byMonth s2]. simpl in H2.
  pose proof (frame_groupByMerchant arr s2) as H3.
  destruct (Store.groupByMerchant arr s2) as [merchantMap s3]. simpl in H3.
  pose proof (frame_rankMerchants merchantMap s3) as H4.
  destruct (Store.rankMerchants merchantMap s3) as [top s4]. simpl in H4.
  pose proof (frame_suggestBudget byCategory s4) as H5.
  destruct (Store.suggestBudget byCategory s4) as [budget s5]. simpl in H5.
  pose proof (frame_makeForecast byMonth s5) as H6.
  destruct (Store.makeForecast byMonth s5) as [fc s6]. simpl in H6.
  pose proof (frame_makePeriodHint arr byMonth s6) as H7.
  destruct (Store.makePeriodHint arr byMonth s6) as [ph s7]. simpl in H7.
  simpl.
  repeat (eapply frame_trans; [eassumption|]). apply frame_refl.
Qed.

Lemma length_forEachFrom arr body :
  (forall t s, List.length (body t s) = List.length s) ->
  forall n k s, List.length (Store.forEachFrom arr body k n s) = List.length s.
Proof.
  intros Hbody. induction n as [|n IH]; intros k s; simpl; [reflexivity|].
  destruct (Store.element s arr k); rewrite IH; auto.
Qed.

Lemma length_forEach arr body s :
  (forall t s, List.length (body t s) = List.length s) ->
  List.length (Store.forEach arr body s) = List.length s.
Proof. intros. now apply length_forEachFrom. Qed.

(** *** The report computed on the store is the report of the list *)

Lemma holds_frame s0 s arr transactions :
  Store.holds s0 arr transactions -> Store.frame s0 s -> Store.holds s arr transactions.
Proof.
  intros (refs & Harr & Hrefs) Hf. apply frame_extends in Hf.
  exists refs. split; [now apply Hf|].
  revert Hrefs. apply Forall2_impl. intros r t. apply Hf.
Qed.

Lemma element_holds s arr transactions k :
  Store.holds s arr transactions -> Store.element s arr k = nth_error transactions k.
Proof.
  intros (refs & Harr & Hrefs). unfold Store.element, Store.transactionsAt.
  rewrite Harr. clear Harr. revert k.
  induction Hrefs as [|r t refs l Hr Hrest IH]; intros k.
  - now destruct k.
  - destruct k; simpl; [now rewrite Hr | apply IH].
Qed.

Lemma length_holds s arr transactions :
  Store.holds s arr transactions ->
  List.length (Store.transactionsAt s arr) = List.length transactions.
Proof.
  intros (refs & Harr & Hrefs). unfold Store.transactionsAt. rewrite Harr.
  now apply Forall2_length in Hrefs.
Qed.

Lemma elementsFrom_holds s arr transactions :
  Store.holds s arr transactions ->
  forall n k, k + n = List.length transactions ->
  Store.elementsFrom s arr k n = skipn k transactions.
Proof.
  intros H. induction n as [|n IH]; intros k Hk; simpl.
  - symmetry. apply skipn_all2. lia.
  - rewrite (element_holds _ _ _ _ H).
    destruct (nth_error transactions k) as [t|] eqn:E.
    + rewrite IH by lia.
      clear -E. revert k E.
      induction transactions as [|x l IHl]; intros [|k] E;
        simpl in *; try discriminate.
      * now injection E as ->.
      * now apply IHl.
    + apply nth_error_None in E. lia.
Qed.

Lemma elements_holds s arr transactions :
  Store.holds s arr transactions -> Store.elements s arr = transactions.
Proof.
  intros H. unfold Store.elements. rewrite (length_holds _ _ _ H).
  now rewrite (elementsFrom_holds _ _ _ H).
Qed.

Lemma forEachFrom_holds s0 arr transactions body :
  Store.holds s0 arr transactions ->
  (forall t s, Store.frame s0 s -> Store.frame s0 (body t s)) ->
  forall n k s, Store.frame s0 s -> k + n = List.length transactions ->
  Store.forEachFrom arr body k n s
  = fold_left (fun s t => body t s) (skipn k transactions) s.
Proof.
  intros H Hbody. induction n as [|n IH]; intros k s Hs Hk; simpl.
  - rewrite skipn_all2 by lia. reflexivity.
  - rewrite (element_holds _ _ _ _ (holds_frame _ _ _ _ H Hs)).
    destruct (nth_error transactions k) as [t|] eqn:E.
    + rewrite IH by (auto; lia).
      assert (Hsk : skipn k transactions = t :: skipn (S k) transactions).
      { clear -E. revert k E.
        induction transactions as [|x l IHl]; intros [|k] E;
          simpl in *; try discriminate.
        - now injection E as ->.
        - now apply IHl. }
      now rewrite Hsk.
    + apply nth_error_None in E. lia.
Qed.

(** On an array that holds [transactions], [forEach] runs its body on them
    in order. *)
Lemma forEach_holds s0 arr transactions body s :
  Store.holds s0 arr transactions ->
  (forall t s, Store.frame s0 s -> Store.frame s0 (body t s)) ->
  Store.frame s0 s ->
  Store.forEach arr body s = fold_left (fun s t => body t s) transactions s.
Proof.
  intros H Hbody Hs. unfold Store.forEach.
  rewrite (length_holds _ _ _ (holds_frame _ _ _ _ H Hs)).
  now rewrite (forEachFrom_holds s0 arr transactions body H Hbody).
Qed.

Lemma numbersAt_frame s s' l :
  Store.frame s s' -> l < List.length s -> Store.numbersAt s' l = Store.numbersAt s l.
Proof. intros [_ H] Hl. unfold Store.numbersAt. now rewrite H. Qed.

Lemma primitivesAt_frame s s' l :
  Store.frame s s' -> l < List.length s ->
  Store.primitivesAt s' l = Store.primitivesAt s l.
Proof. intros [_ H] Hl. unfold Store.primitivesAt. now rewrite H. Qed.

Lemma topAt_frame s s' l :
  Store.frame s s' -> l < List.length s -> Store.topAt s' l = Store.topAt s l.
Proof. intros [_ H] Hl. unfold Store.topAt. now rewrite H. Qed.

Lemma numbersAt_alloc o s : Store.numbersAt (s ++ [Store.CNumbers o]) (List.length s) = o.
Proof.
  unfold Store.numbersAt. rewrite nth_error_app2 by lia.
  now rewrite Nat.sub_diag.
Qed.

(** A loop that rewrites the object in cell [b] from its content. *)
Lemma primitivesAt_fold_update {X : Type} b
    (step : X -> JSObject.t JSValue.primitive -> JSObject.t JSValue.primitive
            -> JSObject.t JSValue.primitive) :
  forall xs s o,
    nth_error s b = Some (Store.CPrimitives o) ->
    nth_error
      (fold_left
         (fun s x =>
            Store.update b
              (Store.onPrimitives (step x (Store.primitivesAt s b))) s)
         xs s) b
    = Some (Store.CPrimitives (fold_left (fun o x => step x o o) xs o)).
Proof.
  induction xs as [|x xs IH]; intros s o Hb; simpl.
  - exact Hb.
  - apply IH. rewrite nth_error_update_same, Hb. simpl.
    unfold Store.primitivesAt. now rewrite Hb.
Qed.

(** The loop of a grouping by [key] (lines 206-208 and 212-215). *)
Lemma grouping_holds (key : Transaction -> string) s0 arr transactions s :
  Store.holds s0 arr transactions -> Store.frame s0 s ->
  let b := List.length s in
  let s' :=
    Store.forEach arr
      (fun t s1 =>
         Store.update b
           (Store.onPrimitives
              (JSObject.assign (key t)
                 (JSValue.plus
                    (JSValue.orZero
                       (JSObject.lookup (key t) (Store.primitivesAt s1 b)))
                    (JSObject.Own (JSValue.Num (amount t))))))
           s1)
      (s ++ [Store.CPrimitives []]) in
  Store.primitivesAt s' b
  = fold_left
      (fun o t =>
         JSObject.assign (key t)
           (JSValue.plus (JSValue.orZero (JSObject.lookup (key t) o))
                         (JSObject.Own (JSValue.Num (amount t))))
           o)
      transactions []
  /\ b < List.length s'.
Proof.
  intros H Hs b s'. split.
  - unfold s'. rewrite (forEach_holds s0 arr transactions).
    + unfold Store.primitivesAt at 1.
      rewrite (primitivesAt_fold_update b
                 (fun t r =>
                    JSObject.assign (key t)
                      (JSValue.plus (JSValue.orZero (JSObject.lookup (key t) r))
                                    (JSObject.Own (JSValue.Num (amount t)))))
                 transactions _ []).
      * reflexivity.
      * unfold b. rewrite nth_error_app2 by lia. now rewrite Nat.sub_diag.
    + assumption.
    + intros t s1 Hs1. apply frame_update; [assumption|].
      apply frame_length in Hs. unfold b. lia.
    + apply frame_trans with s; [assumption | apply (frame_alloc _ s)].
  - unfold s'. rewrite length_forEach by (intros; apply length_update).
    rewrite length_app. simpl. unfold b. lia.
Qed.

Lemma groupByCategory_holds s0 arr transactions s :
  Store.holds s0 arr transactions -> Store.frame s0 s ->
  Store.primitivesAt (snd (Store.groupByCategory arr s))
                     (fst (Store.groupByCategory arr s))
  = groupByCategory transactions
  /\ fst (Store.groupByCategory arr s)
     < List.length (snd (Store.groupByCategory arr s)).
Proof.
  intros H Hs. exact (grouping_holds category s0 arr transactions s H Hs).
Qed.

Lemma groupByMonth_holds s0 arr transactions s :
  Store.holds s0 arr transactions -> Store.frame s0 s ->
  Store.primitivesAt (snd (Store.groupByMonth arr s))
                     (fst (Store.groupByMonth arr s))
  = groupByMonth transactions
  /\ fst (Store.groupByMonth arr s)
     < List.length (snd (Store.groupByMonth arr s)).
Proof.
  intros H Hs.
  exact (grouping_holds (fun t => String.substring 0 7 (date t))
           s0 arr transactions s H Hs).
Qed.

Lemma merchantsAt_fold b
    (body : Transaction -> Store.store -> Store.store)
    (step : JSObject.t MerchantData -> Transaction -> JSObject.t MerchantData) :
  (forall t s o,
     nth_error s b = Some (Store.CMerchants o) ->
     nth_error (body t s) b = Some (Store.CMerchants (step o t))) ->
  forall xs s o,
    nth_error s b = Some (Store.CMerchants o) ->
    nth_error (fold_left (fun s t => body t s) xs s) b
    = Some (Store.CMerchants (fold_left step xs o)).
Proof.
  intros Hbody. induction xs as [|x xs IH]; intros s o Hb; simpl.
  - exact Hb.
  - apply IH. now apply Hbody.
Qed.

Lemma groupByMerchant_holds s0 arr transactions s :
  Store.holds s0 arr transactions -> Store.frame s0 s ->
  Store.merchantsAt (snd (Store.groupByMerchant arr s))
                    (fst (Store.groupByMerchant arr s))
  = groupByMerchant transactions
  /\ fst (Store.groupByMerchant arr s)
     < List.length (snd (Store.groupByMerchant arr s)).
Proof.
  intros H Hs. unfold Store.groupByMerchant, Store.alloc. cbn [fst snd].
  set (b := List.length s).
  set (body := fun (t : Transaction) (s1 : Store.store) => _).
  assert (Hlen : forall t s1, List.length (body t s1) = List.length s1).
  { intros t s1. unfold body.
    destruct (JSObject.lookup (merchant t) (Store.merchantsAt s1 b));
      destruct (JSObject.lookup _ _); rewrite ?length_update; reflexivity. }
  assert (Hframe : forall t s1, Store.frame s0 s1 -> Store.frame s0 (body t s1)).
  { intros t s1 Hs1. apply frame_length in Hs. unfold body.
    assert (Hb : List.length s0 <= b) by (unfold b; lia).
    destruct (JSObject.lookup (merchant t) (Store.merchantsAt s1 b));
      destruct (JSObject.lookup _ _); repeat apply frame_update; auto. }
  split.
  - rewrite (forEach_holds s0 arr transactions); auto.
    + unfold Store.merchantsAt at 1. unfold groupByMerchant.
      rewrite (merchantsAt_fold b body countMerchant) with (o := []).
      * reflexivity.
      * intros t s1 o Ho. unfold body, countMerchant.
        assert (Hm : Store.merchantsAt s1 b = o)
          by (unfold Store.merchantsAt; now rewrite Ho).
        rewrite Hm.
        assert (Ho' : nth_error
                    (Store.update b
                       (Store.onMerchants
                          (JSObject.set (merchant t)
                             {| spent := 0; count := 0 |})) s1) b
                  = Some (Store.CMerchants
                            (JSObject.set (merchant t)
                               {| spent := 0; count := 0 |} o)))
          by (rewrite nth_error_update_same, Ho; reflexivity).
        destruct (JSObject.lookup (merchant t) o) as [d|m|] eqn:E; cbv zeta.
        -- rewrite Hm, E. rewrite nth_error_update_same, Ho. reflexivity.
        -- rewrite Hm, E. exact Ho.
        -- unfold Store.merchantsAt at 1. rewrite Ho'.
           destruct (JSObject.lookup (merchant t) (JSObject.set _ _ o)).
           ++ rewrite nth_error_update_same, Ho'. reflexivity.
           ++ exact Ho'.
           ++ exact Ho'.
      * unfold b. rewrite nth_error_app2 by lia. now rewrite Nat.sub_diag.
    + apply frame_trans with s; [assumption | apply (frame_alloc _ s)].
  - rewrite length_forEach by assumption.
    rewrite length_app. simpl. unfold b. lia.
Qed.

Lemma topAt_alloc x s :
  Store.topAt (s ++ [Store.CTop x]) (List.length s) = x.
Proof.
  unfold Store.topAt. rewrite nth_error_app2 by lia.
  now rewrite Nat.sub_diag.
Qed.

Lemma stringsAt_alloc x s :
  Store.stringsAt (s ++ [Store.CStrings x]) (List.length s) = x.
Proof.
  unfold Store.stringsAt. rewrite nth_error_app2 by lia.
  now rewrite Nat.sub_diag.
Qed.

Lemma stringsAt_sorted x s :
  Store.stringsAt
    (Store.update (List.length s) (Store.onStrings JSArray.sortStrings)
                  (s ++ [Store.CStrings x]))
    (List.length s)
  = JSArray.sortStrings x.
Proof.
  unfold Store.stringsAt. rewrite nth_error_update_same.
  rewrite nth_error_app2 by lia. now rewrite Nat.sub_diag.
Qed.

Lemma rankMerchants_holds merchantMap s :
  merchantMap < List.length s ->
  Store.topAt (snd (Store.rankMerchants merchantMap s))
              (fst (Store.rankMerchants merchantMap s))
  = rankMerchants (Store.merchantsAt s merchantMap)
  /\ fst (Store.rankMerchants merchantMap s)
     < List.length (snd (Store.rankMerchants merchantMap s)).
Proof.
  intros Hm. unfold Store.rankMerchants, Store.alloc. cbn [fst snd]. split.
  - rewrite topAt_alloc. unfold rankMerchants. f_equal.
    unfold Store.topAt. rewrite nth_error_update_same.
    rewrite nth_error_app2 by lia. now rewrite Nat.sub_diag.
  - rewrite length_app. simpl. lia.
Qed.

Lemma suggestBudget_holds byCategory s :
  byCategory < List.length s ->
  Store.numbersAt (snd (Store.suggestBudget byCategory s))
                  (fst (Store.suggestBudget byCategory s))
  = suggestBudget (Store.primitivesAt s byCategory)
  /\ fst (Store.suggestBudget byCategory s)
     < List.length (snd (Store.suggestBudget byCategory s)).
Proof.
  intros Hb. unfold Store.suggestBudget, Store.alloc. cbn [fst snd].
  assert (Hread : Store.primitivesAt (s ++ [Store.CNumbers []]) byCategory
                  = Store.primitivesAt s byCategory).
  { apply primitivesAt_frame; [apply (frame_alloc _ s) | assumption]. }
  rewrite Hread. unfold suggestBudget.
  set (b := List.length s).
  assert (Hgen : forall xs s1 o,
            nth_error s1 b = Some (Store.CNumbers o) ->
            nth_error
              (fold_left
                 (fun s2 '(cat, sp) =>
                    Store.update b
                      (Store.onNumbers (JSObject.assign cat (Math_ceil (JSValue.toNumber (JSObject.Own sp) * 1.1)%float))) s2)
                 xs s1) b
            = Some (Store.CNumbers
                      (fold_left
                         (fun budget '(cat, sp) =>
                            JSObject.assign cat (Math_ceil (JSValue.toNumber (JSObject.Own sp) * 1.1)%float) budget)
                         xs o))
            /\ List.length
                 (fold_left
                    (fun s2 '(cat, sp) =>
                       Store.update b
                         (Store.onNumbers (JSObject.assign cat (Math_ceil (JSValue.toNumber (JSObject.Own sp) * 1.1)%float))) s2)
                    xs s1)
               = List.length s1).
  { induction xs as [|[cat sp] xs IH]; intros s1 o Ho; cbn [fold_left].
    - split; [exact Ho | reflexivity].
    - destruct (IH (Store.update b
                      (Store.onNumbers (JSObject.assign cat (Math_ceil (JSValue.toNumber (JSObject.Own sp) * 1.1)%float))) s1)
                   (JSObject.assign cat (Math_ceil (JSValue.toNumber (JSObject.Own sp) * 1.1)%float) o))
        as [IH1 IH2].
      + rewrite nth_error_update_same, Ho. reflexivity.
      + split; [exact IH1|]. now rewrite IH2, length_update. }
  destruct (Hgen (JSObject.entries (Store.primitivesAt s byCategory))
                 (s ++ [Store.CNumbers []]) [])
    as [H1 H2].
  - unfold b. rewrite nth_error_app2 by lia. now rewrite Nat.sub_diag.
  - split.
    + unfold Store.numbersAt at 1. now rewrite H1.
    + rewrite H2, length_app. simpl. unfold b. lia.
Qed.

Lemma makeForecast_holds byMonth s :
  byMonth < List.length s ->
  fst (Store.makeForecast byMonth s)
  = makeForecast (Store.primitivesAt s byMonth).
Proof.
  intros Hb. unfold Store.makeForecast, Store.alloc, makeForecast.
  rewrite stringsAt_sorted.
  set (months := JSArray.sortStrings (JSObject.keys (Store.primitivesAt s byMonth))).
  set (s2 := Store.update (List.length s) _ _).
  assert (Hlen2 : List.length s2 = S (List.length s)).
  { unfold s2. rewrite length_update, length_app. simpl. lia. }
  destruct (2 <=? List.length months); [|reflexivity].
  cbn [fst]. rewrite stringsAt_alloc.
  assert (Hf : Store.frame s (s2 ++ [Store.CStrings (JSArray.sliceLast 3 months)])).
  { apply frame_trans with s2.
    - unfold s2. apply frame_update; [apply (frame_alloc _ s) | lia].
    - apply (frame_alloc _ s2). }
  rewrite (primitivesAt_frame _ _ _ Hf Hb).
  assert (Hmonths : Store.stringsAt
                      (s2 ++ [Store.CStrings (JSArray.sliceLast 3 months)])
                      (List.length s) = months).
  { unfold Store.stringsAt. rewrite nth_error_app1 by lia.
    unfold s2. rewrite nth_error_update_same.
    rewrite nth_error_app2 by lia. now rewrite Nat.sub_diag. }
  now rewrite Hmonths.
Qed.

Lemma makePeriodHint_holds s0 arr transactions byMonth s :
  Store.holds s0 arr transactions -> Store.frame s0 s ->
  byMonth < List.length s ->
  fst (Store.makePeriodHint arr byMonth s)
  = makePeriodHint transactions (Store.primitivesAt s byMonth).
Proof.
  intros H Hs Hb. unfold Store.makePeriodHint, Store.alloc, makePeriodHint.
  cbn [fst]. rewrite stringsAt_sorted.
  rewrite (elements_holds _ _ _ (holds_frame _ _ _ _ H Hs)).
  assert (Hf : Store.frame s
                 (Store.update (List.length s)
                    (Store.onStrings JSArray.sortStrings)
                    (s ++ [Store.CStrings (map date transactions)]))).
  { apply frame_update; [apply (frame_alloc _ s) | lia]. }
  now rewrite (primitivesAt_frame _ _ _ Hf Hb).
Qed.

End OnStore.

End StoreFacts.

(** C10.  Run on a store in which the array it is given holds references
    to transaction objects, [generateReport] returns the report of these
    transactions and leaves every cell that existed before the call as it
    was: the array still holds the same references in the same order, the
    transaction objects have the same fields, and the only cells that
    differ are new ones. *)
Theorem generateReport_keeps_its_input :
  forall (runtime : Runtime) (s : Store.store) (transactions : Store.loc)
         (input : list Transaction),
    Store.holds s transactions input ->
    fst (Store.generateReport transactions s) = generateReport input
    /\ Store.holds (snd (Store.generateReport transactions s))
                   transactions input
    /\ Store.extends s (snd (Store.generateReport transactions s)).
Proof.
  intros runtime s arr input H.
  pose proof (StoreFacts.frame_generateReport arr s) as Hf.
  split; [|split; [now apply StoreFacts.holds_frame with s
                  | now apply StoreFacts.frame_extends]].
  clear Hf. unfold Store.generateReport.
  rewrite (StoreFacts.length_holds _ _ _ H).
  destruct input as [|t0 l]; [reflexivity|].
  set (input := t0 :: l) in *.
  replace (List.length input =? 0) with false by reflexivity.
  rewrite (StoreFacts.elements_holds _ _ _ H).
  destruct (StoreFacts.groupByCategory_holds s arr input s H
              (StoreFacts.frame_refl s)) as [C1 C2].
  pose proof (StoreFacts.frame_groupByCategory arr s) as F1.
  destruct (Store.groupByCategory arr s) as [byCategory s1].
  cbn [fst snd] in C1, C2, F1.
  destruct (StoreFacts.groupByMonth_holds s arr input s1 H F1) as [M1 M2].
  pose proof (StoreFacts.frame_groupByMonth arr s1) as F2.
  destruct (Store.groupByMonth arr s1) as [byMonth s2].
  cbn [fst snd] in M1, M2, F2.
  destruct (StoreFacts.groupByMerchant_holds s arr input s2 H
              (StoreFacts.frame_trans _ _ _ F1 F2)) as [G1 G2].
  pose proof (StoreFacts.frame_groupByMerchant arr s2) as F3.
  destruct (Store.groupByMerchant arr s2) as [merchantMap s3].
  cbn [fst snd] in G1, G2, F3.
  destruct (StoreFacts.rankMerchants_holds merchantMap s3 G2) as [R1 R2].
  pose proof (StoreFacts.frame_rankMerchants merchantMap s3) as F4.
  destruct (Store.rankMerchants merchantMap s3) as [top s4].
  cbn [fst snd] in R1, R2, F4.
  assert (L1 : List.length s1 <= List.length s2)
    by now apply StoreFacts.frame_length.
  assert (L2 : List.length s2 <= List.length s3)
    by now apply StoreFacts.frame_length.
  assert (L3 : List.length s3 <= List.length s4)
    by now apply StoreFacts.frame_length.
  destruct (StoreFacts.suggestBudget_holds byCategory s4 ltac:(lia))
    as [B1 B2].
  pose proof (StoreFacts.frame_suggestBudget byCategory s4) as F5.
  destruct (Store.suggestBudget byCategory s4) as [budget s5].
  cbn [fst snd] in B1, B2, F5.
  assert (L4 : List.length s4 <= List.length s5)
    by now apply StoreFacts.frame_length.
  pose proof (StoreFacts.makeForecast_holds byMonth s5 ltac:(lia)) as K1.
  pose proof (StoreFacts.frame_makeForecast byMonth s5) as F6.
  destruct (Store.makeForecast byMonth s5) as [fc s6].
  cbn [fst snd] in K1, F6.
  assert (L5 : List.length s5 <= List.length s6)
    by now apply StoreFacts.frame_length.
  assert (F06 : Store.frame s s6).
  { eauto 12 using StoreFacts.frame_trans. }
  pose proof (StoreFacts.makePeriodHint_holds s arr input byMonth s6 H F06
                ltac:(lia)) as P1.
  pose proof (StoreFacts.frame_makePeriodHint arr byMonth s6) as F7.
  destruct (Store.makePeriodHint arr byMonth s6) as [ph s7].
  cbn [fst snd] in P1, F7. cbn [fst].
  (* what the cells hold at the end *)
  assert (F17 : Store.frame s1 s7).
  { eauto 12 using StoreFacts.frame_trans. }
  assert (F27 : Store.frame s2 s7).
  { eauto 12 using StoreFacts.frame_trans. }
  assert (F47 : Store.frame s4 s7).
  { eauto 12 using StoreFacts.frame_trans. }
  assert (F57 : Store.frame s5 s7).
  { eauto 12 using StoreFacts.frame_trans. }
  assert (F16 : Store.frame s1 s6).
  { eauto 12 using StoreFacts.frame_trans. }
  assert (F26 : Store.frame s2 s6).
  { eauto 12 using StoreFacts.frame_trans. }
  assert (F25 : Store.frame s2 s5).
  { eauto 12 using StoreFacts.frame_trans. }
  assert (F14 : Store.frame s1 s4).
  { eauto 12 using StoreFacts.frame_trans. }
  rewrite (StoreFacts.primitivesAt_frame _ _ _ F17 C2), C1.
  rewrite (StoreFacts.primitivesAt_frame _ _ _ F27 M2), M1.
  rewrite (StoreFacts.topAt_frame _ _ _ F47 R2), R1, G1.
  rewrite (StoreFacts.numbersAt_frame _ _ _ F57 B2), B1.
  rewrite (StoreFacts.primitivesAt_frame _ _ _ F14 C2), C1.
  rewrite (StoreFacts.primitivesAt_frame _ _ _ F16 C2), C1.
  rewrite (StoreFacts.primitivesAt_frame _ _ _ F26 M2), M1.
  rewrite (StoreFacts.primitivesAt_frame _ _ _ F26 M2), M1 in P1.
  rewrite (StoreFacts.primitivesAt_frame _ _ _ F25 M2), M1 in K1.
  rewrite K1, P1.
  unfold input. rewrite ReportFacts.generateReport_cons. reflexivity.
Qed.

(** C10 on a store of four cells: the input array in cell 2, its two
    transaction objects in cells 0 and 3 and an array of strings in
    cell 1. *)
Lemma generateReport_keeps_its_input_witness :
  let t1 := {| date := "2024-02-10"; merchant := "Cafe"; amount := 12.5;
               category := "Dining"; description := None |} in
  let t2 := {| date := "2024-01-05"; merchant := "Landlord"; amount := 900;
               category := "Other"; description := Some "rent" |} in
  let s := [ Store.CTransaction t1; Store.CStrings ["2024-02-10"];
             Store.CTransactions [0; 3]; Store.CTransaction t2 ] in
  Store.holds s 2 [t1; t2]
  /\ Store.holds (snd (Store.generateReport (runtime := Deno) 2 s)) 2 [t1; t2]
  /\ firstn 4 (snd (Store.generateReport (runtime := Deno) 2 s)) = s.
Proof.
  intros t1 t2 s.
  assert (H : Store.holds s 2 [t1; t2]).
  { exists [0; 3]. split; [reflexivity|].
    constructor; [reflexivity|]. constructor; [reflexivity | constructor]. }
  split; [exact H|]. split.
  - apply (generateReport_keeps_its_input Deno s 2 [t1; t2] H).
  - reflexivity.
Defined.


(* ================================================================== *)
(** * Part III: further properties of the code                          *)
(* ================================================================== *)

(** ** The parsers *)

Module ParserFacts.

Lemma csvHasAmountCell_short headers line :
  csvResolved headers = true ->
  csvHasAmountCell headers line = negb (csvShortRow headers line).
Proof.
  unfold csvResolved, csvHasAmountCell, csvShortRow, csvCell, csvValues,
    JSArray.get.
  intros H. apply andb_true_iff in H. destruct H as [_ H].
  apply Z.leb_le in H.
  destruct (Z.ltb_spec (JSArray.findIndex isAmountHeader headers) 0) as [|_];
    [lia|].
  set (n := Z.to_nat _).
  destruct (nth_error _ n) as [cell|] eqn:E.
  - assert (Hlt : n < List.length (map JSString.trim (JSString.split "," line))).
    { apply nth_error_Some. congruence. }
    rewrite length_map in Hlt.
    symmetry. apply negb_true_iff. apply Nat.leb_gt. exact Hlt.
  - apply nth_error_None in E. rewrite length_map in E.
    symmetry. apply negb_false_iff. now apply Nat.leb_le.
Qed.

Lemma forallb_existsb_negb {A} (p q : A -> bool) l :
  (forall x, p x = negb (q x)) -> forallb p l = negb (existsb q l).
Proof.
  intros H. induction l as [|x l IH]; simpl; [reflexivity|].
  rewrite H, IH. now destruct (q x), (existsb q l).
Qed.

Lemma orElse_truthy v d :
  JSString.truthy d = true -> JSString.truthy (orElse v d) = true.
Proof.
  intros Hd. unfold orElse. destruct v as [s|]; [|assumption].
  destruct (JSString.truthy s) eqn:E; assumption.
Qed.

Lemma categorizeLoop_range text : forall rules,
  In (categorizeLoop rules text) (map rule_category rules ++ ["Other"]).
Proof.
  induction rules as [|rule rest IH]; simpl.
  - now left.
  - destruct (existsb _ (keywords rule)); [now left | now right].
Qed.

Lemma categorize_range description merchant :
  In (categorizeTransaction description merchant) categoryNames.
Proof. apply categorizeLoop_range. Qed.

Lemma lowerChar_idem c :
  JSString.lowerChar (JSString.lowerChar c) = JSString.lowerChar c.
Proof. destruct c as [[] [] [] [] [] [] [] []]; reflexivity. Qed.

Lemma toLowerCase_idem s :
  JSString.toLowerCase (JSString.toLowerCase s) = JSString.toLowerCase s.
Proof.
  induction s as [|c s IH]; simpl; [reflexivity|].
  now rewrite lowerChar_idem, IH.
Qed.

Lemma sheet_orElse_truthy v d :
  Sheet.truthy d = true -> Sheet.truthy (Sheet.orElse v d) = true.
Proof.
  intros Hd. unfold Sheet.orElse. now destruct (Sheet.truthy v) eqn:E.
Qed.

End ParserFacts.

(** X1.  [parseCSV] raises, and then a [TypeError], exactly when a date
    and an amount column are resolved and some data row has no more cells
    than the index of the amount column; in every other case it returns a
    list, with one transaction for each data row when the columns are
    resolved and empty when they are not. *)
Theorem parseCSV_raises_exactly_on_short_rows :
  forall (clock : nat -> string) (content : string),
    let headers := csvHeaders (csvLines content) in
    let rows := csvDataLines content in
    if csvResolved headers && existsb (csvShortRow headers) rows
    then parseCSV clock content = Throws TypeError
    else exists txs,
           parseCSV clock content = Returns txs
           /\ List.length txs
              = if csvResolved headers then List.length rows else 0.
Proof.
  intros clock content headers rows.
  rewrite parseCSV_outcome. cbv zeta. fold headers. fold rows.
  assert (Hrows : (List.length (csvLines content) <? 2) = true -> rows = []).
  { intros H. apply Nat.ltb_lt in H. unfold rows, csvDataLines.
    destruct (csvLines content) as [|h [|l ls]]; simpl in *;
      try reflexivity; lia. }
  destruct (csvResolved headers) eqn:Hres; cbn [andb].
  - rewrite (ParserFacts.forallb_existsb_negb _ (csvShortRow headers))
      by (intros line; now apply ParserFacts.csvHasAmountCell_short).
    destruct (List.length (csvLines content) <? 2) eqn:Hlen.
    + rewrite (Hrows eq_refl). simpl. exists []. split; reflexivity.
    + destruct (existsb (csvShortRow headers) rows); cbn [negb].
      * reflexivity.
      * eexists. split; [reflexivity | apply length_mapi].
  - exists []. split; [|reflexivity].
    now destruct (List.length (csvLines content) <? 2).
Qed.

(** X2.  Every transaction [parseCSV] returns has a merchant and a
    description that are not empty, and its category is the one
    [categorizeTransaction] gives for them, hence one of the nine category
    names. *)
Theorem parseCSV_transaction_fields :
  forall (clock : nat -> string) (content : string) (txs : list Transaction),
    parseCSV clock content = Returns txs ->
    forall t, In t txs ->
      JSString.truthy (merchant t) = true
      /\ exists d,
           description t = Some d
           /\ JSString.truthy d = true
           /\ category t = categorizeTransaction d (merchant t)
           /\ In (category t) categoryNames.
Proof.
  intros clock content txs Hret t Hin.
  apply In_nth_error in Hin. destruct Hin as [k Hk].
  destruct (parseCSV_returns clock content txs Hret) as [_ Hall].
  destruct (Hall k t Hk) as (line & _ & _ & ->).
  unfold csvTransaction. cbn [merchant description category].
  set (m := orElse (csvCell isMerchantHeader _ line) "Unknown").
  assert (Hm : JSString.truthy m = true)
    by (now apply ParserFacts.orElse_truthy).
  split; [exact Hm|].
  eexists. split; [reflexivity|].
  split; [now apply ParserFacts.orElse_truthy|].
  split; [reflexivity | apply ParserFacts.categorize_range].
Qed.

(** [parseCSV_transaction_fields] on a statement of two rows, one of them
    with an empty merchant cell. *)
Lemma parseCSV_transaction_fields_witness :
  let content :=
    ("Date,Merchant,Amount" ++ LF ++ "2024-01-05,Starbucks,4.50" ++ LF
     ++ "2024-01-06,,12")%string in
  let clock := fun _ : nat => "2026-11-01T09:30:00.000Z" in
  exists txs,
    parseCSV clock content = Returns txs
    /\ map merchant txs = ["Starbucks"; "Unknown"]
    /\ Forall (fun t => JSString.truthy (merchant t) = true) txs.
Proof.
  intros content clock.
  destruct (parseCSV clock content) as [txs|e] eqn:E; [|discriminate E].
  exists txs. split; [reflexivity|].
  split; [injection E as <-; reflexivity|].
  apply Forall_forall. intros t Ht.
  apply (parseCSV_transaction_fields clock content txs E t Ht).
Defined.

(** X3.  Whatever the description and the merchant, the category
    [categorizeTransaction] answers with is one of the eight categories of
    the rule table or "Other". *)
Theorem category_is_one_of_nine :
  forall description merchant : string,
    In (categorizeTransaction description merchant)
       ["Dining"; "Groceries"; "Transport"; "Subscriptions"; "Shopping";
        "Entertainment"; "Utilities"; "Health"; "Other"].
Proof. intros. apply ParserFacts.categorize_range. Qed.

(** X4.  [categorizeTransaction] does not see the case of letters: the
    lower-cased description and merchant get the category of the original
    ones, and so do any two pairs that agree once lower-cased. *)
Theorem categorize_ignores_letter_case :
  forall description merchant : string,
    categorizeTransaction (JSString.toLowerCase description)
                          (JSString.toLowerCase merchant)
    = categorizeTransaction description merchant
    /\ forall description' merchant',
         JSString.toLowerCase description' = JSString.toLowerCase description ->
         JSString.toLowerCase merchant' = JSString.toLowerCase merchant ->
         categorizeTransaction description' merchant'
         = categorizeTransaction description merchant.
Proof.
  intros description merchant. unfold categorizeTransaction.
  split.
  - rewrite !StringFacts.toLowerCase_app, !ParserFacts.toLowerCase_idem.
    reflexivity.
  - intros d' m' Hd Hm.
    rewrite !StringFacts.toLowerCase_app, Hd, Hm. reflexivity.
Qed.

(** X5.  Every transaction [parseExcel] returns has a merchant and a
    category that are truthy (not empty, not missing): the cell of the
    row, or else "Unknown" and "Uncategorized"; and there are at most as
    many transactions as rows. *)
Theorem parseExcel_transaction_fields :
  forall (ArrayBuffer : Type)
         (lib : ArrayBuffer -> outcome (option (list Sheet.Row)))
         (Number_toString : number -> string)
         (clock : nat -> string) (buffer : ArrayBuffer),
  exists txs,
    parseExcel ArrayBuffer lib Number_toString clock buffer = Returns txs
    /\ (forall t, In t txs ->
          Sheet.truthy (Sheet.merchant t) = true
          /\ Sheet.truthy (Sheet.category t) = true
          /\ (Sheet.merchant t = Sheet.VString "Unknown"
              \/ exists rows row,
                   lib buffer = Returns (Some rows) /\ In row rows
                   /\ Sheet.merchant t = sheetCell Sheet.isMerchantKey row)
          /\ (Sheet.category t = Sheet.VString "Uncategorized"
              \/ exists rows row,
                   lib buffer = Returns (Some rows) /\ In row rows
                   /\ Sheet.category t = sheetCell Sheet.isCategoryKey row))
    /\ (forall rows, lib buffer = Returns (Some rows) ->
          List.length txs <= List.length rows)
    /\ (lib buffer = Returns None \/ (exists e, lib buffer = Throws e) ->
        txs = []).
Proof.
  intros ArrayBuffer lib Number_toString clock buffer.
  destruct (parseExcel ArrayBuffer lib Number_toString clock buffer)
    as [txs|e] eqn:E.
  2:{ unfold parseExcel in E. destruct (lib buffer) as [[rows|]|e'];
        try discriminate. destruct (List.length rows =? 0); discriminate. }
  exists txs. split; [reflexivity|].
  destruct (parseExcel_returns _ _ _ _ _ _ E) as [->|(rows & Hlib & ->)].
  - split; [intros t []|]. split; [simpl; lia | reflexivity].
  - split; [|split].
    + intros t Ht. apply in_map_iff in Ht.
      destruct Ht as ([k row] & <- & Hin).
      apply sheetKept_In in Hin. destruct Hin as (_ & Hnth & _).
      apply nth_error_In in Hnth.
      unfold sheetTransaction. cbn [Sheet.merchant Sheet.category].
      split; [now apply ParserFacts.sheet_orElse_truthy|].
      split; [now apply ParserFacts.sheet_orElse_truthy|].
      split.
      * unfold Sheet.orElse.
        destruct (Sheet.truthy (sheetCell Sheet.isMerchantKey row));
          [right; eauto | now left].
      * unfold Sheet.orElse.
        destruct (Sheet.truthy (sheetCell Sheet.isCategoryKey row));
          [right; eauto | now left].
    + intros rows' Hlib'. rewrite Hlib in Hlib'. injection Hlib' as <-.
      rewrite length_map.
      assert (H : forall rs i, List.length (sheetKept rs i) <= List.length rs).
      { induction rs as [|r rs IH]; intros i; simpl; [lia|].
        destruct (sheetResolved r); simpl; specialize (IH (S i)); lia. }
      apply H.
    + rewrite Hlib. intros [H|[e H]]; discriminate.
Qed.

(** ** The report *)

(** X26.  The date of every transaction a parser returns is what its
    date cell holds, as it is, when that is truthy: for delimited text a
    cell that is not empty, trimmed of the white space around it; for a
    spreadsheet a value other than the empty string, 0, NaN, [false] and
    [null], unconverted.  When the cell is absent or falsy it is the
    current processing date, the part of the clock's time stamp before its
    [T], which has the form YYYY-MM-DD.  No date is parsed or
    reformatted. *)
Theorem date_is_cell_text_or_current_date :
  (forall (clock : nat -> string) (content : string)
          (txs : list Transaction),
     parseCSV clock content = Returns txs ->
     forall k t,
       nth_error txs k = Some t ->
       exists line,
         nth_error (csvDataLines content) k = Some line
         /\ match csvCell isDateHeader (csvHeaders (csvLines content)) line with
            | Some (String c text) => date t = String c text
            | Some "" | None => date t = currentDate clock (S k)
            end)
  /\ (forall (ArrayBuffer : Type)
             (lib : ArrayBuffer -> outcome (option (list Sheet.Row)))
             (Number_toString : number -> string)
             (clock : nat -> string) (buffer : ArrayBuffer)
             (txs : list Sheet.Transaction) (t : Sheet.Transaction),
        parseExcel ArrayBuffer lib Number_toString clock buffer = Returns txs ->
        In t txs ->
        exists rows i row,
          lib buffer = Returns (Some rows) /\ nth_error rows i = Some row
          /\ Sheet.date t
             = if Sheet.truthy (sheetCell Sheet.isDateKey row)
               then sheetCell Sheet.isDateKey row
               else Sheet.VString (currentDate clock i))
  /\ (forall (clock : nat -> string) (i : nat) (d rest : string),
        clock i = (d ++ "T" ++ rest)%string -> isISODate d = true ->
        currentDate clock i = d).
Proof.
  split; [|split].
  - intros clock content txs Hret k t Hk.
    destruct (parseCSV_returns _ _ _ Hret) as [_ Hrows].
    destruct (Hrows k t Hk) as (line & Hline & _ & ->).
    exists line. split; [exact Hline|].
    unfold csvTransaction. simpl.
    destruct (csvCell isDateHeader _ line) as [[|c text]|]; reflexivity.
  - intros ArrayBuffer lib Number_toString clock buffer txs t Hret Hin.
    destruct (parseExcel_returns _ _ _ _ _ _ Hret) as [->|(rows & Hlib & ->)];
      [contradiction|].
    apply in_map_iff in Hin. destruct Hin as ([k row] & <- & Hin).
    apply sheetKept_In in Hin. destruct Hin as (_ & Hnth & _).
    rewrite Nat.sub_0_r in Hnth.
    exists rows, k, row. repeat split; auto.
  - intros clock i d rest. apply currentDate_of_timestamp.
Qed.

Module ReportMoreFacts.

Lemma In_firstOccurrences x : forall l, In x (firstOccurrences l) -> In x l.
Proof.
  induction l as [|y l IH]; simpl; [tauto|].
  intros [->|H]; [now left|]. apply filter_In in H. right. now apply IH.
Qed.

Lemma StronglySorted_snoc {A} (R : A -> A -> Prop) l z :
  StronglySorted R (l ++ [z]) ->
  StronglySorted R l /\ Forall (fun x => R x z) l.
Proof.
  induction l as [|x l IH]; simpl; intros H.
  - split; constructor.
  - apply StronglySorted_inv in H. destruct H as [Hs Hall].
    destruct (IH Hs) as [Hl Hz]. split.
    + constructor; [assumption|].
      rewrite Forall_forall in *. intros y Hy. apply Hall.
      apply in_or_app. now left.
    + constructor; [|assumption].
      rewrite Forall_forall in Hall. apply Hall. apply in_or_app. right.
      now left.
Qed.

(** A new array-index key that is not below those present goes after
    them. *)
Lemma insertIndexKey_end n k : forall idx,
  Forall (fun x => isArrayIndex x = true /\ (indexValue x <= n)%N) idx ->
  insertIndexKey n k idx = idx ++ [k].
Proof.
  induction idx as [|k0 idx IH]; intros H; simpl; [reflexivity|].
  pose proof (Forall_inv H) as [Hi Hv]. apply Forall_inv_tail in H.
  unfold isArrayIndex, indexValue in Hi, Hv.
  destruct (JSObject.arrayIndex k0) as [n0|]; [|discriminate].
  destruct (N.ltb_spec n n0) as [Hlt|_]; [lia|].
  now rewrite IH.
Qed.

(** Keys that are already in enumeration order are enumerated as they
    are. *)
Lemma keyOrder_indices : forall idx,
  Forall (fun x => isArrayIndex x = true) idx ->
  StronglySorted (fun a b => (indexValue a <= indexValue b)%N) idx ->
  NoDup idx ->
  keyOrder idx = idx.
Proof.
  induction idx as [|k idx IH] using rev_ind; intros Hidx Hs Hnd.
  - reflexivity.
  - apply StronglySorted_snoc in Hs. destruct Hs as [Hs Hle].
    apply Forall_app in Hidx. destruct Hidx as [Hidx Hk].
    apply Forall_inv in Hk.
    assert (Hnd' : NoDup idx) by (now apply NoDup_app_remove_r in Hnd).
    assert (Hnotin : ~ In k idx).
    { intros Hin. apply NoDup_remove_2 in Hnd. rewrite app_nil_r in Hnd.
      contradiction. }
    rewrite ObjectFacts.keyOrder_snoc, IH by assumption.
    unfold addKey.
    destruct (existsb (String.eqb k) idx) eqn:E.
    + apply ObjectFacts.existsb_eqb_In in E. contradiction.
    + pose proof Hk as Hk'. unfold isArrayIndex in Hk'.
      destruct (JSObject.arrayIndex k) as [n|] eqn:En; [|discriminate].
      apply insertIndexKey_end. rewrite Forall_forall in *.
      intros x Hx. split; [now apply Hidx|].
      specialize (Hle x Hx). unfold indexValue in Hle at 2.
      now rewrite En in Hle.
Qed.

Lemma keyOrder_canonical idx : forall others,
  Forall (fun x => isArrayIndex x = true) idx ->
  StronglySorted (fun a b => (indexValue a <= indexValue b)%N) idx ->
  Forall (fun x => isArrayIndex x = false) others ->
  NoDup (idx ++ others) ->
  keyOrder (idx ++ others) = idx ++ others.
Proof.
  induction others as [|k others IH] using rev_ind;
    intros Hidx Hs Hothers Hnd.
  - rewrite app_nil_r in *. now apply keyOrder_indices.
  - apply Forall_app in Hothers. destruct Hothers as [Hothers Hk].
    apply Forall_inv in Hk.
    rewrite app_assoc in *.
    assert (Hnd' : NoDup (idx ++ others))
      by (now apply NoDup_app_remove_r in Hnd).
    assert (Hnotin : ~ In k (idx ++ others)).
    { intros Hin. apply NoDup_remove_2 in Hnd. rewrite app_nil_r in Hnd.
      contradiction. }
    rewrite ObjectFacts.keyOrder_snoc, IH by assumption.
    unfold addKey.
    destruct (existsb (String.eqb k) (idx ++ others)) eqn:E.
    + apply ObjectFacts.existsb_eqb_In in E. contradiction.
    + unfold isArrayIndex in Hk.
      destruct (JSObject.arrayIndex k); [discriminate | reflexivity].
Qed.

(** Assigning to the keys of an object in their enumeration order gives
    an object with the same enumeration order. *)
Lemma keyOrder_idem l : keyOrder (keyOrder l) = keyOrder l.
Proof.
  destruct (ObjectFacts.keyOrder_structure l) as (idx & Heq & Hidx & Hs).
  pose proof (ObjectFacts.keyOrder_NoDup l) as Hnd.
  rewrite Heq in *. apply keyOrder_canonical; try assumption.
  - apply Sorted_StronglySorted; [|assumption].
    intros a b c. apply N.le_trans.
  - apply Forall_forall. intros x Hx. apply In_firstOccurrences in Hx.
    apply filter_In in Hx. destruct Hx as [_ Hx].
    now apply negb_true_iff in Hx.
Qed.

Lemma length_insertIndexKey n k ks :
  List.length (insertIndexKey n k ks) = S (List.length ks).
Proof.
  induction ks as [|k0 ks IH]; simpl; [reflexivity|].
  destruct (JSObject.arrayIndex k0); [|reflexivity].
  destruct (n <? n0)%N; simpl; [reflexivity | now rewrite IH].
Qed.

Lemma length_keyOrder l : List.length (keyOrder l) <= List.length l.
Proof.
  induction l as [|k l IH] using rev_ind; [simpl; lia|].
  rewrite ObjectFacts.keyOrder_snoc, length_app. simpl.
  unfold addKey. destruct (existsb _ (keyOrder l)); [lia|].
  destruct (JSObject.arrayIndex k).
  - rewrite length_insertIndexKey. lia.
  - rewrite length_app. simpl. lia.
Qed.

(** The entries of an object under one key. *)
Lemma filter_key {V} c : forall (o : JSObject.t V),
  NoDup (JSObject.keys o) ->
  filter (fun e => String.eqb (fst e) c) o
  = match JSObject.get c o with
    | Some v => [(c, v)]
    | None => []
    end.
Proof.
  unfold JSObject.keys.
  induction o as [|[k v] o IH]; intros Hnd; [reflexivity|].
  cbn [map fst] in Hnd. apply NoDup_cons_iff in Hnd. destruct Hnd as [Hk Hnd].
  cbn [filter fst JSObject.get]. rewrite (String.eqb_sym c k).
  destruct (String.eqb_spec k c) as [->|Hne].
  - f_equal. rewrite IH by assumption.
    destruct (JSObject.get c o) as [v'|] eqn:E; [|reflexivity].
    exfalso. apply Hk.
    assert (H : JSObject.get c o <> None) by congruence.
    rewrite ObjectFacts.get_None_keys in H.
    destruct (in_dec string_dec c (JSObject.keys o)); [assumption | tauto].
  - now apply IH.
Qed.

Section Budget.

Context {runtime : Runtime}.

Lemma suggestBudget_fold (byCategory : JSObject.t JSValue.primitive) :
  Forall (fun k => settable k = true) (JSObject.keys byCategory) ->
  suggestBudget byCategory
  = fold_left
      (fun o e =>
         JSObject.set (fst e)
           ((fun (_ : option number) (e : string * JSValue.primitive) =>
               Math_ceil (JSValue.toNumber (JSObject.Own (snd e)) * 1.1)%float)
              (JSObject.get (fst e) o) e) o)
      byCategory [].
Proof.
  unfold suggestBudget, JSObject.entries. generalize (@nil (string * number)).
  induction byCategory as [|[cat spent] l IH]; intros acc Hs;
    cbn [fold_left fst snd]; [reflexivity|].
  cbn [JSObject.keys map fst] in Hs.
  rewrite ObjectFacts.assign_settable by now apply Forall_inv in Hs.
  apply IH. now apply Forall_inv_tail in Hs.
Qed.

Lemma suggestBudget_keys byCategory :
  Forall (fun k => settable k = true) (JSObject.keys byCategory) ->
  JSObject.keys (suggestBudget byCategory)
  = keyOrder (JSObject.keys byCategory).
Proof.
  intros Hs. rewrite suggestBudget_fold by assumption.
  exact (ObjectFacts.keys_fold_set fst
           (fun (_ : option number) (e : string * JSValue.primitive) =>
              Math_ceil (JSValue.toNumber (JSObject.Own (snd e)) * 1.1)%float)
           byCategory []).
Qed.

Lemma suggestBudget_get byCategory c :
  Forall (fun k => settable k = true) (JSObject.keys byCategory) ->
  NoDup (JSObject.keys byCategory) ->
  JSObject.get c (suggestBudget byCategory)
  = option_map
      (fun spent =>
         Math_ceil (JSValue.toNumber (JSObject.Own spent) * 1.1)%float)
      (JSObject.get c byCategory).
Proof.
  intros Hs Hnd. rewrite suggestBudget_fold by assumption.
  rewrite (ObjectFacts.get_fold_set fst
             (fun (_ : option number) (e : string * JSValue.primitive) =>
                Math_ceil (JSValue.toNumber (JSObject.Own (snd e)) * 1.1)%float)
             c byCategory []).
  rewrite filter_key by assumption.
  now destruct (JSObject.get c byCategory).
Qed.

Lemma budget_suggestBudget transactions :
  budget (generateReport transactions)
  = suggestBudget (byCategory (generateReport transactions)).
Proof.
  destruct transactions as [|t l]; [reflexivity|].
  now rewrite ReportFacts.generateReport_cons.
Qed.

Lemma byCategory_settable transactions :
  Forall (fun k => settable k = true)
         (JSObject.keys (byCategory (generateReport transactions))).
Proof.
  rewrite ReportFacts.byCategory_keys. apply Forall_forall. intros k Hk.
  apply ObjectFacts.keyOrder_In, filter_In in Hk. tauto.
Qed.

Lemma byCategory_value transactions c :
  amountsNonNegative transactions ->
  JSObject.get c (byCategory (generateReport transactions))
  = groupValue category c transactions.
Proof.
  intros H. destruct transactions as [|t l]; [reflexivity|].
  rewrite ReportFacts.generateReport_cons.
  now apply ReportFacts.groupByCategory_value.
Qed.

Lemma byMonth_value transactions m :
  amountsNonNegative transactions ->
  JSObject.get m (byMonth (generateReport transactions))
  = groupValue monthOf m transactions.
Proof.
  intros H. destruct transactions as [|t l]; [reflexivity|].
  rewrite ReportFacts.generateReport_cons.
  now apply ReportFacts.groupByMonth_value.
Qed.

(** The categories of [categorizeTransaction] name nothing inherited. *)
Lemma categoryNames_plain c :
  In c categoryNames -> JSObject.inherited c = None.
Proof.
  intros H. unfold JSObject.inherited.
  repeat (destruct H as [<-|H]; [reflexivity|]). destruct H.
Qed.

End Budget.

Lemma leb_refl a : JSString.leb a a = true.
Proof. unfold JSString.leb. now rewrite SortFacts.ltb_irrefl. Qed.

Lemma nth_last {A} (l : list A) d :
  nth (List.length l - 1) l d = last l d.
Proof.
  induction l as [|x l IH]; [reflexivity|].
  destruct l as [|y l]; [reflexivity|].
  change (last (x :: y :: l) d) with (last (y :: l) d). rewrite <- IH.
  cbn [List.length].
  replace (S (S (List.length l)) - 1) with (S (S (List.length l) - 1)) by lia.
  reflexivity.
Qed.

(** The least and the greatest element of a non-empty sorted list are
    its first and its last. *)
Lemma sorted_bounds (l : list string) :
  l <> [] ->
  StronglySorted (fun a b => JSString.leb a b = true) l ->
  In (nth 0 l "") l /\ In (nth (List.length l - 1) l "") l
  /\ Forall (fun d => JSString.leb (nth 0 l "") d = true
                      /\ JSString.leb d (nth (List.length l - 1) l "") = true)
            l.
Proof.
  intros Hne Hs. rewrite nth_last.
  destruct l as [|x l]; [congruence|]. clear Hne.
  assert (Hlast : exists l' z, x :: l = l' ++ [z]).
  { destruct (exists_last (l := x :: l)) as (l' & z & E); [discriminate|].
    eauto. }
  destruct Hlast as (l' & z & E).
  assert (Hz : last (x :: l) "" = z) by (rewrite E; apply last_last).
  rewrite Hz. cbn [nth].
  split; [now left|].
  split; [rewrite E; apply in_or_app; right; now left|].
  pose proof Hs as Hs'. rewrite E in Hs'.
  apply StronglySorted_snoc in Hs'. destruct Hs' as [_ Hle].
  apply StronglySorted_inv in Hs. destruct Hs as [_ Hge].
  apply Forall_forall. intros d Hd. split.
  - destruct Hd as [<-|Hd]; [apply leb_refl|].
    rewrite Forall_forall in Hge. now apply Hge.
  - rewrite E in Hd. apply in_app_or in Hd. destruct Hd as [Hd|[<-|[]]].
    + rewrite Forall_forall in Hle. now apply Hle.
    + apply leb_refl.
Qed.

End ReportMoreFacts.

(** X6.  The suggested budget has an entry for exactly the categories of
    [byCategory], enumerated in the same order, and each entry is the
    number [byCategory] holds for the category times 1.1, rounded up to a
    whole number.  For a category that names no member of
    [Object.prototype] this is 1.1 times the sum of its amounts, rounded
    up; for one that names an inherited function, where [byCategory] holds
    a string, it is NaN. *)
Theorem budget_covers_the_categories :
  forall (runtime : Runtime) (transactions : list Transaction),
    let report := generateReport transactions in
    JSObject.keys (budget report) = JSObject.keys (byCategory report)
    /\ (forall c,
          JSObject.get c (budget report)
          = option_map
              (fun spent =>
                 Math_ceil (JSValue.toNumber (JSObject.Own spent) * 1.1)%float)
              (JSObject.get c (byCategory report)))
    /\ (amountsNonNegative transactions ->
        forall c,
          In c (map category transactions) ->
          match JSObject.inherited c with
          | None =>
              JSObject.get c (budget report)
              = option_map (fun spent => Math_ceil (spent * 1.1)%float)
                           (groupSum category c transactions)
          | Some (JSObject.Method _) =>
              JSObject.get c (budget report) = Some nan
          | Some JSObject.Prototype => JSObject.get c (budget report) = None
          end).
Proof.
  intros runtime transactions report. unfold report.
  rewrite ReportMoreFacts.budget_suggestBudget.
  pose proof (ReportMoreFacts.byCategory_settable transactions) as Hs.
  assert (Hnd : NoDup (JSObject.keys (byCategory (generateReport transactions)))).
  { rewrite ReportFacts.byCategory_keys. apply ObjectFacts.keyOrder_NoDup. }
  split; [|split].
  - rewrite ReportMoreFacts.suggestBudget_keys by assumption.
    rewrite ReportFacts.byCategory_keys.
    apply ReportMoreFacts.keyOrder_idem.
  - intros c. now apply ReportMoreFacts.suggestBudget_get.
  - intros Hnn c Hc.
    rewrite ReportMoreFacts.suggestBudget_get by assumption.
    rewrite ReportMoreFacts.byCategory_value by assumption.
    unfold groupValue, groupSum.
    assert (Hg : withKey category c transactions <> []).
    { apply in_map_iff in Hc. destruct Hc as (t & <- & Ht).
      intros E.
      assert (Hin : In t (withKey category (category t) transactions))
        by (apply filter_In; split; [assumption | apply String.eqb_refl]).
      rewrite E in Hin. destruct Hin. }
    destruct (withKey category c transactions) as [|t g]; [congruence|].
    destruct (JSObject.inherited c) as [[name|]|]; reflexivity.
Qed.

(** X7.  For a non-empty list the period hint names two dates of the
    input, [start] the least and [end] the greatest in the order of their
    code units, and [monthsDetected] is the number of keys of [byMonth],
    at least one and at most the number of transactions. *)
Theorem period_hint_bounds_the_dates :
  forall (runtime : Runtime) (transactions : list Transaction),
    transactions <> [] ->
    let report := generateReport transactions in
    let hint := periodHint report in
    In (start hint) (map date transactions)
    /\ In (end_ hint) (map date transactions)
    /\ (forall t, In t transactions ->
          JSString.leb (start hint) (date t) = true
          /\ JSString.leb (date t) (end_ hint) = true)
    /\ monthsDetected hint = List.length (JSObject.keys (byMonth report))
    /\ 1 <= monthsDetected hint <= List.length transactions.
Proof.
  intros runtime transactions Hne report hint. unfold hint, report.
  destruct transactions as [|t0 l]; [congruence|].
  rewrite ReportFacts.generateReport_cons. cbv zeta.
  cbn [periodHint byMonth]. unfold makePeriodHint.
  cbn [start end_ monthsDetected].
  set (transactions := t0 :: l) in *.
  set (dates := JSArray.sortStrings (map date transactions)).
  pose proof (SortFacts.sort_perm JSString.leb (map date transactions))
    as Hperm. fold (JSArray.sortStrings (map date transactions)) in Hperm.
  fold dates in Hperm.
  assert (Hdates : dates <> []).
  { intros E. rewrite E in Hperm. apply Permutation_nil in Hperm.
    discriminate Hperm. }
  destruct (ReportMoreFacts.sorted_bounds dates Hdates
              (SortFacts.sortStrings_sorted _)) as (Hs & He & Hall).
  split; [now apply Permutation_in with (1 := Hperm)|].
  split; [now apply Permutation_in with (1 := Hperm)|].
  split.
  { intros t Ht. rewrite Forall_forall in Hall. apply Hall.
    apply Permutation_in with (1 := Permutation_sym Hperm).
    now apply in_map. }
  split; [reflexivity|].
  rewrite ReportFacts.groupByMonth_keys. split.
  - assert (Hin : In (monthOf t0) (keyOrder (map monthOf transactions))).
    { apply ObjectFacts.keyOrder_In. now left. }
    destruct (keyOrder (map monthOf transactions)); [destruct Hin | simpl; lia].
  - rewrite <- (length_map monthOf transactions).
    apply ReportMoreFacts.length_keyOrder.
Qed.

(** [period_hint_bounds_the_dates] on two transactions given out of
    order. *)
Lemma period_hint_witness :
  let transactions :=
    [ {| date := "2024-03-09"; merchant := "Cafe"; amount := 4;
         category := "Dining"; description := None |};
      {| date := "2024-01-17"; merchant := "Uber"; amount := 12;
         category := "Transport"; description := None |} ] in
  transactions <> []
  /\ start (periodHint (generateReport (runtime := Deno) transactions))
     = "2024-01-17"
  /\ In (end_ (periodHint (generateReport (runtime := Deno) transactions)))
        (map date transactions).
Proof.
  intros transactions.
  assert (H : transactions <> []) by discriminate.
  split; [exact H|]. split; [reflexivity|].
  apply (period_hint_bounds_the_dates Deno transactions H).
Defined.

(** X8.  Whatever the transactions, the health score is 0 with the summary
    "No data available" for the empty list and lies between 40 and 75
    otherwise, so that the clamping to [0, 100] never changes it and the
    summary "Excellent financial health!", which takes a score of 80, is
    never given: it is "Good, with room for improvement" from 60 on and
    "Consider reducing spending" below. *)
Theorem health_score_never_excellent :
  forall (runtime : Runtime) (transactions : list Transaction),
    let h := healthScore (generateReport transactions) in
    match transactions with
    | [] => score h = 0%float /\ summary h = "No data available"
    | _ =>
        (40 <=? score h)%float = true /\ (score h <=? 75)%float = true
        /\ summary h
           = (if (60 <=? score h)%float
              then "Good, with room for improvement"
              else "Consider reducing spending")
    end.
Proof.
  intros runtime transactions h. unfold h.
  destruct transactions as [|t0 l]; [split; reflexivity|].
  rewrite ReportFacts.generateReport_cons. cbv zeta. cbn [healthScore].
  unfold makeHealthScore.
  set (total := fold_left _ _ _).
  destruct (3000 <? _)%float; destruct (5000 <? _)%float;
    destruct (JSValue.truthy _ && _);
    cbn [score summary]; repeat split; vm_compute; reflexivity.
Qed.

(** X9.  The report of what [parseCSV] returns has a total and category
    sums that are numbers, not negative and not NaN: the categories are
    those of [categorizeTransaction], none of which names a member of
    [Object.prototype].  So are its month sums, except under the month
    [valueOf], the only month that names one, where [byMonth] holds a
    string. *)
Theorem parsed_csv_report_is_nonnegative :
  forall (runtime : Runtime) (clock : nat -> string) (content : string)
         (txs : list Transaction),
    parseCSV clock content = Returns txs ->
    let report := generateReport txs in
    amountsNonNegative txs
    /\ plainKeys category txs
    /\ (0 <=? totalSpent (totals report))%float = true
    /\ (forall c v, JSObject.get c (byCategory report) = Some v ->
          exists x, v = JSValue.Num x /\ (0 <=? x)%float = true)
    /\ (forall m v, JSObject.get m (byMonth report) = Some v ->
          if String.eqb m "valueOf"
          then exists after, v = JSValue.Str [] (JSObject.Method m) after
          else exists x, v = JSValue.Num x /\ (0 <=? x)%float = true).
Proof.
  intros runtime clock content txs Hret report.
  assert (Hfields : forall t, In t txs ->
            (0 <=? amount t)%float = true /\ In (category t) categoryNames).
  { intros t Ht. apply In_nth_error in Ht. destruct Ht as [k Hk].
    destruct (parseCSV_returns clock content txs Hret) as [_ Hall].
    destruct (Hall k t Hk) as (line & _ & Hcell & ->).
    unfold csvTransaction. cbn [amount category].
    split; [|apply ParserFacts.categorize_range].
    destruct (csvCell isAmountHeader _ line); [|reflexivity].
    apply normalizedAmount_nonneg. }
  assert (Hnn : amountsNonNegative txs).
  { apply Forall_forall. intros t Ht. now apply Hfields. }
  assert (Hpc : plainKeys category txs).
  { apply Forall_forall. intros t Ht.
    apply ReportMoreFacts.categoryNames_plain. now apply Hfields. }
  assert (Hsum : forall l, amountsNonNegative l ->
                           (0 <=? fsum (map amount l))%float = true).
  { intros l Hl. apply IEEEFacts.pos0_nonneg, ReportFacts.fsum_pos0.
    now apply ReportFacts.amounts_nonneg. }
  split; [exact Hnn|]. split; [exact Hpc|].
  assert (Htotal : (0 <=? totalSpent (totals report))%float = true).
  { unfold report. destruct txs as [|t0 l]; [reflexivity|].
    rewrite ReportFacts.generateReport_cons. cbv zeta.
    cbn [totals totalSpent].
    rewrite ReportFacts.fold_left_amount. now apply Hsum. }
  split; [exact Htotal|]. unfold report. split.
  - intros c v. rewrite ReportMoreFacts.byCategory_value by assumption.
    rewrite (ReportFacts.groupValue_plain category txs c Hpc).
    unfold groupSum. destruct (withKey category c txs) as [|t g] eqn:E;
      [discriminate|]. cbn [option_map]. intros [= <-].
    eexists. split; [reflexivity|]. apply (Hsum (t :: g)). rewrite <- E.
    now apply ReportFacts.amounts_nonneg_filter.
  - intros m v. rewrite ReportMoreFacts.byMonth_value by assumption.
    unfold groupValue.
    destruct (withKey monthOf m txs) as [|t g] eqn:E; [discriminate|].
    assert (Ht : In t (withKey monthOf m txs)) by (rewrite E; now left).
    apply filter_In in Ht. destruct Ht as [_ Hm].
    apply String.eqb_eq in Hm.
    destruct (String.eqb_spec m "valueOf") as [->|Hne].
    + intros [= <-]. now eexists.
    + assert (Hplain : JSObject.inherited m = None).
      { rewrite <- Hm. apply ReportFacts.month_plain. now rewrite Hm. }
      rewrite Hplain. intros [= <-]. eexists. split; [reflexivity|].
      apply (Hsum (t :: g)). rewrite <- E.
      now apply ReportFacts.amounts_nonneg_filter.
Qed.

(** [parsed_csv_report_is_nonnegative] on a statement with a negative
    amount. *)
Lemma parsed_csv_report_witness :
  let content :=
    ("Date,Merchant,Amount" ++ LF ++ "2024-01-05,Starbucks,-4.50" ++ LF
     ++ "2024-01-06,Uber,n/a")%string in
  let clock := fun _ : nat => "2026-11-01T09:30:00.000Z" in
  exists txs,
    parseCSV clock content = Returns txs
    /\ map amount txs = [4.5%float; 0%float]
    /\ (0 <=? totalSpent (totals (generateReport (runtime := Deno) txs)))%float
       = true.
Proof.
  intros content clock.
  destruct (parseCSV clock content) as [txs|e] eqn:E; [|discriminate E].
  exists txs. split; [reflexivity|].
  split; [injection E as <-; reflexivity|].
  apply (parsed_csv_report_is_nonnegative Deno clock content txs E).
Defined.

(** ** The session store and the handlers *)

(** X27.  The keys of [byMonth] are the distinct months that occur.  The
    forecast is null exactly when there are fewer than two of them;
    otherwise [confidence] is "High" with three months or more and
    "Medium" with two, [method] is "Average of last 3 months", and, with
    the month keys in ascending order, [nextMonthSpend] is the average,
    rounded, of what [byMonth] holds for the last three of them (for both
    when there are two), unless one of these is the month [valueOf], under
    which [byMonth] holds a string: then it is NaN. *)
Theorem forecast_from_last_months :
  forall (runtime : Runtime) (transactions : list Transaction),
    let report := generateReport transactions in
    let months := JSObject.keys (byMonth report) in
    NoDup months
    /\ (forall m,
          In m months
          <-> exists t, In t transactions /\ m = String.substring 0 7 (date t))
    /\ (forecast report = None <-> List.length months < 2)
    /\ (2 <= List.length months ->
        exists (sorted : list string) (spend : number),
          Permutation sorted months
          /\ StronglySorted (fun a b => JSString.ltb a b = true) sorted
          /\ forecast report
             = Some {| nextMonthSpend := spend;
                       confidence := if 3 <=? List.length months
                                     then "High" else "Medium";
                       method := "Average of last 3 months" |}
          /\ let recent := skipn (List.length sorted - 3) sorted in
             let average :=
               (fold_left (fun sum m => sum + spendOf (byMonth report) m)
                          recent 0
                / ofNat (List.length recent))%float in
             (~ In "valueOf" recent -> spend = Math_round average)
             /\ (In "valueOf" recent -> is_nan spend = true)).
Proof.
  intros runtime transactions report months.
  assert (Hkeys : months = keyOrder (map monthOf transactions))
    by apply ReportFacts.byMonth_keys.
  assert (Hnd : NoDup months)
    by (rewrite Hkeys; apply ObjectFacts.keyOrder_NoDup).
  assert (Hperm : Permutation (JSArray.sortStrings months) months)
    by apply SortFacts.sort_perm.
  assert (Hlen : List.length (JSArray.sortStrings months) = List.length months)
    by apply SortFacts.sort_length.
  assert (Hfc : forecast report = makeForecast (byMonth report))
    by apply ReportFacts.forecast_makeForecast.
  unfold makeForecast in Hfc. fold months in Hfc. rewrite Hlen in Hfc.
  assert (Hmonth : forall m, In m months ->
            exists t, In t transactions /\ m = monthOf t).
  { intros m. rewrite Hkeys, ObjectFacts.keyOrder_In, in_map_iff.
    intros (t & H1 & H2). now exists t. }
  assert (Hown : forall m, In m months ->
            exists v, JSObject.get m (byMonth report) = Some v).
  { intros m Hm. destruct (JSObject.get m (byMonth report)) as [v|] eqn:E;
      [now exists v|].
    apply ObjectFacts.get_None_keys in E. contradiction. }
  assert (Hby : byMonth report = groupByMonth transactions).
  { unfold report. destruct transactions as [|t l]; [reflexivity|].
    now rewrite ReportFacts.generateReport_cons. }
  split; [exact Hnd|]. split; [|split].
  - intros m. rewrite Hkeys, ObjectFacts.keyOrder_In, in_map_iff.
    split; intros (t & H1 & H2); exists t; unfold monthOf in *; auto.
  - rewrite Hfc. destruct (2 <=? List.length months) eqn:E.
    + apply Nat.leb_le in E. split; [discriminate | lia].
    + apply Nat.leb_gt in E. split; [intros _; exact E | reflexivity].
  - intros H2. apply Nat.leb_le in H2. rewrite H2 in Hfc.
    unfold JSArray.sliceLast in Hfc.
    set (sorted := JSArray.sortStrings months) in *.
    set (recent := skipn (List.length sorted - 3) sorted) in *.
    assert (Hrecent : forall k, In k recent -> In k months).
    { intros k Hk. apply Permutation_in with (1 := Hperm).
      rewrite <- (firstn_skipn (List.length sorted - 3)).
      apply in_or_app. now right. }
    eexists sorted, _.
    split; [exact Hperm|]. split.
    { apply ReportFacts.strictly_ascending.
      - apply Permutation_NoDup with (2 := Hnd). now apply Permutation_sym.
      - apply SortFacts.sortStrings_sorted. }
    split; [rewrite Hfc; reflexivity|].
    cbv zeta. split.
    + intros Hno. rewrite ReportFacts.fold_plus_numbers; [reflexivity|].
      intros k Hk. destruct (Hown k (Hrecent k Hk)) as [v Hv].
      destruct (Hmonth k (Hrecent k Hk)) as (t & _ & Ht).
      assert (Hplain : JSObject.inherited k = None).
      { rewrite Ht. apply ReportFacts.month_plain. rewrite <- Ht.
        intros ->. contradiction. }
      rewrite Hby in Hv.
      destruct (ReportFacts.groupByMonth_number _ _ _ Hplain Hv) as [x ->].
      exists x. now rewrite Hby.
    + intros Hin. destruct (Hown _ (Hrecent _ Hin)) as [v Hv].
      pose proof Hv as Hv'. rewrite Hby in Hv'.
      destruct (ReportFacts.groupByMonth_text _ "valueOf" "valueOf" v
                  eq_refl Hv') as [after ->].
      destruct (ReportFacts.fold_plus_text (byMonth report) recent
                  (JSValue.Num 0)) as (b & m & a & ->).
      { exists "valueOf", [], (JSObject.Method "valueOf"), after. tauto. }
      cbn [JSValue.toNumber]. rewrite ReportFacts.div_nan. reflexivity.
Qed.

(** X28.  What the report holds under names that [Object.prototype] has.
    A grouping holds, for a category or month that names an inherited
    function, a string: the text of the function followed by the texts of
    the amounts of the transactions with that key; for the category
    [__proto__], where that is an accessor, it has no key; for every other
    key it holds the sum of the amounts.  A merchant that names an
    inherited object has no entry among the top merchants. *)
Theorem groupings_under_inherited_names :
  forall (runtime : Runtime) (transactions : list Transaction),
    amountsNonNegative transactions ->
    let report := generateReport transactions in
    (forall c,
       JSObject.get c (byCategory report)
       = groupValue category c transactions)
    /\ (forall m,
          JSObject.get m (byMonth report) = groupValue monthOf m transactions)
    /\ JSObject.keys (byCategory report)
       = keyOrder (filter settable (map category transactions))
    /\ JSObject.keys (byMonth report) = keyOrder (map monthOf transactions)
    /\ (forall g,
          In g (topMerchants report) ->
          isInherited (Top.merchant g) = false
          /\ In (Top.merchant g) (map merchant transactions)
          /\ Top.spent g
             = fsum (map amount
                         (withKey merchant (Top.merchant g) transactions))).
Proof.
  intros runtime transactions Hnn report.
  split; [intros c; now apply ReportMoreFacts.byCategory_value|].
  split; [intros m; now apply ReportMoreFacts.byMonth_value|].
  split; [apply ReportFacts.byCategory_keys|].
  split; [apply ReportFacts.byMonth_keys|].
  intros g Hg. unfold report in Hg.
  destruct transactions as [|t0 l]; [destruct Hg|].
  rewrite ReportFacts.generateReport_cons in Hg. cbv zeta in Hg.
  cbn [topMerchants] in Hg. set (transactions := t0 :: l) in *.
  unfold rankMerchants, JSArray.sliceFirst in Hg.
  assert (Hfirst : forall (A : Type) n (l : list A) x,
            In x (firstn n l) -> In x l).
  { intros A n l0 x Hx. rewrite <- (firstn_skipn n l0).
    apply in_or_app. now left. }
  apply Hfirst in Hg.
  apply (Permutation_in _ (SortFacts.sort_perm _ _)) in Hg.
  apply in_map_iff in Hg. destruct Hg as ([k d] & <- & Hin).
  cbn [Top.merchant Top.spent].
  assert (Hk : In k (JSObject.keys (groupByMerchant transactions))).
  { unfold JSObject.entries in Hin. change k with (fst (k, d)).
    now apply in_map. }
  pose proof Hk as Hk'.
  rewrite MerchantFacts.groupByMerchant_keys in Hk'.
  apply ObjectFacts.keyOrder_In, in_map_iff in Hk'.
  destruct Hk' as (t & <- & Ht). apply filter_In in Ht.
  destruct Ht as [Ht Hinh]. apply negb_true_iff in Hinh.
  split; [exact Hinh|]. split; [now apply in_map|].
  unfold JSObject.entries in Hin.
  apply MerchantFacts.In_entry_get in Hin.
  - rewrite MerchantFacts.groupByMerchant_get, Hinh in Hin.
    destruct (withKey merchant (merchant t) transactions);
      [discriminate|]. now injection Hin as <-.
  - rewrite MerchantFacts.groupByMerchant_keys.
    apply ObjectFacts.keyOrder_NoDup.
Qed.

(** [groupings_under_inherited_names] on three transactions: a month
    [valueOf], merchants [constructor] and [__proto__], and a category
    [__proto__], on a runtime that has the accessor. *)
Lemma groupings_under_inherited_names_witness :
  let transactions :=
    [ {| date := "valueOf"; merchant := "constructor"; amount := 5;
         category := "Other"; description := None |};
      {| date := "2024-01-05"; merchant := "Cafe"; amount := 7;
         category := "__proto__"; description := None |};
      {| date := "valueOf"; merchant := "__proto__"; amount := 2;
         category := "Other"; description := None |} ] in
  let report := generateReport (runtime := Node) transactions in
  amountsNonNegative transactions
  /\ JSObject.get "valueOf" (byMonth report)
     = Some (JSValue.Str [] (JSObject.Method "valueOf")
               [JSValue.PAtom (JSValue.ANumber 5);
                JSValue.PAtom (JSValue.ANumber 2)])
  /\ JSObject.get "__proto__" (byCategory report) = None
  /\ JSObject.keys (byCategory report) = ["Other"]
  /\ map Top.merchant (topMerchants report) = ["Cafe"].
Proof.
  intros transactions report.
  assert (H : amountsNonNegative transactions) by (repeat constructor).
  destruct (groupings_under_inherited_names Node transactions H)
    as (Hc & Hm & Hkeys & _).
  split; [exact H|]. unfold report.
  split; [rewrite (Hm "valueOf"); reflexivity|].
  split; [rewrite (Hc "__proto__"); reflexivity|].
  split; [rewrite Hkeys; reflexivity | reflexivity].
Defined.

Module ServerFacts.

Lemma session_get_set id data id' sessions :
  Session.get id' (Session.set id data sessions)
  = if String.eqb id' id then Some data else Session.get id' sessions.
Proof.
  unfold Session.get, Session.set.
  destruct (JSObject.get id sessions) as [x|] eqn:E.
  - rewrite ObjectFacts.get_overwrite, E. reflexivity.
  - rewrite ObjectFacts.get_app. cbn [JSObject.get].
    destruct (String.eqb_spec id' id) as [->|_].
    + now rewrite E.
    + now destruct (JSObject.get id' sessions).
Qed.

Lemma session_get_same id data sessions :
  Session.get id (Session.set id data sessions) = Some data.
Proof. now rewrite session_get_set, String.eqb_refl. Qed.

Lemma session_get_other id data id' sessions :
  id' <> id ->
  Session.get id' (Session.set id data sessions) = Session.get id' sessions.
Proof.
  intros H. rewrite session_get_set. now destruct (String.eqb_spec id' id).
Qed.

(** A [set] on a key that is present keeps the keys of the store. *)
Lemma keys_set_present id data data' sessions :
  Session.get id sessions = Some data ->
  map fst (Session.set id data' sessions) = map fst sessions.
Proof.
  unfold Session.get, Session.set. intros ->.
  apply (ObjectFacts.keys_overwrite id data' sessions).
Qed.

Lemma throws_TypeError {A} (e : exn) : @Throws A e = Throws TypeError.
Proof. now destruct e. Qed.

Lemma split_nonempty sep s : JSString.split sep s <> [].
Proof.
  destruct s as [|c s]; simpl; [discriminate|].
  destruct (Ascii.eqb c sep); [discriminate|].
  destruct (JSString.split sep s); discriminate.
Qed.

Lemma split_app_length sep ext : forall base,
  2 <= List.length (JSString.split sep (base ++ String sep ext)).
Proof.
  induction base as [|c base IH]; simpl.
  - rewrite Ascii.eqb_refl. simpl.
    pose proof (split_nonempty sep ext).
    destruct (JSString.split sep ext); [congruence | simpl; lia].
  - destruct (Ascii.eqb c sep); [simpl; lia|].
    destruct (JSString.split sep (base ++ String sep ext)); simpl in *; lia.
Qed.

Lemma last_split_app sep ext d : forall base,
  last (JSString.split sep (base ++ String sep ext)) d
  = last (JSString.split sep ext) d.
Proof.
  induction base as [|c base IH]; simpl.
  - rewrite Ascii.eqb_refl.
    pose proof (split_nonempty sep ext).
    now destruct (JSString.split sep ext).
  - pose proof (split_app_length sep ext base) as Hlen.
    destruct (Ascii.eqb c sep).
    + rewrite <- IH.
      now destruct (JSString.split sep (base ++ String sep ext)).
    + rewrite <- IH.
      destruct (JSString.split sep (base ++ String sep ext)) as [|w [|w' ws]];
        simpl in *; try lia. reflexivity.
Qed.

Lemma split_without_separator sep : forall s,
  JSString.includes s (String sep "") = false ->
  JSString.split sep s = [s].
Proof.
  induction s as [|c s IH]; intros Hno; [reflexivity|].
  rewrite StringFacts.includes_cons in Hno.
  apply orb_false_iff in Hno. destruct Hno as [Hp Hno].
  simpl. destruct (Ascii.eqb c sep) eqn:E.
  - apply Ascii.eqb_eq in E. subst c. simpl in Hp.
    destruct (ascii_dec sep sep); [|congruence].
    destruct s; discriminate.
  - now rewrite (IH Hno).
Qed.

Section Reports.

Context {runtime : Runtime}.
Variable Number_toString : number -> string.

Lemma asTransaction_ofCSV t :
  asTransaction Number_toString (ofCSV t) = Returns t.
Proof. now destruct t. Qed.

Lemma asTransactions_ofCSV : forall l,
  asTransactions Number_toString (map ofCSV l) = Returns l.
Proof.
  induction l as [|t l IH]; [reflexivity|].
  cbn [map asTransactions]. now rewrite asTransaction_ofCSV, IH.
Qed.

(** On what [parseCSV] returns the report is the one of [generateReport]. *)
Lemma generateReportOf_ofCSV l :
  generateReportOf Number_toString (map ofCSV l) = Returns (generateReport l).
Proof. unfold generateReportOf. now rewrite asTransactions_ofCSV. Qed.

Lemma asTransactions_throws t : forall l,
  In t l ->
  asTransaction Number_toString t = Throws TypeError ->
  asTransactions Number_toString l = Throws TypeError.
Proof.
  induction l as [|t0 l IH]; intros Hin Ht; [destruct Hin|].
  cbn [asTransactions]. destruct Hin as [->|Hin].
  - now rewrite Ht.
  - destruct (asTransaction Number_toString t0) as [t'|e];
      [|apply throws_TypeError].
    now rewrite (IH Hin Ht).
Qed.

End Reports.

End ServerFacts.

(** X10.  The extension by which an upload is dispatched is what follows
    the last dot of the file name, in lower case; a name without a dot is
    its own extension. *)
Theorem extension_is_after_the_last_dot :
  forall base ext : string,
    JSString.includes ext "." = false ->
    fileExt (base ++ "." ++ ext) = JSString.toLowerCase ext
    /\ fileExt ext = JSString.toLowerCase ext.
Proof.
  intros base ext Hno. unfold fileExt.
  change ("." ++ ext)%string with (String "." ext).
  rewrite ServerFacts.last_split_app.
  now rewrite (ServerFacts.split_without_separator "." ext Hno).
Qed.

(** [extension_is_after_the_last_dot] on a name with two dots and an
    extension in capitals. *)
Lemma extension_witness :
  JSString.includes "CSV" "." = false
  /\ fileExt "statement.2024.CSV" = "csv"
  /\ fileExt "CSV" = "csv".
Proof.
  assert (H : JSString.includes "CSV" "." = false) by reflexivity.
  split; [exact H|].
  exact (extension_is_after_the_last_dot "statement.2024" "CSV" H).
Defined.

Section Handlers.

Context {runtime : Runtime}.
Variable ArrayBuffer : Type.
Variable Bytes : Type.
Variable XLSX_first_sheet : ArrayBuffer -> outcome (option (list Sheet.Row)).
Variable Number_toString : number -> string.
Variable Number_toFixed : number -> nat -> string.
Variable runTask : string -> string -> outcome (list JSON.value).
Variable readFile : string -> outcome Bytes.

(** X11.  An upload answered with status 200 was a file with one of the
    four extensions, parsed by the parser of its extension without an
    exception; the body names the session id, the file name, "USD" and the
    report of the parsed transactions, and the store then holds, under
    that id, a session with these transactions and an empty history, the
    other sessions being as before. *)
Theorem upload_creates_the_session :
  forall (clock : nat -> string) (uuid : string)
         (req : Http.Request ArrayBuffer) (sessions : Session.Store),
    let result :=
      handleUpload ArrayBuffer Bytes XLSX_first_sheet Number_toString
                   clock uuid req sessions in
    Http.status (fst result) = 200 ->
    exists file transactions report,
      Http.formFile req = Returns (Some (Http.FormFile file))
      /\ ((fileExt (Http.name file) = "csv"
           /\ exists txs,
                parseCSV clock (Http.text file) = Returns txs
                /\ transactions = map ofCSV txs
                /\ report = generateReport txs)
          \/ ((fileExt (Http.name file) = "xlsx"
               \/ fileExt (Http.name file) = "xls")
              /\ exists txs,
                   parseExcel ArrayBuffer XLSX_first_sheet Number_toString
                              clock (Http.arrayBuffer file)
                   = Returns txs
                   /\ transactions = map ofSheet txs)
          \/ (fileExt (Http.name file) = "pdf" /\ transactions = []))
      /\ generateReportOf Number_toString transactions = Returns report
      /\ fst result
         = jsonResponse Bytes 200
             (Http.PUpload uuid (Http.name file) "USD" report)
      /\ Session.get uuid (snd result)
         = Some {| Session.sessionId := uuid;
                   Session.transactions := transactions;
                   Session.fileName := Http.name file;
                   Session.currency := "USD";
                   Session.conversationHistory := [] |}
      /\ forall id, id <> uuid ->
           Session.get id (snd result) = Session.get id sessions.
Proof.
  intros clock uuid req sessions result. unfold result, handleUpload.
  destruct (Http.formFile req) as [[[s|file]|]|e]; cbn [fst snd];
    try (intros H; discriminate H).
  - destruct (JSString.truthy s); intros H; discriminate H.
  - cbv zeta.
    destruct (String.eqb_spec (fileExt (Http.name file)) "csv") as [Hcsv|_].
    { destruct (parseCSV clock (Http.text file)) as [txs|e] eqn:Hp;
        [|intros H; discriminate H].
      destruct (generateReportOf Number_toString (map ofCSV txs))
        as [report|e] eqn:Hr; cbn [fst snd]; [|intros H; discriminate H].
      intros _. exists file, (map ofCSV txs), report.
      split; [reflexivity|]. split.
      { left. split; [exact Hcsv|]. exists txs.
        split; [exact Hp|]. split; [reflexivity|].
        rewrite ServerFacts.generateReportOf_ofCSV in Hr. congruence. }
      split; [exact Hr|]. split; [reflexivity|].
      split; [apply ServerFacts.session_get_same|].
      intros id Hid. now apply ServerFacts.session_get_other. }
    destruct (String.eqb (fileExt (Http.name file)) "xlsx"
              || String.eqb (fileExt (Http.name file)) "xls") eqn:Hxl.
    { destruct (parseExcel ArrayBuffer XLSX_first_sheet Number_toString clock
                           (Http.arrayBuffer file)) as [txs|e] eqn:Hp;
        [|intros H; discriminate H].
      destruct (generateReportOf Number_toString (map ofSheet txs))
        as [report|e] eqn:Hr; cbn [fst snd]; [|intros H; discriminate H].
      intros _. exists file, (map ofSheet txs), report.
      split; [reflexivity|]. split.
      { right. left. split.
        - apply orb_true_iff in Hxl.
          destruct Hxl as [E|E]; apply String.eqb_eq in E; auto.
        - exists txs. split; [exact Hp | reflexivity]. }
      split; [exact Hr|]. split; [reflexivity|].
      split; [apply ServerFacts.session_get_same|].
      intros id Hid. now apply ServerFacts.session_get_other. }
    destruct (String.eqb_spec (fileExt (Http.name file)) "pdf") as [Hpdf|_];
      [|intros H; discriminate H].
    cbn [parsePDF map].
    destruct (generateReportOf Number_toString []) as [report|e] eqn:Hr;
      cbn [fst snd]; [|intros H; discriminate H].
    intros _. exists file, [], report.
    split; [reflexivity|]. split; [right; right; split; [exact Hpdf | reflexivity]|].
    split; [exact Hr|]. split; [reflexivity|].
    split; [apply ServerFacts.session_get_same|].
    intros id Hid. now apply ServerFacts.session_get_other.
Qed.

(** X12.  An upload is answered with status 200, 400 or 500, and with an
    error object unless the status is 200.  A request whose form has no
    file, or an empty string in its place, is answered with 400 and
    "No file provided"; a file whose extension is none of csv, xlsx, xls
    and pdf is answered with 400 and "Unsupported file type"; and these are
    the only answers of status 400.  All of them leave the store as it is;
    so does, with 500, a request whose form cannot be read and a CSV file
    on which [parseCSV] raises. *)
Theorem upload_rejections_keep_the_store :
  forall (clock : nat -> string) (uuid : string)
         (req : Http.Request ArrayBuffer) (sessions : Session.Store),
    let result :=
      handleUpload ArrayBuffer Bytes XLSX_first_sheet Number_toString
                   clock uuid req sessions in
    In (Http.status (fst result)) [200; 400; 500]
    /\ (Http.status (fst result) <> 200 ->
        exists error,
          fst result = jsonResponse Bytes (Http.status (fst result))
                                    (Http.PError error))
    /\ (Http.status (fst result) = 400 ->
        snd result = sessions
        /\ (Http.body (fst result) = Http.BJson (Http.PError "No file provided")
            \/ Http.body (fst result)
               = Http.BJson (Http.PError "Unsupported file type")))
    /\ ((exists e, Http.formFile req = Throws e) ->
        result = (jsonResponse Bytes 500 (Http.PError "Failed to process file"),
                  sessions))
    /\ (forall file,
          Http.formFile req = Returns (Some (Http.FormFile file)) ->
          fileExt (Http.name file) = "csv" ->
          parseCSV clock (Http.text file) = Throws TypeError ->
          result = (jsonResponse Bytes 500
                      (Http.PError "Failed to process file"), sessions))
    /\ (Http.formFile req = Returns None
        \/ (exists s, Http.formFile req = Returns (Some (Http.FormString s))
                      /\ JSString.truthy s = false) ->
        result = (jsonResponse Bytes 400 (Http.PError "No file provided"),
                  sessions))
    /\ (forall file,
          Http.formFile req = Returns (Some (Http.FormFile file)) ->
          ~ In (fileExt (Http.name file)) ["csv"; "xlsx"; "xls"; "pdf"] ->
          result = (jsonResponse Bytes 400
                      (Http.PError "Unsupported file type"), sessions))
    /\ (Http.status (fst result) = 400 ->
        Http.formFile req = Returns None
        \/ (exists s, Http.formFile req = Returns (Some (Http.FormString s))
                      /\ JSString.truthy s = false)
        \/ (exists file,
              Http.formFile req = Returns (Some (Http.FormFile file))
              /\ ~ In (fileExt (Http.name file))
                      ["csv"; "xlsx"; "xls"; "pdf"])).
Proof.
  intros clock uuid req sessions result. unfold result, handleUpload.
  split; [|split; [|split; [|split; [|split; [|split; [|split]]]]]].
  - destruct (Http.formFile req) as [[[s|file]|]|e]; cbn [fst];
      try (simpl; tauto).
    + destruct (JSString.truthy s); simpl; tauto.
    + cbv zeta.
      destruct (String.eqb _ "csv");
        [|destruct (String.eqb _ "xlsx" || String.eqb _ "xls");
          [|destruct (String.eqb _ "pdf")]];
        repeat match goal with
               | |- context [match ?x with Returns _ => _ | Throws _ => _ end] =>
                   destruct x
               end; simpl; tauto.
  - destruct (Http.formFile req) as [[[s|file]|]|e]; cbn [fst];
      try (intros _; eexists; reflexivity).
    + destruct (JSString.truthy s); intros _; eexists; reflexivity.
    + cbv zeta.
      destruct (String.eqb _ "csv");
        [|destruct (String.eqb _ "xlsx" || String.eqb _ "xls");
          [|destruct (String.eqb _ "pdf")]];
        repeat match goal with
               | |- context [match ?x with Returns _ => _ | Throws _ => _ end] =>
                   destruct x
               end; cbn [fst Http.status jsonResponse Http.newResponse];
        first [ intros H; congruence | intros _; eexists; reflexivity ].
  - destruct (Http.formFile req) as [[[s|file]|]|e]; cbn [fst snd];
      try (intros H; discriminate H); try (intros _; split; [reflexivity|]; auto).
    + destruct (JSString.truthy s); cbn [fst snd];
        [intros H; discriminate H | intros _; split; [reflexivity|]; auto].
    + cbv zeta.
      destruct (String.eqb _ "csv");
        [|destruct (String.eqb _ "xlsx" || String.eqb _ "xls");
          [|destruct (String.eqb _ "pdf")]];
        repeat match goal with
               | |- context [match ?x with Returns _ => _ | Throws _ => _ end] =>
                   destruct x
               end;
        cbn [fst snd Http.status Http.body jsonResponse Http.newResponse];
        first [ intros H; discriminate H
              | intros _; split; [reflexivity|]; auto ].
  - intros [e ->]. reflexivity.
  - intros file -> Hext Hcsv. cbv zeta. rewrite Hext, Hcsv. reflexivity.
  - intros [-> | [s [-> Hs]]]; [reflexivity|]. now rewrite Hs.
  - intros file -> Hext. cbv zeta.
    destruct (String.eqb_spec (fileExt (Http.name file)) "csv") as [E|_];
      [exfalso; apply Hext; rewrite E; simpl; tauto|].
    destruct (String.eqb_spec (fileExt (Http.name file)) "xlsx") as [E|_];
      [exfalso; apply Hext; rewrite E; simpl; tauto|].
    destruct (String.eqb_spec (fileExt (Http.name file)) "xls") as [E|_];
      [exfalso; apply Hext; rewrite E; simpl; tauto|].
    destruct (String.eqb_spec (fileExt (Http.name file)) "pdf") as [E|_];
      [exfalso; apply Hext; rewrite E; simpl; tauto|].
    reflexivity.
  - destruct (Http.formFile req) as [[[s|file]|]|e]; cbn [fst];
      try (intros H; discriminate H).
    + destruct (JSString.truthy s) eqn:Hs; [intros H; discriminate H|].
      intros _. right. left. exists s. now split.
    + cbv zeta. intros H. right. right. exists file. split; [reflexivity|].
      revert H.
      destruct (String.eqb_spec (fileExt (Http.name file)) "csv") as [E|Hcsv].
      { destruct (parseCSV clock (Http.text file));
          [destruct (generateReportOf Number_toString _)|];
          intros H; discriminate H. }
      destruct (String.eqb_spec (fileExt (Http.name file)) "xlsx") as [E|Hxlsx].
      { cbn [orb].
        destruct (parseExcel ArrayBuffer XLSX_first_sheet Number_toString
                             clock (Http.arrayBuffer file));
          [destruct (generateReportOf Number_toString _)|];
          intros H; discriminate H. }
      destruct (String.eqb_spec (fileExt (Http.name file)) "xls") as [E|Hxls].
      { cbn [orb].
        destruct (parseExcel ArrayBuffer XLSX_first_sheet Number_toString
                             clock (Http.arrayBuffer file));
          [destruct (generateReportOf Number_toString _)|];
          intros H; discriminate H. }
      destruct (String.eqb_spec (fileExt (Http.name file)) "pdf") as [E|Hpdf].
      { cbn [orb parsePDF map].
        destruct (generateReportOf Number_toString _);
          intros H; discriminate H. }
      intros _ Hin. simpl in Hin. intuition congruence.
    + intros _. now left.
Qed.

(** X13.  A spreadsheet with a row whose date cell holds a truthy value
    that is not a string, such as the number of a date cell, is answered
    with status 500, "Failed to process file": [parseExcel] keeps the value
    and [generateReport] raises on it.  The session has been stored by
    then and stays in the store. *)
Theorem upload_of_a_date_that_is_no_string :
  forall (clock : nat -> string) (uuid : string)
         (req : Http.Request ArrayBuffer) (sessions : Session.Store)
         (file : Http.File ArrayBuffer) (rows : list Sheet.Row)
         (row : Sheet.Row),
    Http.formFile req = Returns (Some (Http.FormFile file)) ->
    fileExt (Http.name file) = "xlsx" \/ fileExt (Http.name file) = "xls" ->
    XLSX_first_sheet (Http.arrayBuffer file) = Returns (Some rows) ->
    In row rows ->
    sheetResolved row = true ->
    Sheet.truthy (sheetCell Sheet.isDateKey row) = true ->
    (forall s, sheetCell Sheet.isDateKey row <> Sheet.VString s) ->
    let result :=
      handleUpload ArrayBuffer Bytes XLSX_first_sheet Number_toString
                   clock uuid req sessions in
    fst result
    = jsonResponse Bytes 500 (Http.PError "Failed to process file")
    /\ exists transactions,
         parseExcel ArrayBuffer XLSX_first_sheet Number_toString clock
                    (Http.arrayBuffer file)
         = Returns transactions
         /\ Session.get uuid (snd result)
            = Some {| Session.sessionId := uuid;
                      Session.transactions := map ofSheet transactions;
                      Session.fileName := Http.name file;
                      Session.currency := "USD";
                      Session.conversationHistory := [] |}.
Proof.
  intros clock uuid req sessions file rows row Hform Hext Hlib Hin Hres
         Htruthy Hnostring result.
  assert (Hparse :
            parseExcel ArrayBuffer XLSX_first_sheet Number_toString clock
                       (Http.arrayBuffer file)
            = Returns (map (fun '(k, r) =>
                              sheetTransaction Number_toString clock k r)
                           (sheetKept rows 0))).
  { unfold parseExcel. rewrite Hlib.
    destruct rows as [|r0 rest]; [destruct Hin|].
    cbn [List.length Nat.eqb]. now rewrite parseExcel_rows_spec. }
  assert (Hkept : exists k, In (k, row) (sheetKept rows 0)).
  { clear -Hin Hres. generalize 0.
    induction rows as [|r rest IH]; intros i; [destruct Hin|].
    simpl. destruct Hin as [->|Hin].
    - rewrite Hres. exists i. now left.
    - destruct (IH Hin (S i)) as [k Hk]. exists k.
      destruct (sheetResolved r); [now right | assumption]. }
  destruct Hkept as [k Hk].
  set (txs := map (fun '(k, r) => sheetTransaction Number_toString clock k r)
                  (sheetKept rows 0)) in *.
  assert (Hthrows : generateReportOf Number_toString (map ofSheet txs)
                    = Throws TypeError).
  { unfold generateReportOf.
    rewrite (ServerFacts.asTransactions_throws Number_toString
               (ofSheet (sheetTransaction Number_toString clock k row)));
      [reflexivity | |].
    - apply in_map. unfold txs.
      apply (in_map (fun '(k, r) => sheetTransaction Number_toString clock k r)
                    _ (k, row) Hk).
    - unfold asTransaction, ofSheet, sheetTransaction.
      cbn [Stored.date Sheet.date]. unfold Sheet.orElse. rewrite Htruthy.
      destruct (sheetCell Sheet.isDateKey row) as [| | | |s] eqn:E;
        try reflexivity.
      exfalso. now apply (Hnostring s). }
  assert (Hcsv : String.eqb (fileExt (Http.name file)) "csv" = false).
  { destruct Hext as [-> | ->]; reflexivity. }
  assert (Hxl : String.eqb (fileExt (Http.name file)) "xlsx"
                || String.eqb (fileExt (Http.name file)) "xls" = true).
  { destruct Hext as [-> | ->]; reflexivity. }
  unfold result, handleUpload. rewrite Hform. cbv zeta.
  rewrite Hcsv, Hxl, Hparse, Hthrows. cbn [fst snd].
  split; [reflexivity|].
  exists txs. split; [reflexivity | apply ServerFacts.session_get_same].
Qed.

(** X14.  An upload from which nothing is parsed is not an error: a PDF
    file, a spreadsheet the library fails on or finds no sheet data in, and
    a CSV file whose header resolves no date or no amount column are all
    answered with status 200 and the report of no transactions, and a
    session without transactions is stored. *)
Theorem upload_with_nothing_parsed_succeeds :
  forall (clock : nat -> string) (uuid : string)
         (req : Http.Request ArrayBuffer) (sessions : Session.Store)
         (file : Http.File ArrayBuffer),
    Http.formFile req = Returns (Some (Http.FormFile file)) ->
    fileExt (Http.name file) = "pdf"
    \/ ((fileExt (Http.name file) = "xlsx" \/ fileExt (Http.name file) = "xls")
        /\ (XLSX_first_sheet (Http.arrayBuffer file) = Returns None
            \/ XLSX_first_sheet (Http.arrayBuffer file) = Returns (Some [])
            \/ exists e, XLSX_first_sheet (Http.arrayBuffer file) = Throws e))
    \/ (fileExt (Http.name file) = "csv"
        /\ csvResolved (csvHeaders (csvLines (Http.text file))) = false) ->
    handleUpload ArrayBuffer Bytes XLSX_first_sheet Number_toString
                 clock uuid req sessions
    = (jsonResponse Bytes 200
         (Http.PUpload uuid (Http.name file) "USD" (generateReport [])),
       Session.set uuid
         {| Session.sessionId := uuid;
            Session.transactions := [];
            Session.fileName := Http.name file;
            Session.currency := "USD";
            Session.conversationHistory := [] |} sessions)
    /\ summary (healthScore (generateReport [])) = "No data available".
Proof.
  intros clock uuid req sessions file Hform Hcase.
  split; [|reflexivity].
  unfold handleUpload. rewrite Hform. cbv zeta.
  destruct Hcase as [Hpdf|[[Hext Hlib]|[Hext Hres]]].
  - rewrite Hpdf. reflexivity.
  - assert (Hcsv : String.eqb (fileExt (Http.name file)) "csv" = false)
      by (destruct Hext as [-> | ->]; reflexivity).
    assert (Hxl : String.eqb (fileExt (Http.name file)) "xlsx"
                  || String.eqb (fileExt (Http.name file)) "xls" = true)
      by (destruct Hext as [-> | ->]; reflexivity).
    rewrite Hcsv, Hxl. unfold parseExcel.
    destruct Hlib as [-> | [-> | [e ->]]]; reflexivity.
  - assert (Hp : parseCSV clock (Http.text file) = Returns []).
    { rewrite parseCSV_outcome. cbv zeta. rewrite Hres.
      now destruct (_ <? 2). }
    rewrite Hext, String.eqb_refl, Hp. reflexivity.
Qed.

End Handlers.

(** ** The chat *)

Module ChatFacts.

Lemma chunk_returns e :
  e <> JSON.JNull -> exists c, chunk e = Returns c.
Proof. destruct e; [congruence | | | | |]; intros _; eexists; reflexivity. Qed.

Lemma collect_returns : forall events acc,
  Forall (fun e => e <> JSON.JNull) events ->
  exists full, collect events acc = Returns full.
Proof.
  induction events as [|e events IH]; intros acc H; [now exists acc|].
  cbn [collect].
  destruct (chunk_returns e (Forall_inv H)) as [c ->].
  apply IH. now apply Forall_inv_tail in H.
Qed.

Lemma collect_null : forall events acc,
  In JSON.JNull events -> collect events acc = Throws TypeError.
Proof.
  induction events as [|e events IH]; intros acc Hin; [destruct Hin|].
  cbn [collect]. destruct Hin as [->|Hin]; [reflexivity|].
  destruct (chunk e) as [c|x]; [now apply IH | apply ServerFacts.throws_TypeError].
Qed.

Lemma collect_cases : forall events acc,
  (exists full, collect events acc = Returns full
                /\ Forall (fun e => e <> JSON.JNull) events)
  \/ (collect events acc = Throws TypeError /\ In JSON.JNull events).
Proof.
  induction events as [|e events IH]; intros acc.
  - left. exists acc. split; [reflexivity | constructor].
  - assert (He : e = JSON.JNull \/ e <> JSON.JNull)
      by (destruct e; [now left | right | right | right | right | right];
          discriminate).
    destruct He as [->|He].
    + right. split; [reflexivity | now left].
    + destruct (chunk_returns e He) as [c Hc]. cbn [collect]. rewrite Hc.
      destruct (IH (acc ++ c)%string) as [(full & Hf & Hall)|[Hf Hin]].
      * left. exists full. split; [exact Hf | now constructor].
      * right. split; [exact Hf | now right].
Qed.

Lemma finalTextOf_truthy full : JSString.truthy (finalTextOf full) = true.
Proof.
  unfold finalTextOf.
  destruct (JSString.truthy (JSString.trim full)) eqn:E; [exact E | reflexivity].
Qed.

Lemma shouldUpdateReport_spec q :
  shouldUpdateReport q = true
  <-> exists word, In word reportWords /\ Substring word q.
Proof.
  unfold shouldUpdateReport, reportWords.
  rewrite !orb_true_iff, !StringFacts.includes_spec. split.
  - intros H. repeat destruct H as [H|H];
      eexists; (split; [|exact H]); simpl; tauto.
  - intros (word & Hin & Hs). simpl in Hin.
    repeat (destruct Hin as [<-|Hin]; [tauto|]). destruct Hin.
Qed.

Lemma sliceLast_nil {A} n (l : list A) :
  0 < n -> JSArray.sliceLast n l = [] -> l = [].
Proof.
  unfold JSArray.sliceLast. intros Hn H.
  destruct l as [|x l]; [reflexivity|].
  assert (Hlen : List.length (skipn (List.length (x :: l) - n) (x :: l)) = 0)
    by now rewrite H.
  rewrite length_skipn in Hlen. cbn [List.length] in Hlen. lia.
Qed.

Lemma value_induction (P : JSON.value -> Prop) :
  P JSON.JNull ->
  (forall b, P (JSON.JBoolean b)) ->
  (forall x, P (JSON.JNumber x)) ->
  (forall s, P (JSON.JString s)) ->
  (forall a, Forall P a -> P (JSON.JArray a)) ->
  (forall o, P (JSON.JObject o)) ->
  forall v, P v.
Proof.
  intros Hnull Hbool Hnum Hstr Harr Hobj. fix IH 1.
  intros [|b|x|s|a|o];
    [exact Hnull | apply Hbool | apply Hnum | apply Hstr | | apply Hobj].
  apply Harr. revert a. fix IHa 1. intros [|v a]; constructor.
  - apply IH.
  - apply IHa.
Qed.

Section Prompt.

Context {runtime : Runtime}.
Variable Number_toString : number -> string.
Variable Number_toFixed : number -> nat -> string.

Lemma toString_array x rest :
  JSON.toString Number_toString (JSON.JArray (x :: rest))
  = match match x with
          | JSON.JNull => Returns ""
          | _ => JSON.toString Number_toString x
          end with
    | Throws e => Throws e
    | Returns head =>
        match rest with
        | [] => Returns head
        | _ =>
            match JSON.toString Number_toString (JSON.JArray rest) with
            | Throws e => Throws e
            | Returns tail => Returns (head ++ "," ++ tail)%string
            end
        end
    end.
Proof. reflexivity. Qed.

(** The conversion of a value read from JSON raises exactly when an
    object with a property [toString] of its own is reached. *)
Lemma toString_cases v :
  (JSON.hidesToString v = true
   /\ JSON.toString Number_toString v = Throws TypeError)
  \/ (JSON.hidesToString v = false
      /\ exists s, JSON.toString Number_toString v = Returns s).
Proof.
  induction v as [|b|x|s|a Ha|o] using value_induction;
    try (right; split; [reflexivity | eexists; reflexivity]).
  - destruct b; right; split; reflexivity || (eexists; reflexivity).
  - induction Ha as [|x rest Hx _ IH].
    + right. split; [reflexivity | eexists; reflexivity].
    + rewrite toString_array.
      change (JSON.hidesToString (JSON.JArray (x :: rest)))
        with (JSON.hidesToString x || JSON.hidesToString (JSON.JArray rest)).
      assert (Hhead :
                (JSON.hidesToString x = true
                 /\ match x with
                    | JSON.JNull => Returns ""
                    | _ => JSON.toString Number_toString x
                    end = Throws TypeError)
                \/ (JSON.hidesToString x = false
                    /\ exists s, match x with
                                 | JSON.JNull => Returns ""
                                 | _ => JSON.toString Number_toString x
                                 end = Returns s)).
      { destruct x; try exact Hx.
        right. split; [reflexivity | eexists; reflexivity]. }
      destruct Hhead as [[Hh Ht]|[Hh [head Ht]]]; rewrite Hh, Ht.
      { left. split; reflexivity. }
      cbn [orb].
      destruct IH as [[Hr Hs]|[Hr [tail Hs]]]; rewrite Hr, Hs.
      * destruct rest as [|y rest]; [discriminate Hr|].
        left. split; reflexivity.
      * right. split; [reflexivity|].
        destruct rest; eexists; reflexivity.
  - cbn [JSON.hidesToString JSON.toString].
    destruct (JSObject.get "toString" o);
      [left | right]; split; reflexivity || (eexists; reflexivity).
Qed.

Lemma historyText_last8 h1 h2 :
  JSArray.sliceLast 8 h1 = JSArray.sliceLast 8 h2 ->
  historyText Number_toString h1 = historyText Number_toString h2.
Proof.
  intros H. unfold historyText. rewrite H.
  destruct h1 as [|m1 h1].
  - symmetry in H. apply sliceLast_nil in H; [|lia]. now subst.
  - destruct h2 as [|m2 h2]; [|reflexivity].
    apply sliceLast_nil in H; [discriminate H | lia].
Qed.

Lemma agentTask_last8 report h1 h2 message :
  JSArray.sliceLast 8 h1 = JSArray.sliceLast 8 h2 ->
  agentTask Number_toString Number_toFixed report h1 message
  = agentTask Number_toString Number_toFixed report h2 message.
Proof.
  intros H. unfold agentTask. now rewrite (historyText_last8 h1 h2 H).
Qed.

End Prompt.

Section Cases.

Context {runtime : Runtime}.
Variable ArrayBuffer : Type.
Variable Bytes : Type.
Variable Number_toString : number -> string.
Variable Number_toFixed : number -> nat -> string.
Variable runTask : string -> string -> outcome (list JSON.value).

(** [chatWithAgent] once the report and the task have been made. *)
Lemma chatWithAgent_task data message report prompt :
  generateReportOf Number_toString (Session.transactions data)
  = Returns report ->
  agentTask Number_toString Number_toFixed report
            (Session.conversationHistory data) message
  = Returns prompt ->
  chatWithAgent Number_toString Number_toFixed runTask data message
  = match runTask prompt taskModel with
    | Throws _ => Returns (agentError, data)
    | Returns events =>
        match collect events "" with
        | Throws _ => Returns (agentError, data)
        | Returns full =>
            match message with
            | JSON.JString s =>
                Returns
                  ({| chat_message := finalTextOf full;
                      chat_report :=
                        if shouldUpdateReport (JSString.toLowerCase s)
                        then Some report else None |},
                   withExchange data message (finalTextOf full))
            | _ =>
                Returns (agentError,
                         withExchange data message (finalTextOf full))
            end
        end
    end.
Proof.
  intros Hr Ht. unfold chatWithAgent, agentTask, taskModel in *.
  rewrite Hr. cbv zeta.
  destruct (historyText Number_toString (Session.conversationHistory data))
    as [history|e]; [|discriminate Ht].
  destruct (systemPrompt Number_toString Number_toFixed report)
    as [system|e]; [|discriminate Ht].
  rewrite Ht. reflexivity.
Qed.

(** What a call of [chatWithAgent] that returns leaves of the session. *)
Lemma chatWithAgent_data data message reply data' :
  chatWithAgent Number_toString Number_toFixed runTask data message
  = Returns (reply, data') ->
  data' = data
  \/ exists full, data' = withExchange data message (finalTextOf full).
Proof.
  unfold chatWithAgent.
  destruct (generateReportOf Number_toString (Session.transactions data))
    as [report|e]; [|intros H; discriminate H].
  cbv zeta.
  destruct (historyText Number_toString (Session.conversationHistory data))
    as [history|e]; [|intros H; discriminate H].
  destruct (systemPrompt Number_toString Number_toFixed report)
    as [system|e]; [|intros H; discriminate H].
  destruct (taskPrompt Number_toString system history message) as [prompt|e];
    [|intros H; injection H as _ <-; now left].
  destruct (runTask _ _) as [events|e];
    [|intros H; injection H as _ <-; now left].
  destruct (collect events "") as [full|e];
    [|intros H; injection H as _ <-; now left].
  intros H. right. exists full.
  destruct message; injection H as _ <-; reflexivity.
Qed.

Lemma traverse_throws {A B} (f : A -> outcome B) x : forall l,
  In x l -> f x = Throws TypeError -> traverse f l = Throws TypeError.
Proof.
  induction l as [|y l IH]; intros Hin Hx; [destruct Hin|].
  cbn [traverse]. destruct Hin as [->|Hin]; [now rewrite Hx|].
  destruct (f y) as [b|e]; [|apply ServerFacts.throws_TypeError].
  now rewrite (IH Hin Hx).
Qed.

(** The system prompt cannot be made of a report with a text among the
    values of its categories or of its months. *)
Lemma systemPrompt_text report name before object after :
  In (name, JSValue.Str before object after)
     (JSObject.entries (byCategory report))
  \/ In (name, JSValue.Str before object after)
        (JSObject.entries (byMonth report)) ->
  systemPrompt Number_toString Number_toFixed report = Throws TypeError.
Proof.
  intros Hin. unfold systemPrompt.
  destruct Hin as [Hin|Hin].
  - rewrite (traverse_throws (amountLine Number_toFixed)
               (name, JSValue.Str before object after));
      [reflexivity | | reflexivity].
    unfold JSArray.sortBy.
    eapply Permutation_in; [|exact Hin].
    apply Permutation_sym, SortFacts.sort_perm.
  - destruct (traverse (amountLine Number_toFixed) _) as [lines|e];
      [|apply ServerFacts.throws_TypeError].
    rewrite (traverse_throws (amountLine Number_toFixed)
               (name, JSValue.Str before object after));
      [reflexivity | | reflexivity].
    unfold JSArray.sortBy.
    eapply Permutation_in; [|exact Hin].
    apply Permutation_sym, SortFacts.sort_perm.
Qed.

End Cases.

End ChatFacts.

Section Chat.

Context {runtime : Runtime}.
Variable ArrayBuffer : Type.
Variable Bytes : Type.
Variable Number_toString : number -> string.
Variable Number_toFixed : number -> nat -> string.
Variable runTask : string -> string -> outcome (list JSON.value).

(** What [handleChat] does, case by case. *)
Lemma handleChat_cases (req : Http.Request ArrayBuffer) sessions :
  let result :=
    handleChat ArrayBuffer Bytes Number_toString Number_toFixed runTask
               req sessions in
  (result = (jsonResponse Bytes 500 (Http.PError "Failed to process chat"),
             sessions))
  \/ (result
      = (jsonResponse Bytes 400 (Http.PError "Missing sessionId or message"),
         sessions))
  \/ (result = (jsonResponse Bytes 404 (Http.PError "Invalid session"),
                sessions))
  \/ exists body id message data reply data',
       Http.json req = Returns body
       /\ JSON.member "sessionId" body = Some (JSON.JString id)
       /\ JSON.member "message" body = Some message
       /\ JSON.truthy message = true
       /\ Session.get id sessions = Some data
       /\ chatWithAgent Number_toString Number_toFixed runTask data message
          = Returns (reply, data')
       /\ result
          = (jsonResponse Bytes 200
               (Http.PChat (chat_message reply) (chat_report reply)),
             Session.set id data' sessions).
Proof.
  intros result. unfold result, handleChat.
  destruct (Http.json req) as [body|e]; [|now left].
  destruct body as [|b|x|s|a|o];
    [now left | right; now left .. |].
  cbn [JSON.member].
  destruct (JSObject.get "sessionId" o) as [sid|] eqn:Hsid;
    [|right; now left].
  destruct (JSObject.get "message" o) as [msg|] eqn:Hmsg;
    [|right; now left].
  destruct (negb (JSON.truthy sid) || negb (JSON.truthy msg)) eqn:Hf;
    [right; now left|].
  apply orb_false_iff in Hf. destruct Hf as [_ Hm].
  apply negb_false_iff in Hm.
  destruct sid as [|b|x|id|a|o']; try (right; right; now left).
  destruct (Session.get id sessions) as [data|] eqn:Hget;
    [|right; right; now left].
  destruct (chatWithAgent Number_toString Number_toFixed runTask data msg)
    as [[reply data']|e] eqn:Hchat; [|now left].
  right; right; right.
  exists (JSON.JObject o), id, msg, data, reply, data'.
  cbn [JSON.member]. repeat split; assumption || reflexivity.
Qed.

(** X15.  A chat request is answered with status 200, 400, 404 or 500,
    and unless the status is 200 the body is an error object and the store
    is as before.  A body with a missing or falsy [sessionId] or [message]
    gives 400; truthy ones with a [sessionId] that is not the id of a
    session (or not a string) give 404; a body that cannot be read, or is
    [null], gives 500. *)
Theorem chat_rejections_keep_the_store :
  forall (req : Http.Request ArrayBuffer) (sessions : Session.Store),
    let result :=
      handleChat ArrayBuffer Bytes Number_toString Number_toFixed runTask
                 req sessions in
    In (Http.status (fst result)) [200; 400; 404; 500]
    /\ (Http.status (fst result) <> 200 ->
        snd result = sessions
        /\ exists error,
             fst result = jsonResponse Bytes (Http.status (fst result))
                                       (Http.PError error))
    /\ (forall body,
          Http.json req = Returns body -> body <> JSON.JNull ->
          JSON.falsy (JSON.member "sessionId" body)
          || JSON.falsy (JSON.member "message" body) = true ->
          fst result
          = jsonResponse Bytes 400
                         (Http.PError "Missing sessionId or message"))
    /\ (forall body sessionId message,
          Http.json req = Returns body ->
          JSON.member "sessionId" body = Some sessionId ->
          JSON.member "message" body = Some message ->
          JSON.truthy sessionId = true -> JSON.truthy message = true ->
          (forall id, sessionId = JSON.JString id ->
                      Session.get id sessions = None) ->
          fst result = jsonResponse Bytes 404 (Http.PError "Invalid session"))
    /\ ((exists e, Http.json req = Throws e)
        \/ Http.json req = Returns JSON.JNull ->
        fst result
        = jsonResponse Bytes 500 (Http.PError "Failed to process chat")).
Proof.
  intros req sessions result.
  split; [|split; [|split; [|split]]].
  - destruct (handleChat_cases req sessions)
      as [H|[H|[H|(body & id & msg & data & reply & data' & _ & _ & _ & _ & _
                   & _ & H)]]];
      unfold result; rewrite H; simpl; tauto.
  - destruct (handleChat_cases req sessions)
      as [H|[H|[H|(body & id & msg & data & reply & data' & _ & _ & _ & _ & _
                   & _ & H)]]];
      unfold result; rewrite H; cbn [fst snd jsonResponse Http.newResponse Http.status];
      intros Hs; try congruence; (split; [reflexivity | eexists; reflexivity]).
  - intros body Hb Hnn Hf. unfold result, handleChat. rewrite Hb.
    destruct body as [|b|x|s|a|o]; try congruence; try reflexivity.
    cbn [JSON.member] in *.
    destruct (JSObject.get "sessionId" o) as [sid|]; [|reflexivity].
    destruct (JSObject.get "message" o) as [msg|]; [|reflexivity].
    cbn [JSON.falsy] in Hf. now rewrite Hf.
  - intros body sid msg Hb Hsid Hmsg Hts Htm Hnone.
    unfold result, handleChat. rewrite Hb.
    destruct body as [|b|x|s|a|o]; try discriminate Hsid.
    cbn [JSON.member] in *. rewrite Hsid, Hmsg, Hts, Htm. cbn [negb orb].
    destruct sid as [|b|x|id|a|o']; try reflexivity.
    now rewrite (Hnone id eq_refl).
  - intros [[e He]|He]; unfold result, handleChat; rewrite He; reflexivity.
Qed.

(** X16.  A chat answered with status 200 was addressed to a session of
    the store; afterwards the store has the same sessions, the others are
    as they were, and the one addressed has the same id, transactions, file
    name and currency, and a history that is either unchanged or longer by
    two entries: the message, as the user's, and an answer that is not
    empty, as the assistant's. *)
Theorem chat_changes_only_the_history :
  forall (req : Http.Request ArrayBuffer) (sessions : Session.Store),
    let result :=
      handleChat ArrayBuffer Bytes Number_toString Number_toFixed runTask
                 req sessions in
    Http.status (fst result) = 200 ->
    exists body id message data data',
      Http.json req = Returns body
      /\ JSON.member "sessionId" body = Some (JSON.JString id)
      /\ JSON.member "message" body = Some message
      /\ Session.get id sessions = Some data
      /\ Session.get id (snd result) = Some data'
      /\ Session.sessionId data' = Session.sessionId data
      /\ Session.transactions data' = Session.transactions data
      /\ Session.fileName data' = Session.fileName data
      /\ Session.currency data' = Session.currency data
      /\ (Session.conversationHistory data' = Session.conversationHistory data
          \/ exists answer,
               JSString.truthy answer = true
               /\ Session.conversationHistory data'
                  = Session.conversationHistory data
                    ++ [ {| Session.role := Session.User;
                            Session.content := message |};
                         {| Session.role := Session.Assistant;
                            Session.content := JSON.JString answer |} ])
      /\ map fst (snd result) = map fst sessions
      /\ (forall id', id' <> id ->
            Session.get id' (snd result) = Session.get id' sessions)
      /\ exists reply report,
           Http.body (fst result) = Http.BJson (Http.PChat reply report).
Proof.
  intros req sessions result.
  destruct (handleChat_cases req sessions)
    as [H|[H|[H|(body & id & msg & data & reply & data' & Hb & Hsid & Hmsg
                 & Htm & Hget & Hchat & H)]]];
    unfold result; rewrite H; cbn [fst snd jsonResponse Http.newResponse Http.status];
    try (intros Hs; discriminate Hs).
  intros _. exists body, id, msg, data, data'.
  split; [exact Hb|]. split; [exact Hsid|]. split; [exact Hmsg|].
  split; [exact Hget|]. split; [apply ServerFacts.session_get_same|].
  assert (Hdata' : data' = data
                   \/ exists full, data' = withExchange data msg (finalTextOf full))
    by exact (ChatFacts.chatWithAgent_data
                Number_toString Number_toFixed runTask data msg reply data'
                Hchat).
  assert (Hfields : Session.sessionId data' = Session.sessionId data
                    /\ Session.transactions data' = Session.transactions data
                    /\ Session.fileName data' = Session.fileName data
                    /\ Session.currency data' = Session.currency data).
  { destruct Hdata' as [->|[full ->]]; repeat split; reflexivity. }
  destruct Hfields as (H1 & H2 & H3 & H4).
  split; [exact H1|]. split; [exact H2|]. split; [exact H3|].
  split; [exact H4|]. split.
  { destruct Hdata' as [->|[full ->]]; [now left|].
    right. exists (finalTextOf full).
    split; [apply ChatFacts.finalTextOf_truthy | reflexivity]. }
  split; [now apply ServerFacts.keys_set_present with data|].
  split; [intros id' Hid; now apply ServerFacts.session_get_other|].
  eexists _, _. reflexivity.
Qed.

(** X17.  When the task has been made of the report, the history and the
    message, the agent delivers its events and the message is a string,
    the reply is what the events contribute, concatenated and trimmed, or
    a fixed sentence when that is empty, and so never empty; the message
    and the reply are pushed on the history; and the reply carries the
    report exactly when the message, in lower case, contains one of the
    words "analy", "report", "chart", "trend", "budget", "forecast",
    "update". *)
Theorem chat_reply_and_history :
  forall (data : Session.Data) (s : string) (report : Report)
         (prompt : string) (events : list JSON.value),
    generateReportOf Number_toString (Session.transactions data)
    = Returns report ->
    agentTask Number_toString Number_toFixed report
              (Session.conversationHistory data) (JSON.JString s)
    = Returns prompt ->
    runTask prompt taskModel = Returns events ->
    Forall (fun e => e <> JSON.JNull) events ->
    exists full result,
      collect events "" = Returns full
      /\ chatWithAgent Number_toString Number_toFixed runTask data
                       (JSON.JString s)
         = Returns (result,
                    withExchange data (JSON.JString s) (finalTextOf full))
      /\ chat_message result = finalTextOf full
      /\ JSString.truthy (chat_message result) = true
      /\ (chat_report result = Some report
          \/ chat_report result = None)
      /\ (chat_report result = Some report
          <-> exists word,
                In word reportWords
                /\ Substring word (JSString.toLowerCase s)).
Proof.
  intros data s report prompt events Hreport Htask Hrun Hall.
  destruct (ChatFacts.collect_returns events "" Hall) as [full Hfull].
  exists full. eexists. split; [exact Hfull|].
  rewrite (ChatFacts.chatWithAgent_task Number_toString Number_toFixed runTask
             data (JSON.JString s) report prompt Hreport Htask).
  rewrite Hrun, Hfull.
  split; [reflexivity|]. cbn [chat_message chat_report].
  split; [reflexivity|]. split; [apply ChatFacts.finalTextOf_truthy|].
  rewrite <- ChatFacts.shouldUpdateReport_spec.
  destruct (shouldUpdateReport (JSString.toLowerCase s)).
  - split; [now left|]. split; reflexivity || auto.
  - split; [now right|]. split; intros H; discriminate H.
Qed.

(** X18.  A failure of the agent is not an error of the request: when
    running the task that has been made of the report, the history and the
    message raises, or delivers a [null] event, the chat is
    answered with status 200 and the sentence "I encountered an error.
    Please try again with a simpler question.", without a report, and the
    store keeps the session as it was. *)
Theorem agent_failure_is_answered_with_200 :
  forall (req : Http.Request ArrayBuffer) (sessions : Session.Store)
         (body : JSON.value) (id : string) (message : JSON.value)
         (data : Session.Data) (report : Report) (prompt : string),
    Http.json req = Returns body ->
    JSON.member "sessionId" body = Some (JSON.JString id) ->
    JSON.member "message" body = Some message ->
    JSString.truthy id = true -> JSON.truthy message = true ->
    Session.get id sessions = Some data ->
    generateReportOf Number_toString (Session.transactions data)
    = Returns report ->
    agentTask Number_toString Number_toFixed report
              (Session.conversationHistory data) message
    = Returns prompt ->
    ((exists e, runTask prompt taskModel = Throws e)
     \/ exists events,
          runTask prompt taskModel = Returns events
          /\ In JSON.JNull events) ->
    let result :=
      handleChat ArrayBuffer Bytes Number_toString Number_toFixed runTask
                 req sessions in
    fst result
    = jsonResponse Bytes 200
        (Http.PChat
           "I encountered an error. Please try again with a simpler question."
           None)
    /\ forall id', Session.get id' (snd result) = Session.get id' sessions.
Proof.
  intros req sessions body id message data report prompt Hb Hsid Hmsg Hid Htm
         Hget Hreport Htask Hfail result.
  assert (Hchat : chatWithAgent Number_toString Number_toFixed runTask
                                data message
                  = Returns (agentError, data)).
  { rewrite (ChatFacts.chatWithAgent_task Number_toString Number_toFixed
               runTask data message report prompt Hreport Htask).
    destruct Hfail as [[e ->]|(events & -> & Hin)]; [reflexivity|].
    now rewrite (ChatFacts.collect_null events "" Hin). }
  unfold result, handleChat. rewrite Hb.
  destruct body as [|b|x|s|a|o]; try discriminate Hsid.
  cbn [JSON.member] in *. rewrite Hsid, Hmsg. cbn [JSON.truthy].
  rewrite Hid, Htm. cbn [negb orb]. rewrite Hget, Hchat. cbn [fst snd].
  split; [reflexivity|].
  intros id'. rewrite ServerFacts.session_get_set.
  destruct (String.eqb_spec id' id) as [->|_]; [now rewrite Hget | reflexivity].
Qed.

(** X19.  A message that is truthy but not a string is put into the task
    by its conversion to a string.  The conversion raises exactly when the
    message is an object with a property [toString] of its own, or an array
    that holds one at some depth: then the agent is not run, nothing is
    pushed on the history, and the reply is the error sentence, without a
    report.  Otherwise the agent is run on the task like on any other; when
    it delivers its events the exchange is pushed on the history, and the
    reply is nevertheless the error sentence, without a report, since the
    message cannot be lower-cased. *)
Theorem message_that_is_no_string :
  forall (data : Session.Data) (message : JSON.value) (report : Report)
         (history system : string),
    (forall s, message <> JSON.JString s) ->
    generateReportOf Number_toString (Session.transactions data)
    = Returns report ->
    historyText Number_toString (Session.conversationHistory data)
    = Returns history ->
    systemPrompt Number_toString Number_toFixed report = Returns system ->
    let chat :=
      chatWithAgent Number_toString Number_toFixed runTask data message in
    (JSON.hidesToString message = true ->
     JSON.toString Number_toString message = Throws TypeError
     /\ chat = Returns (agentError, data))
    /\ (JSON.hidesToString message = false ->
        exists text prompt,
          JSON.toString Number_toString message = Returns text
          /\ taskPrompt Number_toString system history message
             = Returns prompt
          /\ agentTask Number_toString Number_toFixed report
                       (Session.conversationHistory data) message
             = Returns prompt
          /\ forall events,
               runTask prompt taskModel = Returns events ->
               Forall (fun e => e <> JSON.JNull) events ->
               exists full,
                 collect events "" = Returns full
                 /\ chat
                    = Returns (agentError,
                               withExchange data message (finalTextOf full))).
Proof.
  intros data message report history system Hns Hreport Hhistory Hsystem chat.
  destruct (ChatFacts.toString_cases Number_toString message)
    as [[Hh Ht]|[Hh [text Ht]]]; rewrite Hh.
  - split; [|intros H; discriminate H]. intros _. split; [exact Ht|].
    unfold chat, chatWithAgent. rewrite Hreport. cbv zeta.
    rewrite Hhistory, Hsystem. unfold taskPrompt. now rewrite Ht.
  - split; [intros H; discriminate H|]. intros _.
    assert (Hprompt : exists prompt,
               taskPrompt Number_toString system history message
               = Returns prompt).
    { unfold taskPrompt. rewrite Ht. eexists. reflexivity. }
    destruct Hprompt as [prompt Hprompt].
    assert (Htask : agentTask Number_toString Number_toFixed report
                              (Session.conversationHistory data) message
                    = Returns prompt).
    { unfold agentTask. now rewrite Hhistory, Hsystem. }
    exists text, prompt.
    split; [exact Ht|]. split; [exact Hprompt|]. split; [exact Htask|].
    intros events Hrun Hall.
    destruct (ChatFacts.collect_returns events "" Hall) as [full Hfull].
    exists full. split; [exact Hfull|].
    unfold chat.
    rewrite (ChatFacts.chatWithAgent_task Number_toString Number_toFixed
               runTask data message report prompt Hreport Htask).
    rewrite Hrun, Hfull.
    destruct message as [|b|x|s|a|o]; try reflexivity.
    exfalso. now apply (Hns s).
Qed.

(** X20.  The agent is given the last eight entries of the history and
    nothing of the earlier ones: two sessions with the same transactions
    whose histories agree on their last eight entries get the same
    result for the same message. *)
Theorem chat_sees_the_last_eight_entries :
  forall (data1 data2 : Session.Data) (message : JSON.value),
    Session.transactions data1 = Session.transactions data2 ->
    JSArray.sliceLast 8 (Session.conversationHistory data1)
    = JSArray.sliceLast 8 (Session.conversationHistory data2) ->
    match chatWithAgent Number_toString Number_toFixed runTask data1 message,
          chatWithAgent Number_toString Number_toFixed runTask data2 message
    with
    | Returns (result1, _), Returns (result2, _) => result1 = result2
    | Throws _, Throws _ => True
    | _, _ => False
    end.
Proof.
  intros data1 data2 message Htx Hlast. unfold chatWithAgent.
  rewrite Htx.
  destruct (generateReportOf Number_toString (Session.transactions data2))
    as [report|e]; [|exact I].
  cbv zeta.
  rewrite (ChatFacts.historyText_last8 Number_toString _ _ Hlast).
  destruct (historyText Number_toString (Session.conversationHistory data2))
    as [history|e]; [|exact I].
  destruct (systemPrompt Number_toString Number_toFixed report)
    as [system|e]; [|exact I].
  destruct (taskPrompt Number_toString system history message)
    as [prompt|e]; [|reflexivity].
  destruct (runTask _ _) as [events|e]; [|reflexivity].
  destruct (collect events "") as [full|e]; [|reflexivity].
  destruct message; reflexivity.
Qed.

(** X29.  A chat on a session whose report holds a text in place of the
    sum of a category or of a month, as it does for a category or a month
    named like a method every object inherits, is answered with status
    500, "Failed to process chat": [toFixed] is called on the text while
    the system prompt is made, before the [try] block.  The agent is not
    run and the store stays as it was. *)
Theorem chat_on_a_grouping_that_is_text :
  forall (req : Http.Request ArrayBuffer) (sessions : Session.Store)
         (body : JSON.value) (id : string) (message : JSON.value)
         (data : Session.Data) (report : Report)
         (name : string) (before : list JSValue.Atom)
         (object : JSObject.Inherited) (after : list JSValue.Piece),
    Http.json req = Returns body ->
    JSON.member "sessionId" body = Some (JSON.JString id) ->
    JSON.member "message" body = Some message ->
    JSString.truthy id = true -> JSON.truthy message = true ->
    Session.get id sessions = Some data ->
    generateReportOf Number_toString (Session.transactions data)
    = Returns report ->
    In (name, JSValue.Str before object after)
       (JSObject.entries (byCategory report))
    \/ In (name, JSValue.Str before object after)
          (JSObject.entries (byMonth report)) ->
    chatWithAgent Number_toString Number_toFixed runTask data message
    = Throws TypeError
    /\ handleChat ArrayBuffer Bytes Number_toString Number_toFixed runTask
                  req sessions
       = (jsonResponse Bytes 500 (Http.PError "Failed to process chat"),
          sessions).
Proof.
  intros req sessions body id message data report name before object after
         Hb Hsid Hmsg Hid Htm Hget Hreport Hin.
  assert (Hchat : chatWithAgent Number_toString Number_toFixed runTask
                                data message
                  = Throws TypeError).
  { unfold chatWithAgent. rewrite Hreport. cbv zeta.
    destruct (historyText Number_toString (Session.conversationHistory data))
      as [history|e]; [|apply ServerFacts.throws_TypeError].
    now rewrite (ChatFacts.systemPrompt_text Number_toString Number_toFixed
                   report name before object after Hin). }
  split; [exact Hchat|].
  unfold handleChat. rewrite Hb.
  destruct body as [|b|x|s|a|o]; try discriminate Hsid.
  cbn [JSON.member] in *. rewrite Hsid, Hmsg. cbn [JSON.truthy].
  rewrite Hid, Htm. cbn [negb orb]. rewrite Hget, Hchat. reflexivity.
Qed.

End Chat.

(** ** The server *)

Section Router.

Context {runtime : Runtime}.
Variable ArrayBuffer : Type.
Variable Bytes : Type.
Variable XLSX_first_sheet : ArrayBuffer -> outcome (option (list Sheet.Row)).
Variable Number_toString : number -> string.
Variable Number_toFixed : number -> nat -> string.
Variable runTask : string -> string -> outcome (list JSON.value).
Variable readFile : string -> outcome Bytes.

Lemma handleUpload_json clock uuid (req : Http.Request ArrayBuffer) sessions :
  exists status payload,
    fst (handleUpload ArrayBuffer Bytes XLSX_first_sheet Number_toString
                      clock uuid req sessions)
    = jsonResponse Bytes status payload.
Proof.
  unfold handleUpload.
  destruct (Http.formFile req) as [[[s|file]|]|e]; cbn [fst];
    try (eexists _, _; reflexivity).
  - destruct (JSString.truthy s); eexists _, _; reflexivity.
  - cbv zeta.
    destruct (String.eqb _ "csv");
      [|destruct (String.eqb _ "xlsx" || String.eqb _ "xls");
        [|destruct (String.eqb _ "pdf")]];
      repeat match goal with
             | |- context [match ?x with Returns _ => _ | Throws _ => _ end] =>
                 destruct x
             end; eexists _, _; reflexivity.
Qed.

Lemma handleChat_json (req : Http.Request ArrayBuffer) sessions :
  exists status payload,
    fst (handleChat ArrayBuffer Bytes Number_toString Number_toFixed runTask
                    req sessions)
    = jsonResponse Bytes status payload.
Proof.
  destruct (handleChat_cases ArrayBuffer Bytes Number_toString Number_toFixed
              runTask req sessions)
    as [H|[H|[H|(body & id & msg & data & reply & data' & _ & _ & _ & _ & _
                 & _ & H)]]];
    rewrite H; eexists _, _; reflexivity.
Qed.

(** X21.  The server answers an OPTIONS request, whatever its path, with
    status 200, the CORS headers and no body, without running a handler.
    The store changes only by a POST to /api/upload or /api/chat; and a
    request that is not OPTIONS and whose path and method are not served
    is answered with 404 and the plain text "Not Found", whose type is the
    only header of the response. *)
Theorem store_changes_only_through_the_api :
  forall (clock : nat -> string) (uuid : string)
         (req : Http.Request ArrayBuffer) (sessions : Session.Store),
    let result :=
      serve ArrayBuffer Bytes XLSX_first_sheet Number_toString Number_toFixed
            runTask readFile clock uuid req sessions in
    (Http.method req = "OPTIONS" ->
     result = ({| Http.status := 200; Http.headers := Http.corsHeaders;
                  Http.body := Http.BNull |}, sessions))
    /\ (snd result <> sessions ->
        Http.method req = "POST"
        /\ (Http.path req = "/api/upload" \/ Http.path req = "/api/chat"))
    /\ (Http.method req <> "OPTIONS" ->
        ~ In (Http.path req) ["/"; "/index.html"; "/sample_txns.csv"] ->
        ~ (Http.method req = "POST"
           /\ In (Http.path req) ["/api/upload"; "/api/chat"]) ->
        result = ({| Http.status := 404;
                     Http.headers :=
                       [("Content-Type", "text/plain;charset=UTF-8")];
                     Http.body := Http.BText "Not Found" |}, sessions)).
Proof.
  intros clock uuid req sessions result. unfold result, serve. cbv zeta.
  split; [|split].
  - intros ->. reflexivity.
  - destruct (String.eqb_spec (Http.method req) "OPTIONS") as [|_];
      [cbn [snd]; congruence|].
    destruct (String.eqb (Http.path req) "/"
              || String.eqb (Http.path req) "/index.html");
      [cbn [snd]; congruence|].
    destruct (String.eqb (Http.path req) "/sample_txns.csv");
      [cbn [snd]; congruence|].
    destruct (String.eqb_spec (Http.path req) "/api/upload") as [Hp|_];
      destruct (String.eqb_spec (Http.method req) "POST") as [Hm|_];
      cbn [andb]; try (intros _; now auto).
    + destruct (String.eqb_spec (Http.path req) "/api/chat") as [Hp'|_];
        cbn [andb snd]; congruence.
    + destruct (String.eqb_spec (Http.path req) "/api/chat") as [Hp'|_];
        cbn [andb snd]; [intros _; now auto | congruence].
    + destruct (String.eqb_spec (Http.path req) "/api/chat") as [Hp'|_];
        cbn [andb snd]; congruence.
  - intros Hm Hstatic Hapi.
    destruct (String.eqb_spec (Http.method req) "OPTIONS") as [|_];
      [contradiction|].
    destruct (String.eqb_spec (Http.path req) "/") as [E|_];
      [exfalso; apply Hstatic; rewrite E; simpl; auto|].
    destruct (String.eqb_spec (Http.path req) "/index.html") as [E|_];
      [exfalso; apply Hstatic; rewrite E; simpl; auto|].
    destruct (String.eqb_spec (Http.path req) "/sample_txns.csv") as [E|_];
      [exfalso; apply Hstatic; rewrite E; simpl; auto|].
    cbn [orb].
    destruct (String.eqb_spec (Http.path req) "/api/upload") as [E1|_];
      destruct (String.eqb_spec (Http.method req) "POST") as [E2|_];
      cbn [andb].
    + exfalso. apply Hapi. rewrite E1. simpl. now auto.
    + destruct (String.eqb (Http.path req) "/api/chat"); reflexivity.
    + destruct (String.eqb_spec (Http.path req) "/api/chat") as [E3|_];
        [exfalso; apply Hapi; rewrite E3; simpl; now auto | reflexivity].
    + destruct (String.eqb (Http.path req) "/api/chat"); reflexivity.
Qed.

(** X22.  What the server answers to a POST to /api/upload or /api/chat
    is the response of the handler, with its status and body, whatever the
    status, and with the three CORS headers after its JSON content type;
    the store is as the handler leaves it. *)
Theorem api_responses_carry_cors :
  forall (clock : nat -> string) (uuid : string)
         (req : Http.Request ArrayBuffer) (sessions : Session.Store),
    Http.method req = "POST" ->
    let result :=
      serve ArrayBuffer Bytes XLSX_first_sheet Number_toString Number_toFixed
            runTask readFile clock uuid req sessions in
    let upload :=
      handleUpload ArrayBuffer Bytes XLSX_first_sheet Number_toString
                   clock uuid req sessions in
    let chat :=
      handleChat ArrayBuffer Bytes Number_toString Number_toFixed runTask
                 req sessions in
    (Http.path req = "/api/upload" ->
     Http.status (fst result) = Http.status (fst upload)
     /\ Http.body (fst result) = Http.body (fst upload)
     /\ Http.headers (fst result)
        = ("Content-Type", "application/json") :: Http.corsHeaders
     /\ snd result = snd upload)
    /\ (Http.path req = "/api/chat" ->
        Http.status (fst result) = Http.status (fst chat)
        /\ Http.body (fst result) = Http.body (fst chat)
        /\ Http.headers (fst result)
           = ("Content-Type", "application/json") :: Http.corsHeaders
        /\ snd result = snd chat).
Proof.
  intros clock uuid req sessions Hm result upload chat.
  unfold result, serve. cbv zeta. rewrite Hm.
  change (String.eqb "POST" "OPTIONS") with false. cbv iota.
  change (String.eqb "POST" "POST") with true.
  split; intros Hp; rewrite Hp.
  - change (String.eqb "/api/upload" "/" || String.eqb "/api/upload" "/index.html")
      with false.
    change (String.eqb "/api/upload" "/sample_txns.csv") with false.
    change (String.eqb "/api/upload" "/api/upload" && true) with true.
    cbv iota. fold upload.
    destruct (handleUpload_json clock uuid req sessions) as (st & p & Hj).
    fold upload in Hj. destruct upload as [response sessions'].
    cbn [fst snd] in *. rewrite Hj. repeat split; reflexivity.
  - change (String.eqb "/api/chat" "/" || String.eqb "/api/chat" "/index.html")
      with false.
    change (String.eqb "/api/chat" "/sample_txns.csv") with false.
    change (String.eqb "/api/chat" "/api/upload" && true) with false.
    change (String.eqb "/api/chat" "/api/chat" && true) with true.
    cbv iota. fold chat.
    destruct (handleChat_json req sessions) as (st & p & Hj).
    fold chat in Hj. destruct chat as [response sessions'].
    cbn [fst snd] in *. rewrite Hj. repeat split; reflexivity.
Qed.

(** X23.  Every response of the server either has the three CORS headers
    or is a plain text with status 404 whose only header is its content
    type, text/plain;charset=UTF-8: the answer to a path or method that is
    not served, and to a static file that cannot be read. *)
Theorem responses_have_cors_or_are_not_found :
  forall (clock : nat -> string) (uuid : string)
         (req : Http.Request ArrayBuffer) (sessions : Session.Store),
    let response :=
      fst (serve ArrayBuffer Bytes XLSX_first_sheet Number_toString
                 Number_toFixed runTask readFile clock uuid req sessions) in
    (forall header, In header Http.corsHeaders ->
                    In header (Http.headers response))
    \/ (Http.status response = 404
        /\ Http.headers response
           = [("Content-Type", "text/plain;charset=UTF-8")]
        /\ exists text, Http.body response = Http.BText text).
Proof.
  intros clock uuid req sessions response. unfold response, serve. cbv zeta.
  destruct (String.eqb (Http.method req) "OPTIONS");
    [left; intros h Hh; exact Hh|].
  destruct (String.eqb (Http.path req) "/"
            || String.eqb (Http.path req) "/index.html").
  { cbn [fst]. unfold staticFile. destruct (readFile _).
    - left. intros h Hh. now right.
    - right. repeat split. now eexists. }
  destruct (String.eqb (Http.path req) "/sample_txns.csv").
  { cbn [fst]. unfold staticFile. destruct (readFile _).
    - left. intros h Hh. now right.
    - right. repeat split. now eexists. }
  destruct (String.eqb (Http.path req) "/api/upload"
            && String.eqb (Http.method req) "POST").
  { destruct (handleUpload_json clock uuid req sessions) as (st & p & Hj).
    destruct (handleUpload _ _ _ _ _ _ _ _) as [r s']. cbn [fst] in *.
    rewrite Hj. left. intros h Hh. now right. }
  destruct (String.eqb (Http.path req) "/api/chat"
            && String.eqb (Http.method req) "POST").
  { destruct (handleChat_json req sessions) as (st & p & Hj).
    destruct (handleChat _ _ _ _ _ _ _) as [r s']. cbn [fst] in *.
    rewrite Hj. left. intros h Hh. now right. }
  right. repeat split. now eexists.
Qed.

End Router.

(** ** The properties of the handlers on concrete requests *)

(** [upload_creates_the_session] on the upload of a CSV file of two
    rows. *)
Lemma upload_creates_the_session_witness :
  let lib := fun _ : unit => @Returns (option (list Sheet.Row)) None in
  let req :=
    {| Http.method := "POST"; Http.path := "/api/upload";
       Http.formFile :=
         Returns (Some (Http.FormFile
           {| Http.name := "january.csv";
              Http.text :=
                ("Date,Merchant,Amount" ++ LF ++ "2024-01-05,Starbucks,4.50"
                 ++ LF ++ "2024-01-06,Uber,12")%string;
              Http.arrayBuffer := tt |}));
       Http.json := Throws TypeError |} in
  let result :=
    handleUpload (runtime := Deno) unit unit lib (fun _ => "0")
                 (fun _ => "2026-11-01T09:30:00.000Z") "session-1" req [] in
  Http.status (fst result) = 200
  /\ exists data,
       Session.get "session-1" (snd result) = Some data
       /\ Session.conversationHistory data = [].
Proof.
  intros lib req result.
  assert (H : Http.status (fst result) = 200) by reflexivity.
  split; [exact H|].
  destruct (upload_creates_the_session (runtime := Deno) unit unit lib (fun _ => "0")
              (fun _ => "2026-11-01T09:30:00.000Z") "session-1" req [] H)
    as (file & transactions & report & _ & _ & _ & _ & Hget & _).
  eexists. split; [exact Hget | reflexivity].
Defined.

(** [upload_of_a_date_that_is_no_string] on a sheet whose date cell holds
    a number. *)
Lemma upload_of_a_date_that_is_no_string_witness :
  let row : Sheet.Row :=
    [("Date", Sheet.VNumber 45296); ("Amount", Sheet.VNumber 12.5)] in
  let lib := fun _ : unit => Returns (Some [row]) in
  let file :=
    {| Http.name := "january.xlsx"; Http.text := "";
       Http.arrayBuffer := tt |} in
  let req :=
    {| Http.method := "POST"; Http.path := "/api/upload";
       Http.formFile := Returns (Some (Http.FormFile file));
       Http.json := Throws TypeError |} in
  let result :=
    handleUpload (runtime := Deno) unit unit lib (fun _ => "12.5")
                 (fun _ => "2026-11-01T09:30:00.000Z") "session-1" req [] in
  sheetCell Sheet.isDateKey row = Sheet.VNumber 45296
  /\ Http.status (fst result) = 500
  /\ exists data, Session.get "session-1" (snd result) = Some data.
Proof.
  intros row lib file req result.
  assert (Hcell : sheetCell Sheet.isDateKey row = Sheet.VNumber 45296)
    by reflexivity.
  split; [exact Hcell|].
  assert (Hform : Http.formFile req = Returns (Some (Http.FormFile file)))
    by reflexivity.
  assert (Hext : fileExt (Http.name file) = "xlsx"
                 \/ fileExt (Http.name file) = "xls") by (left; reflexivity).
  assert (Hlib : lib (Http.arrayBuffer file) = Returns (Some [row]))
    by reflexivity.
  assert (Hin : In row [row]) by (now left).
  assert (Hres : sheetResolved row = true) by reflexivity.
  assert (Htruthy : Sheet.truthy (sheetCell Sheet.isDateKey row) = true)
    by reflexivity.
  assert (Hnostring : forall s, sheetCell Sheet.isDateKey row <> Sheet.VString s)
    by (intros s; rewrite Hcell; discriminate).
  destruct (upload_of_a_date_that_is_no_string (runtime := Deno) unit unit lib (fun _ => "12.5")
              (fun _ => "2026-11-01T09:30:00.000Z") "session-1" req []
              file [row] row Hform Hext Hlib Hin Hres Htruthy Hnostring)
    as (Hresp & transactions & _ & Hget).
  split; [unfold result; now rewrite Hresp|].
  eexists. exact Hget.
Defined.

(** [upload_with_nothing_parsed_succeeds] on a PDF file. *)
Lemma upload_with_nothing_parsed_witness :
  let lib := fun _ : unit => @Returns (option (list Sheet.Row)) None in
  let file :=
    {| Http.name := "statement.PDF"; Http.text := "";
       Http.arrayBuffer := tt |} in
  let req :=
    {| Http.method := "POST"; Http.path := "/api/upload";
       Http.formFile := Returns (Some (Http.FormFile file));
       Http.json := Throws TypeError |} in
  fileExt (Http.name file) = "pdf"
  /\ Http.status
       (fst (handleUpload (runtime := Deno) unit unit lib (fun _ => "0")
               (fun _ => "2026-11-01T09:30:00.000Z") "session-1" req []))
     = 200.
Proof.
  intros lib file req.
  assert (Hext : fileExt (Http.name file) = "pdf") by reflexivity.
  split; [exact Hext|].
  assert (Hform : Http.formFile req = Returns (Some (Http.FormFile file)))
    by reflexivity.
  destruct (upload_with_nothing_parsed_succeeds (runtime := Deno) unit unit lib (fun _ => "0")
              (fun _ => "2026-11-01T09:30:00.000Z") "session-1" req [] file
              Hform (or_introl Hext)) as [-> _].
  reflexivity.
Defined.

(** [chat_changes_only_the_history] on a question to a session without
    transactions. *)
Lemma chat_changes_only_the_history_witness :
  let data :=
    {| Session.sessionId := "session-1"; Session.transactions := [];
       Session.fileName := "january.csv"; Session.currency := "USD";
       Session.conversationHistory := [] |} in
  let sessions := [("session-1", data)] in
  let runTask := fun _ _ : string =>
    Returns [JSON.JObject [("text", JSON.JString "You spent nothing.")]] in
  let req : Http.Request unit :=
    {| Http.method := "POST"; Http.path := "/api/chat";
       Http.formFile := Throws TypeError;
       Http.json :=
         Returns (JSON.JObject
                    [("sessionId", JSON.JString "session-1");
                     ("message", JSON.JString "How much did I spend?")]) |} in
  let result :=
    handleChat (runtime := Deno) unit unit (fun _ => "0") (fun _ _ => "0.00") runTask
               req sessions in
  Http.status (fst result) = 200
  /\ map fst (snd result) = ["session-1"].
Proof.
  intros data sessions runTask req result.
  assert (H : Http.status (fst result) = 200) by reflexivity.
  split; [exact H|].
  destruct (chat_changes_only_the_history (runtime := Deno) unit unit (fun _ => "0")
              (fun _ _ => "0.00") runTask req sessions H)
    as (body & id & message & d & d' & _ & _ & _ & _ & _ & _ & _ & _ & _ & _
        & Hkeys & _).
  exact Hkeys.
Defined.

(** [chat_reply_and_history] on a question that asks for an analysis. *)
Lemma chat_reply_and_history_witness :
  let data :=
    {| Session.sessionId := "session-1"; Session.transactions := [];
       Session.fileName := "january.csv"; Session.currency := "USD";
       Session.conversationHistory := [] |} in
  let events :=
    [JSON.JObject [("text", JSON.JString "You spent ")];
     JSON.JObject [("delta", JSON.JString "nothing. ")]] in
  let runTask := fun _ _ : string => Returns events in
  Forall (fun e => e <> JSON.JNull) events
  /\ exists result data',
       chatWithAgent (runtime := Deno) (fun _ => "0") (fun _ _ => "0.00") runTask data
                     (JSON.JString "Analyze my spending")
       = Returns (result, data')
       /\ chat_report result = Some (generateReport (runtime := Deno) []).
Proof.
  intros data events runTask.
  assert (Hall : Forall (fun e => e <> JSON.JNull) events)
    by (repeat constructor; discriminate).
  split; [exact Hall|].
  destruct (chat_reply_and_history (runtime := Deno) (fun _ => "0") (fun _ _ => "0.00") runTask
              data "Analyze my spending" (generateReport (runtime := Deno) [])
              _ events eq_refl eq_refl eq_refl Hall)
    as (full & result & _ & Hchat & _ & _ & _ & Hiff).
  exists result. eexists. split; [exact Hchat|].
  apply Hiff. exists "analy". split; [now left|].
  apply StringFacts.includes_spec. reflexivity.
Defined.

(** [agent_failure_is_answered_with_200] on an agent that raises. *)
Lemma agent_failure_witness :
  let data :=
    {| Session.sessionId := "session-1"; Session.transactions := [];
       Session.fileName := "january.csv"; Session.currency := "USD";
       Session.conversationHistory := [] |} in
  let sessions := [("session-1", data)] in
  let runTask := fun _ _ : string =>
    @Throws (list JSON.value) TypeError in
  let body :=
    JSON.JObject [("sessionId", JSON.JString "session-1");
                  ("message", JSON.JString "How much did I spend?")] in
  let req : Http.Request unit :=
    {| Http.method := "POST"; Http.path := "/api/chat";
       Http.formFile := Throws TypeError; Http.json := Returns body |} in
  Session.get "session-1" sessions = Some data
  /\ Http.status
       (fst (handleChat (runtime := Deno) unit unit (fun _ => "0") (fun _ _ => "0.00") runTask
                        req sessions))
     = 200.
Proof.
  intros data sessions runTask body req.
  assert (Hget : Session.get "session-1" sessions = Some data) by reflexivity.
  split; [exact Hget|].
  destruct (agent_failure_is_answered_with_200 (runtime := Deno) unit unit (fun _ => "0")
              (fun _ _ => "0.00") runTask req sessions body "session-1"
              (JSON.JString "How much did I spend?") data
              (generateReport (runtime := Deno) []) _
              eq_refl eq_refl eq_refl eq_refl eq_refl Hget eq_refl eq_refl
              (or_introl (ex_intro _ TypeError eq_refl)))
    as [-> _].
  reflexivity.
Defined.

(** [message_that_is_no_string] on a message that is a number and on one
    that is an object with a property [toString]. *)
Lemma message_that_is_no_string_witness :
  let data :=
    {| Session.sessionId := "session-1"; Session.transactions := [];
       Session.fileName := "january.csv"; Session.currency := "USD";
       Session.conversationHistory := [] |} in
  let events := [JSON.JObject [("text", JSON.JString "Forty-two.")]] in
  let runTask := fun _ _ : string => Returns events in
  let hidden := JSON.JObject [("toString", JSON.JNumber 1)] in
  Forall (fun e => e <> JSON.JNull) events
  /\ (exists data',
        chatWithAgent (runtime := Deno) (fun _ => "42") (fun _ _ => "0.00")
                      runTask data (JSON.JNumber 42)
        = Returns (agentError, data')
        /\ List.length (Session.conversationHistory data') = 2)
  /\ chatWithAgent (runtime := Deno) (fun _ => "42") (fun _ _ => "0.00")
                   runTask data hidden
     = Returns (agentError, data).
Proof.
  intros data events runTask hidden.
  assert (Hall : Forall (fun e => e <> JSON.JNull) events)
    by (repeat constructor; discriminate).
  split; [exact Hall|]. split.
  - assert (Hns : forall s, JSON.JNumber 42 <> JSON.JString s)
      by (intros s; discriminate).
    destruct (message_that_is_no_string (runtime := Deno) (fun _ => "42")
                (fun _ _ => "0.00") runTask data (JSON.JNumber 42)
                (generateReport (runtime := Deno) []) _ _
                Hns eq_refl eq_refl eq_refl)
      as [_ Hruns].
    destruct (Hruns eq_refl) as (text & prompt & _ & _ & _ & Hevents).
    destruct (Hevents events eq_refl Hall) as (full & _ & Hchat).
    eexists. split; [exact Hchat | reflexivity].
  - assert (Hns : forall s, hidden <> JSON.JString s)
      by (intros s; discriminate).
    destruct (message_that_is_no_string (runtime := Deno) (fun _ => "42")
                (fun _ _ => "0.00") runTask data hidden
                (generateReport (runtime := Deno) []) _ _
                Hns eq_refl eq_refl eq_refl)
      as [Hraises _].
    exact (proj2 (Hraises eq_refl)).
Defined.

(** [chat_on_a_grouping_that_is_text] on a session with a transaction of
    the category "constructor". *)
Lemma chat_on_a_grouping_that_is_text_witness :
  let data :=
    {| Session.sessionId := "session-1";
       Session.transactions :=
         [ {| Stored.date := Sheet.VString "2024-01-05";
              Stored.merchant := Sheet.VString "Cafe";
              Stored.amount := 5;
              Stored.category := Sheet.VString "constructor";
              Stored.description := None |} ];
       Session.fileName := "january.csv"; Session.currency := "USD";
       Session.conversationHistory := [] |} in
  let sessions := [("session-1", data)] in
  let runTask := fun _ _ : string =>
    Returns [JSON.JObject [("text", JSON.JString "You spent 5.")]] in
  let body :=
    JSON.JObject [("sessionId", JSON.JString "session-1");
                  ("message", JSON.JString "How much did I spend?")] in
  let req : Http.Request unit :=
    {| Http.method := "POST"; Http.path := "/api/chat";
       Http.formFile := Throws TypeError; Http.json := Returns body |} in
  let result :=
    handleChat (runtime := Deno) unit unit (fun _ => "5") (fun _ _ => "5.00")
               runTask req sessions in
  (exists report,
     generateReportOf (runtime := Deno) (fun _ => "5")
                      (Session.transactions data)
     = Returns report
     /\ byCategory report
        = [("constructor",
            JSValue.Str [] (JSObject.Method "constructor")
                        [JSValue.PAtom (JSValue.ANumber 5)])])
  /\ Http.status (fst result) = 500
  /\ snd result = sessions.
Proof.
  intros data sessions runTask body req result.
  assert (Hreport :
            exists report,
              generateReportOf (runtime := Deno) (fun _ => "5")
                               (Session.transactions data)
              = Returns report
              /\ byCategory report
                 = [("constructor",
                     JSValue.Str [] (JSObject.Method "constructor")
                                 [JSValue.PAtom (JSValue.ANumber 5)])]).
  { eexists. split; reflexivity. }
  split; [exact Hreport|].
  destruct Hreport as (report & Hreport & Hcategory).
  assert (Hin : In ("constructor",
                    JSValue.Str [] (JSObject.Method "constructor")
                                [JSValue.PAtom (JSValue.ANumber 5)])
                   (JSObject.entries (byCategory report)))
    by (rewrite Hcategory; now left).
  destruct (chat_on_a_grouping_that_is_text (runtime := Deno) unit unit
              (fun _ => "5") (fun _ _ => "5.00") runTask req sessions body
              "session-1" (JSON.JString "How much did I spend?") data report
              "constructor" [] (JSObject.Method "constructor")
              [JSValue.PAtom (JSValue.ANumber 5)]
              eq_refl eq_refl eq_refl eq_refl eq_refl eq_refl Hreport
              (or_introl Hin))
    as [_ Hchat].
  unfold result. rewrite Hchat. split; reflexivity.
Defined.

(** [chat_sees_the_last_eight_entries] on a history of nine entries and
    the one of its last eight, with an agent that answers with its
    prompt. *)
Lemma chat_sees_the_last_eight_entries_witness :
  let entry := fun (r : Session.Role) (s : string) =>
    {| Session.role := r; Session.content := JSON.JString s |} in
  let recent :=
    [ entry Session.Assistant "a1"; entry Session.User "q2";
      entry Session.Assistant "a2"; entry Session.User "q3";
      entry Session.Assistant "a3"; entry Session.User "q4";
      entry Session.Assistant "a4"; entry Session.User "q5" ] in
  let session := fun history =>
    {| Session.sessionId := "session-1"; Session.transactions := [];
       Session.fileName := "january.csv"; Session.currency := "USD";
       Session.conversationHistory := history |} in
  let runTask := fun (prompt _ : string) =>
    Returns [JSON.JObject [("text", JSON.JString prompt)]] in
  JSArray.sliceLast 8 (entry Session.User "q1" :: recent)
  = JSArray.sliceLast 8 recent
  /\ match chatWithAgent (runtime := Deno) (fun _ => "0") (fun _ _ => "0.00") runTask
                         (session (entry Session.User "q1" :: recent))
                         (JSON.JString "q6"),
           chatWithAgent (runtime := Deno) (fun _ => "0") (fun _ _ => "0.00") runTask
                         (session recent) (JSON.JString "q6")
     with
     | Returns (result1, _), Returns (result2, _) => result1 = result2
     | Throws _, Throws _ => True
     | _, _ => False
     end.
Proof.
  intros entry recent session runTask.
  assert (H : JSArray.sliceLast 8 (entry Session.User "q1" :: recent)
              = JSArray.sliceLast 8 recent) by reflexivity.
  split; [exact H|].
  exact (chat_sees_the_last_eight_entries (runtime := Deno) (fun _ => "0") (fun _ _ => "0.00")
           runTask (session (entry Session.User "q1" :: recent))
           (session recent) (JSON.JString "q6") eq_refl H).
Defined.

(** [api_responses_carry_cors] on an upload without a file. *)
Lemma api_responses_carry_cors_witness :
  let lib := fun _ : unit => @Returns (option (list Sheet.Row)) None in
  let req : Http.Request unit :=
    {| Http.method := "POST"; Http.path := "/api/upload";
       Http.formFile := Returns None; Http.json := Throws TypeError |} in
  let result :=
    serve (runtime := Deno) unit unit lib (fun _ => "0") (fun _ _ => "0.00")
          (fun _ _ => Throws TypeError) (fun _ => Throws TypeError)
          (fun _ => "2026-11-01T09:30:00.000Z") "session-1" req [] in
  Http.method req = "POST"
  /\ Http.status (fst result) = 400
  /\ Http.headers (fst result)
     = ("Content-Type", "application/json") :: Http.corsHeaders.
Proof.
  intros lib req result.
  assert (Hm : Http.method req = "POST") by reflexivity.
  split; [exact Hm|]. split; [reflexivity|].
  destruct (api_responses_carry_cors (runtime := Deno) unit unit lib (fun _ => "0")
              (fun _ _ => "0.00") (fun _ _ => Throws TypeError)
              (fun _ => Throws TypeError)
              (fun _ => "2026-11-01T09:30:00.000Z") "session-1" req [] Hm)
    as [Hupload _].
  destruct (Hupload eq_refl) as (_ & _ & Hheaders & _).
  exact Hheaders.
Defined.

(** ** The store over time *)

Module StoreInvariantFacts.

Lemma pair_ind {A} (P : list A -> Prop) :
  P [] -> (forall x, P [x]) -> (forall x y l, P l -> P (x :: y :: l)) ->
  forall l, P l.
Proof.
  intros H0 H1 H2.
  assert (H : forall l, P l /\ forall x, P (x :: l)).
  { induction l as [|y l [IH IH']]; [split; [exact H0 | exact H1]|].
    split; [apply IH'|]. intros x. now apply H2. }
  intros l. apply H.
Qed.

Lemma exchanges_app history u answer :
  Session.role u = Session.User ->
  JSString.truthy answer = true ->
  exchanges history = true ->
  exchanges (history
             ++ [u; {| Session.role := Session.Assistant;
                       Session.content := JSON.JString answer |}]) = true.
Proof.
  intros Hu Ha. induction history as [|x|x y l IH] using pair_ind.
  - intros _. cbn [app exchanges Session.role Session.content].
    now rewrite Hu, Ha.
  - discriminate.
  - cbn [app exchanges].
    destruct (Session.role x); [|discriminate].
    destruct (Session.role y); [discriminate|].
    destruct (Session.content y); try discriminate.
    destruct (JSString.truthy s); [|discriminate]. exact IH.
Qed.

Lemma session_keys_set id data sessions :
  map fst (Session.set id data sessions)
  = match Session.get id sessions with
    | Some _ => map fst sessions
    | None => map fst sessions ++ [id]
    end.
Proof.
  unfold Session.set, Session.get.
  destruct (JSObject.get id sessions) as [d|].
  - apply (ObjectFacts.keys_overwrite id data sessions).
  - now rewrite map_app.
Qed.

Lemma NoDup_set id data sessions :
  NoDup (map fst sessions) -> NoDup (map fst (Session.set id data sessions)).
Proof.
  intros Hnd. rewrite session_keys_set.
  destruct (Session.get id sessions) eqn:E; [assumption|].
  apply NoDup_app; [assumption | constructor; [intros []|constructor] |].
  intros x Hx [<-|[]].
  unfold Session.get in E. apply ObjectFacts.get_None_keys in E.
  now apply E.
Qed.

(** Storing a session that satisfies the invariant keeps it. *)
Lemma invariant_set id data sessions :
  storeInvariant sessions ->
  Session.sessionId data = id -> Session.currency data = "USD" ->
  exchanges (Session.conversationHistory data) = true ->
  storeInvariant (Session.set id data sessions).
Proof.
  intros [Hnd Hall] H1 H2 H3. split; [now apply NoDup_set|].
  intros id' data'. rewrite ServerFacts.session_get_set.
  destruct (String.eqb_spec id' id) as [->|_].
  - intros [= <-]. auto.
  - apply Hall.
Qed.

Section Steps.

Context {runtime : Runtime}.
Variable ArrayBuffer : Type.
Variable Bytes : Type.
Variable XLSX_first_sheet : ArrayBuffer -> outcome (option (list Sheet.Row)).
Variable Number_toString : number -> string.
Variable Number_toFixed : number -> nat -> string.
Variable runTask : string -> string -> outcome (list JSON.value).
Variable readFile : string -> outcome Bytes.

Lemma handleUpload_store clock uuid (req : Http.Request ArrayBuffer) sessions :
  let sessions' :=
    snd (handleUpload ArrayBuffer Bytes XLSX_first_sheet Number_toString
                      clock uuid req sessions) in
  sessions' = sessions
  \/ exists transactions fileName,
       sessions'
       = Session.set uuid
           {| Session.sessionId := uuid;
              Session.transactions := transactions;
              Session.fileName := fileName;
              Session.currency := "USD";
              Session.conversationHistory := [] |} sessions.
Proof.
  unfold handleUpload.
  destruct (Http.formFile req) as [[[s|file]|]|e]; cbn [snd];
    try (now left).
  - destruct (JSString.truthy s); now left.
  - cbv zeta.
    destruct (String.eqb _ "csv");
      [|destruct (String.eqb _ "xlsx" || String.eqb _ "xls");
        [|destruct (String.eqb _ "pdf")]];
      repeat match goal with
             | |- context [match ?x with Returns _ => _ | Throws _ => _ end] =>
                 destruct x
             end; cbn [snd]; first [ now left | right; eexists _, _; reflexivity ].
Qed.

Lemma handleChat_store (req : Http.Request ArrayBuffer) sessions :
  let sessions' :=
    snd (handleChat ArrayBuffer Bytes Number_toString Number_toFixed runTask
                    req sessions) in
  sessions' = sessions
  \/ exists id data message answer,
       Session.get id sessions = Some data
       /\ JSString.truthy answer = true
       /\ sessions' = Session.set id (withExchange data message answer) sessions.
Proof.
  cbv zeta.
  destruct (handleChat_cases ArrayBuffer Bytes Number_toString Number_toFixed
              runTask req sessions)
    as [H|[H|[H|(body & id & msg & data & reply & data' & _ & _ & _ & _ & Hget
                 & Hchat & H)]]];
    rewrite H; cbn [snd]; try (now left).
  destruct (ChatFacts.chatWithAgent_data Number_toString Number_toFixed
              runTask data msg reply data' Hchat) as [->|[full ->]].
  - left.
    unfold Session.set, Session.get in *. rewrite Hget.
    clear -Hget. induction sessions as [|[k v] l IH]; [discriminate|].
    cbn [JSObject.get JSObject.overwrite] in *.
    destruct (String.eqb id k); [congruence | now rewrite IH].
  - right. exists id, data, msg, (finalTextOf full).
    split; [exact Hget|]. split; [apply ChatFacts.finalTextOf_truthy|].
    reflexivity.
Qed.

Lemma serve_store clock uuid (req : Http.Request ArrayBuffer) sessions :
  let sessions' :=
    snd (serve ArrayBuffer Bytes XLSX_first_sheet Number_toString
               Number_toFixed runTask readFile clock uuid req sessions) in
  sessions' = sessions
  \/ sessions'
     = snd (handleUpload ArrayBuffer Bytes XLSX_first_sheet Number_toString
                         clock uuid req sessions)
  \/ sessions'
     = snd (handleChat ArrayBuffer Bytes Number_toString Number_toFixed
                       runTask req sessions).
Proof.
  unfold serve. cbv zeta.
  destruct (String.eqb (Http.method req) "OPTIONS"); [now left|].
  destruct (String.eqb (Http.path req) "/"
            || String.eqb (Http.path req) "/index.html"); [now left|].
  destruct (String.eqb (Http.path req) "/sample_txns.csv"); [now left|].
  destruct (String.eqb (Http.path req) "/api/upload"
            && String.eqb (Http.method req) "POST").
  { right; left. now destruct (handleUpload _ _ _ _ _ _ _ _). }
  destruct (String.eqb (Http.path req) "/api/chat"
            && String.eqb (Http.method req) "POST").
  { right; right. now destruct (handleChat _ _ _ _ _ _ _). }
  now left.
Qed.

Lemma invariant_serve clock uuid (req : Http.Request ArrayBuffer) sessions :
  storeInvariant sessions ->
  storeInvariant
    (snd (serve ArrayBuffer Bytes XLSX_first_sheet Number_toString
                Number_toFixed runTask readFile clock uuid req sessions)).
Proof.
  intros Hinv.
  destruct (serve_store clock uuid req sessions) as [->|[->| ->]];
    [assumption | |].
  - destruct (handleUpload_store clock uuid req sessions)
      as [->|(transactions & fileName & ->)]; [assumption|].
    now apply invariant_set.
  - destruct (handleChat_store req sessions)
      as [->|(id & data & message & answer & Hget & Ha & ->)]; [assumption|].
    destruct Hinv as [Hnd Hall]. destruct (Hall id data Hget) as (H1 & H2 & H3).
    apply invariant_set; try assumption; [split; assumption|].
    cbn [withExchange Session.conversationHistory].
    now apply exchanges_app.
Qed.

End Steps.

Lemma sheetKept_complete row : forall rows i,
  In row rows -> sheetResolved row = true ->
  exists k, In (k, row) (sheetKept rows i).
Proof.
  induction rows as [|r rest IH]; intros i Hin Hres; [destruct Hin|].
  simpl. destruct Hin as [->|Hin].
  - rewrite Hres. exists i. now left.
  - destruct (IH (S i) Hin Hres) as [k Hk]. exists k.
    destruct (sheetResolved r); [now right | assumption].
Qed.

Lemma asTransactions_returns Number_toString : forall l,
  (exists txs, asTransactions Number_toString l = Returns txs)
  <-> Forall (fun t => exists s, Stored.date t = Sheet.VString s) l.
Proof.
  induction l as [|t l IH]; cbn [asTransactions].
  - split; [constructor | intros _; now eexists].
  - unfold asTransaction at 1. split.
    + intros [txs H]. destruct (Stored.date t) as [| | | |s] eqn:E;
        try discriminate H.
      constructor; [now exists s|]. apply IH.
      destruct (asTransactions Number_toString l) as [txs'|e];
        [now eexists | discriminate H].
    + intros H. pose proof (Forall_inv H) as [s Hs].
      apply Forall_inv_tail in H. apply IH in H. destruct H as [txs' ->].
      rewrite Hs. now eexists.
Qed.

End StoreInvariantFacts.

(** X24.  The session store keeps an invariant, whatever is requested:
    no session id occurs twice, and the session stored under an id has
    this id, the currency "USD" and a history made of exchanges, each the
    entry of the user followed by a non-empty answer of the assistant.
    Every request preserves it, so it holds after any sequence of requests
    to a server that starts without sessions. *)
Theorem store_invariant_always_holds :
  forall (runtime : Runtime) (ArrayBuffer Bytes : Type)
         (XLSX_first_sheet : ArrayBuffer -> outcome (option (list Sheet.Row)))
         (Number_toString : number -> string)
         (Number_toFixed : number -> nat -> string)
         (runTask : string -> string -> outcome (list JSON.value))
         (readFile : string -> outcome Bytes),
    (forall (clock : nat -> string) (uuid : string)
            (req : Http.Request ArrayBuffer) (sessions : Session.Store),
       storeInvariant sessions ->
       storeInvariant
         (snd (serve ArrayBuffer Bytes XLSX_first_sheet Number_toString
                     Number_toFixed runTask readFile clock uuid req sessions)))
    /\ forall requests,
         storeInvariant
           (serveAll ArrayBuffer Bytes XLSX_first_sheet Number_toString
                     Number_toFixed runTask readFile requests []).
Proof.
  intros runtime ArrayBuffer Bytes XLSX_first_sheet Number_toString
         Number_toFixed runTask readFile.
  split; [intros; now apply StoreInvariantFacts.invariant_serve|].
  assert (H : forall requests sessions,
            storeInvariant sessions ->
            storeInvariant
              (serveAll ArrayBuffer Bytes XLSX_first_sheet Number_toString
                        Number_toFixed runTask readFile requests sessions)).
  { induction requests as [|[[clock uuid] req] requests IH];
      intros sessions Hinv; [exact Hinv|].
    unfold serveAll. cbn [fold_left]. apply IH.
    now apply StoreInvariantFacts.invariant_serve. }
  intros requests. apply H. split; [constructor|].
  intros id data Hget. discriminate Hget.
Qed.

(** X25.  The upload of a spreadsheet from which the library reads rows
    is answered with status 200 exactly when the date cell of every row
    that is kept is a string or falsy; a single date cell that holds a
    number, or [true], makes the answer 500. *)
Theorem spreadsheet_upload_needs_text_dates :
  forall (runtime : Runtime) (ArrayBuffer Bytes : Type)
         (XLSX_first_sheet : ArrayBuffer -> outcome (option (list Sheet.Row)))
         (Number_toString : number -> string)
         (clock : nat -> string) (uuid : string)
         (req : Http.Request ArrayBuffer) (sessions : Session.Store)
         (file : Http.File ArrayBuffer) (rows : list Sheet.Row),
    Http.formFile req = Returns (Some (Http.FormFile file)) ->
    fileExt (Http.name file) = "xlsx" \/ fileExt (Http.name file) = "xls" ->
    XLSX_first_sheet (Http.arrayBuffer file) = Returns (Some rows) ->
    let response :=
      fst (handleUpload ArrayBuffer Bytes XLSX_first_sheet Number_toString
                        clock uuid req sessions) in
    (Http.status response = 200
     <-> forall row, In row rows -> sheetResolved row = true ->
                     dateCellIsText row = true)
    /\ (Http.status response = 200 \/ Http.status response = 500).
Proof.
  intros runtime ArrayBuffer Bytes XLSX_first_sheet Number_toString clock uuid
         req sessions file rows Hform Hext Hlib response.
  set (txs := map (fun '(k, r) => sheetTransaction Number_toString clock k r)
                  (sheetKept rows 0)).
  assert (Hparse :
            parseExcel ArrayBuffer XLSX_first_sheet Number_toString clock
                       (Http.arrayBuffer file) = Returns txs).
  { unfold parseExcel. rewrite Hlib.
    destruct rows as [|r0 rest]; [reflexivity|].
    cbn [List.length Nat.eqb]. now rewrite parseExcel_rows_spec. }
  assert (Hcsv : String.eqb (fileExt (Http.name file)) "csv" = false)
    by (destruct Hext as [-> | ->]; reflexivity).
  assert (Hxl : String.eqb (fileExt (Http.name file)) "xlsx"
                || String.eqb (fileExt (Http.name file)) "xls" = true)
    by (destruct Hext as [-> | ->]; reflexivity).
  assert (Hdates :
            Forall (fun t => exists s, Stored.date t = Sheet.VString s)
                   (map ofSheet txs)
            <-> forall row, In row rows -> sheetResolved row = true ->
                            dateCellIsText row = true).
  { rewrite Forall_forall. unfold txs. split.
    - intros H row Hin Hres.
      destruct (StoreInvariantFacts.sheetKept_complete row rows 0 Hin Hres)
        as [k Hk].
      destruct (H (ofSheet (sheetTransaction Number_toString clock k row)))
        as [s Hs].
      { apply in_map.
        apply (in_map (fun '(k, r) =>
                         sheetTransaction Number_toString clock k r)
                      _ (k, row) Hk). }
      unfold dateCellIsText. cbn [ofSheet Stored.date sheetTransaction Sheet.date]
        in Hs. unfold Sheet.orElse in Hs.
      destruct (Sheet.truthy (sheetCell Sheet.isDateKey row)) eqn:E.
      + now rewrite Hs.
      + destruct (sheetCell Sheet.isDateKey row); simpl in *;
          try reflexivity; now rewrite E.
    - intros H t Ht. apply in_map_iff in Ht. destruct Ht as (t' & <- & Ht').
      apply in_map_iff in Ht'. destruct Ht' as ([k row] & <- & Hk).
      apply sheetKept_In in Hk. destruct Hk as (_ & Hnth & Hres).
      apply nth_error_In in Hnth. specialize (H row Hnth Hres).
      unfold dateCellIsText in H.
      cbn [ofSheet Stored.date sheetTransaction Sheet.date].
      unfold Sheet.orElse.
      destruct (sheetCell Sheet.isDateKey row) as [| |b|x|s] eqn:E;
        cbn [Sheet.truthy] in *;
        try (eexists; reflexivity);
        try (apply negb_true_iff in H; rewrite H; eexists; reflexivity).
      destruct (JSString.truthy s); eexists; reflexivity. }
  rewrite <- Hdates,
    <- (StoreInvariantFacts.asTransactions_returns Number_toString).
  unfold response, handleUpload. rewrite Hform. cbv zeta.
  rewrite Hcsv, Hxl, Hparse. unfold generateReportOf.
  destruct (asTransactions Number_toString (map ofSheet txs)) as [l|e];
    cbn [fst jsonResponse Http.newResponse Http.status].
  - split; [|now left]. split; [intros _; now eexists | reflexivity].
  - split; [|now right].
    split; [intros H; discriminate H | intros [l H]; discriminate H].
Qed.

(** [spreadsheet_upload_needs_text_dates] on a sheet with a date written
    as text. *)
Lemma spreadsheet_upload_witness :
  let row : Sheet.Row :=
    [("Date", Sheet.VString "2024-01-05"); ("Amount", Sheet.VNumber 12.5)] in
  let lib := fun _ : unit => Returns (Some [row]) in
  let file :=
    {| Http.name := "january.xlsx"; Http.text := "";
       Http.arrayBuffer := tt |} in
  let req :=
    {| Http.method := "POST"; Http.path := "/api/upload";
       Http.formFile := Returns (Some (Http.FormFile file));
       Http.json := Throws TypeError |} in
  dateCellIsText row = true
  /\ Http.status
       (fst (handleUpload (runtime := Deno) unit unit lib (fun _ => "12.5")
               (fun _ => "2026-11-01T09:30:00.000Z") "session-1" req []))
     = 200.
Proof.
  intros row lib file req.
  assert (Hrow : dateCellIsText row = true) by reflexivity.
  split; [exact Hrow|].
  assert (Hform : Http.formFile req = Returns (Some (Http.FormFile file)))
    by reflexivity.
  assert (Hext : fileExt (Http.name file) = "xlsx"
                 \/ fileExt (Http.name file) = "xls") by (left; reflexivity).
  assert (Hlib : lib (Http.arrayBuffer file) = Returns (Some [row]))
    by reflexivity.
  destruct (spreadsheet_upload_needs_text_dates Deno unit unit lib (fun _ => "12.5")
              (fun _ => "2026-11-01T09:30:00.000Z") "session-1" req [] file
              [row] Hform Hext Hlib) as [[_ H] _].
  apply H. intros r [<-|[]] _. exact Hrow.
Defined.
